(** * genshin-translator: persona learner, persona store, lexical
    normalizer and translation filler

    A shallow embedding of [agents/normalizer.py], [agents/persona_learner.py],
    [fill_translations.py] and the translation handler of [streamlit_app.py],
    with the properties the specification states about them.

    Conventions of the embedding.
    - A Python [str] is a Rocq [string]: the sequence of bytes of its UTF-8
      encoding.  White space ([strip]) is Unicode's.  Letter case ([upper],
      [lower], [isupper], [istitle]) and the regular expression class [\w]
      are embedded for ASCII text, bytes outside ASCII counting as uncased
      and as no word characters; the statements that depend on them carry
      an ASCII premise.  A lone surrogate, which a [str] can hold and UTF-8
      cannot encode, is the three bytes ED A0..BF xx of its code point.
    - A raised exception is a value of [exn]; fallible code returns
      [result A].
    - A pandas cell is missing ([NA], pandas' NaN) or holds a value, kept by
      the text [str(value)] yields ([Val]).  A frame records the columns
      whose dtype refuses a text: pandas 3 raises [TypeError] when a text is
      written into a cell of a numeric column (earlier versions convert the
      column, and then no column refuses).  The keys of the groups of a
      column are embedded for a column of texts.
    - The text completion gateway is an effect: a world is threaded through
      the calls and every call is appended to a log.
    - [time.sleep], the keyboard interrupt and the files of the sheets are
      not part of the embedding: a program starts from the loaded frame and
      ends with the frame it saves. *)

From Stdlib Require Import ZArith Ascii String List Lia Bool.
From stdpp Require Import base option list strings pretty gmap sorting.

Set Warnings "-register-all".

Local Open Scope Z_scope.

(** ** Exceptions and results *)

Inductive exn : Type :=
| CsvMissingColumns (missing : list string)
    (* ValueError(f"CSV missing columns: {missing}") *)
| MissingColumn (col : string)
    (* ValueError(f"Missing column: {col}") *)
| RuntimeError (msg : string)
| JSONDecodeError
| ValidationError
| AttributeError
| TypeError
| FileNotFoundError
| UnicodeEncodeError.

Inductive result (A : Type) : Type :=
| Ok (a : A)
| Raise (e : exn).
Arguments Ok {A} a.
Arguments Raise {A} e.

Definition bind {A B} (r : result A) (k : A → result B) : result B :=
  match r with
  | Ok a => k a
  | Raise e => Raise e
  end.

Global Instance result_bind : MBind result := λ A B k r, bind r k.
Global Instance result_ret : MRet result := @Ok.

(** [try_except r h] is Python's [try: r  except Exception as e: h e]. *)
Definition try_except {A} (r : result A) (h : exn → result A) : result A :=
  match r with
  | Ok a => Ok a
  | Raise e => h e
  end.

(** ** Python's [str] methods *)

Module Py.

Definition code (c : ascii) : nat := nat_of_ascii c.

Definition in_range (lo hi : nat) (c : ascii) : bool :=
  (Nat.leb lo (code c)) && (Nat.leb (code c) hi).

Definition is_upper_c : ascii → bool := in_range 65 90.
Definition is_lower_c : ascii → bool := in_range 97 122.
Definition is_digit_c : ascii → bool := in_range 48 57.
Definition is_cased_c (c : ascii) : bool := is_upper_c c || is_lower_c c.

(** [str.isspace] on ASCII: TAB, LF, VT, FF, CR, FS, GS, RS, US, SPACE. *)
Definition is_space_c (c : ascii) : bool :=
  in_range 9 13 c || in_range 28 32 c.

Definition upper_c (c : ascii) : ascii :=
  if is_lower_c c then ascii_of_nat (code c - 32) else c.
Definition lower_c (c : ascii) : ascii :=
  if is_upper_c c then ascii_of_nat (code c + 32) else c.

Fixpoint smap (f : ascii → ascii) (s : string) : string :=
  match s with
  | EmptyString => EmptyString
  | String c r => String (f c) (smap f r)
  end.

Fixpoint sall (p : ascii → bool) (s : string) : bool :=
  match s with
  | EmptyString => true
  | String c r => p c && sall p r
  end.

Fixpoint sany (p : ascii → bool) (s : string) : bool :=
  match s with
  | EmptyString => false
  | String c r => p c || sany p r
  end.

Definition ascii_only : string → bool := sall (in_range 0 127).

Definition upper : string → string := smap upper_c.
Definition lower : string → string := smap lower_c.

(** [str.capitalize]: first character upper-cased, the rest lower-cased. *)
Definition capitalize (s : string) : string :=
  match s with
  | EmptyString => EmptyString
  | String c r => String (upper_c c) (lower r)
  end.

(** [str.isupper]: no lower-case character and at least one cased one. *)
Definition isupper (s : string) : bool :=
  sall (fun c => negb (is_lower_c c)) s && sany is_cased_c s.

(** [str.istitle], the loop of CPython's [unicode_istitle_impl]:
    an upper-case character may only follow an uncased one, a lower-case
    character only a cased one, and there is at least one cased one. *)
Fixpoint istitle_from (previous_is_cased cased : bool) (s : string) : bool :=
  match s with
  | EmptyString => cased
  | String ch r =>
      if is_upper_c ch then
        if previous_is_cased then false else istitle_from true true r
      else if is_lower_c ch then
        if previous_is_cased then istitle_from true true r else false
      else istitle_from false cased r
  end.
Definition istitle : string → bool := istitle_from false false.

(** [str.isspace] beyond ASCII, on the UTF-8 bytes of the character:
    U+0085 and U+00A0 (two bytes); U+1680, U+2000 to U+200A, U+2028, U+2029,
    U+202F, U+205F and U+3000 (three bytes). *)
Definition is_space2 (b1 b2 : ascii) : bool :=
  Nat.eqb (code b1) 194 && (Nat.eqb (code b2) 133 || Nat.eqb (code b2) 160).

Definition is_space3 (b1 b2 b3 : ascii) : bool :=
  (Nat.eqb (code b1) 225 && Nat.eqb (code b2) 154 && Nat.eqb (code b3) 128)
  || (Nat.eqb (code b1) 226 && Nat.eqb (code b2) 128
      && (in_range 128 138 b3 || in_range 168 169 b3 || Nat.eqb (code b3) 175))
  || (Nat.eqb (code b1) 226 && Nat.eqb (code b2) 129 && Nat.eqb (code b3) 159)
  || (Nat.eqb (code b1) 227 && Nat.eqb (code b2) 128 && Nat.eqb (code b3) 128).

(** [str.lstrip()]: the white space characters at the start are removed. *)
Fixpoint lstrip (s : string) : string :=
  match s with
  | EmptyString => EmptyString
  | String b1 r1 =>
      if is_space_c b1 then lstrip r1 else
      match r1 with
      | EmptyString => s
      | String b2 r2 =>
          if is_space2 b1 b2 then lstrip r2 else
          match r2 with
          | EmptyString => s
          | String b3 r3 => if is_space3 b1 b2 b3 then lstrip r3 else s
          end
      end
  end.

(** The same from the end, on the reversed text. *)
Fixpoint lstrip_reversed (s : string) : string :=
  match s with
  | EmptyString => EmptyString
  | String b1 r1 =>
      if is_space_c b1 then lstrip_reversed r1 else
      match r1 with
      | EmptyString => s
      | String b2 r2 =>
          if is_space2 b2 b1 then lstrip_reversed r2 else
          match r2 with
          | EmptyString => s
          | String b3 r3 =>
              if is_space3 b3 b2 b1 then lstrip_reversed r3 else s
          end
      end
  end.

Fixpoint srev_onto (s acc : string) : string :=
  match s with
  | EmptyString => acc
  | String c r => srev_onto r (String c acc)
  end.
Definition srev (s : string) : string := srev_onto s EmptyString.

(** [str.rstrip()] and [str.strip()] *)
Definition rstrip (s : string) : string := srev (lstrip_reversed (srev s)).
Definition strip (s : string) : string := rstrip (lstrip s).

(** [s.encode("utf-8")] raises [UnicodeEncodeError] exactly when [s] holds
    a surrogate code point, kept here in the three-byte form
    ED A0..BF 80..BF (ED starts no other character at or above U+D800). *)
Fixpoint has_surrogate (s : string) : bool :=
  match s with
  | EmptyString => false
  | String b1 r =>
      match r with
      | EmptyString => false
      | String b2 _ =>
          (Nat.eqb (code b1) 237 && in_range 160 191 b2) || has_surrogate r
      end
  end.

(** [sep.join(parts)] *)
Fixpoint join (sep : string) (parts : list string) : string :=
  match parts with
  | [] => ""
  | [p] => p
  | p :: ps => p +:+ sep +:+ join sep ps
  end.

(** [l[:n]] for any integer [n]: a negative [n] counts from the end. *)
Definition slice_to {A} (l : list A) (n : Z) : list A :=
  if 0 <=? n then take (Z.to_nat n) l
  else take (Z.to_nat (Z.of_nat (length l) + n)) l.

(** [s.find(c)] and [s.rfind(c)] for a one-character needle: the index of
    the first (last) occurrence, or -1. *)
Fixpoint find_c (c : ascii) (s : string) : Z :=
  match s with
  | EmptyString => -1
  | String d r =>
      if Ascii.eqb c d then 0
      else let i := find_c c r in if i <? 0 then -1 else 1 + i
  end.

Fixpoint rfind_c (c : ascii) (s : string) : Z :=
  match s with
  | EmptyString => -1
  | String d r =>
      let i := rfind_c c r in
      if 0 <=? i then 1 + i
      else if Ascii.eqb c d then 0 else -1
  end.

(** [s[start:stop]] with Python's treatment of negative and
    out-of-range bounds. *)
Definition clamp_index (len i : Z) : Z :=
  let j := if i <? 0 then i + len else i in
  Z.max 0 (Z.min len j).

Definition substr (s : string) (start stop : Z) : string :=
  let len := Z.of_nat (String.length s) in
  let a := clamp_index len start in
  let b := clamp_index len stop in
  String.substring (Z.to_nat a) (Z.to_nat (b - a)) s.

End Py.

(** ** JSON values, as [json.load] builds them *)

(** A Python [float] read from a JSON text: the decimal [m * 10^e] of the
    literal, or one of the three constants [json] accepts. *)
Inductive pyfloat : Type :=
| FDec (m e : Z)
| FNaN
| FInf
| FNegInf.

(** A JSON object is a Python [dict]: an association list in insertion
    order, whose keys are pairwise distinct. *)
Inductive json : Type :=
| JNull
| JBool (b : bool)
| JInt (z : Z)
| JFloat (f : pyfloat)
| JStr (s : string)
| JArr (items : list json)
| JObj (fields : list (string * json)).

Module Dict.

Fixpoint get {V} (k : string) (d : list (string * V)) : option V :=
  match d with
  | [] => None
  | (k', v) :: d' => if String.eqb k k' then Some v else get k d'
  end.

(** [d[k] = v]: an existing key keeps its position, a new key goes last. *)
Fixpoint set {V} (k : string) (v : V) (d : list (string * V))
  : list (string * V) :=
  match d with
  | [] => [(k, v)]
  | (k', v') :: d' =>
      if String.eqb k k' then (k, v) :: d' else (k', v') :: set k v d'
  end.

Definition keys {V} (d : list (string * V)) : list string := d.*1.

End Dict.

(** [bool(x)] of a value [json.load] returned.  A decimal literal is a zero
    float when it is zero or rounds to zero in binary64, that is when its
    magnitude is at most [2^-1075]. *)
Definition float_truthy (f : pyfloat) : bool :=
  match f with
  | FDec m e =>
      if 0 <=? e then negb (m =? 0)
      else 10 ^ (- e) <? Z.abs m * 2 ^ 1075
  | _ => true
  end.

Definition truthy (v : json) : bool :=
  match v with
  | JNull => false
  | JBool b => b
  | JInt z => negb (z =? 0)
  | JFloat f => float_truthy f
  | JStr s => negb (String.eqb s "")
  | JArr l => match l with [] => false | _ => true end
  | JObj d => match d with [] => false | _ => true end
  end.

(** ** agents/normalizer.py *)

Module Normalizer.

Definition DEFAULT_KBBI_MAP : gmap string json :=
  {[ "udah" := JStr "sudah" ]}.

(** *** The pattern [\b([\w\-']+)\b] *)

(** [\w] *)
Definition is_word_c (c : ascii) : bool :=
  Py.is_upper_c c || Py.is_lower_c c || Py.is_digit_c c
  || Ascii.eqb c "_"%char.

(** [[\w\-']] *)
Definition in_class (c : ascii) : bool :=
  is_word_c c || Ascii.eqb c "-"%char || Ascii.eqb c "'"%char.

Definition is_word_o (o : option ascii) : bool :=
  match o with
  | Some c => is_word_c c
  | None => false
  end.

(** [\b] between the character before and the character after the
    position ([None] at either end of the text). *)
Definition boundary (prev next : option ascii) : bool :=
  xorb (is_word_o prev) (is_word_o next).

(** The class has consumed [c]; [s] follows.  The greedy [+] takes as many
    further characters as it can and gives them back one at a time until
    the closing [\b] holds: [match_end c s] is the rest of the match
    after [c] and the text left after the match. *)
Fixpoint match_end (c : ascii) (s : string) : option (string * string) :=
  match s with
  | EmptyString =>
      if boundary (Some c) None then Some (EmptyString, EmptyString)
      else None
  | String d r =>
      if in_class d then
        match match_end d r with
        | Some (tok, rest) => Some (String d tok, rest)
        | None =>
            if boundary (Some c) (Some d) then Some (EmptyString, s)
            else None
        end
      else if boundary (Some c) (Some d) then Some (EmptyString, s)
      else None
  end.

(** A match that starts exactly at the head of [s], [prev] being the
    character before it. *)
Definition match_at (prev : option ascii) (s : string)
  : option (string * string) :=
  match s with
  | EmptyString => None
  | String c r =>
      if boundary prev (Some c) && in_class c then
        match match_end c r with
        | Some (tok, rest) => Some (String c tok, rest)
        | None => None
        end
      else None
  end.

(** [_WORD_RE.sub(repl, text)], scanning left to right.  [skip] counts the
    characters of the current match that are still to be passed over.  The
    result is the list [re.sub] joins at its end: the text outside the
    matches is copied, and what [repl] returned for a match is appended
    unless it is [None]. *)
Fixpoint sub_from (repl : string → result json) (skip : nat)
    (prev : option ascii) (s : string) : result (list json) :=
  match s with
  | EmptyString => Ok []
  | String c r =>
      match skip with
      | S k => sub_from repl k (Some c) r
      | O =>
          match match_at prev s with
          | Some (tok, _) =>
              out ← repl tok;
              tl ← sub_from repl (String.length tok - 1) (Some c) r;
              Ok (match out with JNull => tl | _ => out :: tl end)
          | None =>
              tl ← sub_from repl 0 (Some c) r;
              Ok (JStr (String c EmptyString) :: tl)
          end
      end
  end.

(** The join of the list: an item that is not a [str] raises
    [TypeError], after every match has been handed to [repl]. *)
Fixpoint join_list (items : list json) : result string :=
  match items with
  | [] => Ok EmptyString
  | JStr s :: items' => tl ← join_list items'; Ok (s +:+ tl)
  | _ :: _ => Raise TypeError
  end.

Definition re_sub (repl : string → result json) (text : string)
  : result string :=
  items ← sub_from repl 0 None text;
  join_list items.

(** *** The module's functions *)

(** [dst] is whatever the map holds: [dst.upper()] and
    [dst.capitalize()] need a [str]; otherwise [dst] is returned as it
    is. *)
Definition _match_casing (src : string) (dst : json) : result json :=
  if Py.isupper src then
    match dst with
    | JStr d => Ok (JStr (Py.upper d))
    | _ => Raise AttributeError
    end
  else if Py.istitle src then
    match dst with
    | JStr d => Ok (JStr (Py.capitalize d))
    | _ => Raise AttributeError
    end
  else Ok dst.

(** [mapping = {**DEFAULT_KBBI_MAP}] then, for a truthy [custom_map],
    [mapping.update({k.lower(): v for k, v in custom_map.items()})]. *)
Definition effective_map (custom_map : option json)
  : result (gmap string json) :=
  match custom_map with
  | None => Ok DEFAULT_KBBI_MAP
  | Some cm =>
      if truthy cm then
        match cm with
        | JObj d =>
            Ok (foldl (fun m kv => <[Py.lower kv.1 := kv.2]> m)
                  DEFAULT_KBBI_MAP d)
        | _ => Raise AttributeError
        end
      else Ok DEFAULT_KBBI_MAP
  end.

Definition repl (mapping : gmap string json) (w : string) : result json :=
  let low := Py.lower w in
  match mapping !! low with
  | Some dst => _match_casing w dst
  | None => Ok (JStr w)
  end.

Definition normalize_indonesian (text : string) (custom_map : option json)
  : result string :=
  mapping ← effective_map custom_map;
  re_sub (repl mapping) text.

End Normalizer.


(** *** Tokens, and the casing rule in the specification's words *)

Module NormalizerSpec.
Import Normalizer.

Fixpoint last_c (c : ascii) (s : string) : ascii :=
  match s with
  | EmptyString => c
  | String d r => last_c d r
  end.

(** A token of the pattern standing alone: class characters only, a word
    character first and last. *)
Definition is_token (w : string) : bool :=
  match w with
  | EmptyString => false
  | String c r => is_word_c c && Py.sall in_class r && is_word_c (last_c c r)
  end.

(** The text is empty or ends with a character outside the class of the
    pattern, so that a token after it starts a match of its own. *)
Definition ends_outside (s : string) : bool :=
  match s with
  | EmptyString => true
  | String c r => negb (in_class (last_c c r))
  end.

(** The text is empty or starts with a character outside the class, so
    that a token before it ends its match. *)
Definition starts_outside (s : string) : bool :=
  match s with
  | EmptyString => true
  | String c _ => negb (in_class c)
  end.

(** Every key of a custom map is ASCII text. *)
Definition ascii_keys (custom_map : option json) : bool :=
  match custom_map with
  | Some (JObj d) => forallb (λ kv, Py.ascii_only kv.1) d
  | _ => true
  end.


Definition letters_only : string → bool := Py.sall Py.is_cased_c.

(** "Title case (first letter capitalized, rest lower)". *)
Definition first_capital_rest_lower (w : string) : bool :=
  match w with
  | EmptyString => false
  | String c r => Py.is_upper_c c && Py.sall (λ d, negb (Py.is_upper_c d)) r
  end.

(** "If the original token is fully upper-case, the replacement is fully
    upper-cased; else if it is in title case (first letter capitalized,
    rest lower), the replacement is capitalized the same way; else the
    replacement is used exactly as stored." *)
Definition spec_casing (w dst : string) : string :=
  if Py.isupper w then Py.upper dst
  else if first_capital_rest_lower w then Py.capitalize dst
  else dst.

(** What the code computes: title case is [str.istitle]. *)
Definition code_casing (w dst : string) : string :=
  if Py.isupper w then Py.upper dst
  else if Py.istitle w then Py.capitalize dst
  else dst.

End NormalizerSpec.

(** ** The [json] module: [json.loads] and [json.dumps] *)

Module Json.

Definition dquote : ascii := "034"%char.
Definition backslash : ascii := "092"%char.

(** *** Decoder *)

(** [WHITESPACE = [ \t\n\r]*] *)
Definition is_ws (c : ascii) : bool :=
  Ascii.eqb c " "%char || Ascii.eqb c "009"%char
  || Ascii.eqb c "010"%char || Ascii.eqb c "013"%char.

Fixpoint skip_ws (s : string) : string :=
  match s with
  | EmptyString => EmptyString
  | String c r => if is_ws c then skip_ws r else s
  end.

(** [starts_with p s] is the rest of [s] after the prefix [p]. *)
Fixpoint starts_with (p s : string) : option string :=
  match p with
  | EmptyString => Some s
  | String c p' =>
      match s with
      | EmptyString => None
      | String d s' => if Ascii.eqb c d then starts_with p' s' else None
      end
  end.

Definition hex_val (c : ascii) : option N :=
  let n := N_of_ascii c in
  if Py.in_range 48 57 c then Some (n - 48)%N
  else if Py.in_range 97 102 c then Some (n - 87)%N
  else if Py.in_range 65 70 c then Some (n - 55)%N
  else None.

Definition hex4 (h1 h2 h3 h4 : ascii) : option N :=
  a ← hex_val h1; b ← hex_val h2; c ← hex_val h3; d ← hex_val h4;
  Some (((a * 16 + b) * 16 + c) * 16 + d)%N.

(** The UTF-8 bytes of a code point (a lone surrogate, which a Python [str]
    may hold, is written in the same three-byte form). *)
Definition utf8 (n : N) : string :=
  let b (k : N) := ascii_of_N k in
  (if n <? 128 then String (b n) EmptyString
   else if n <? 2048 then
     String (b (192 + n / 64)) (String (b (128 + n mod 64)) EmptyString)
   else if n <? 65536 then
     String (b (224 + n / 4096))
       (String (b (128 + (n / 64) mod 64))
          (String (b (128 + n mod 64)) EmptyString))
   else
     String (b (240 + n / 262144))
       (String (b (128 + (n / 4096) mod 64))
          (String (b (128 + (n / 64) mod 64))
             (String (b (128 + n mod 64)) EmptyString))))%N.

Definition is_high_surrogate (n : N) : bool := (55296 <=? n)%N && (n <=? 56319)%N.
Definition is_low_surrogate (n : N) : bool := (56320 <=? n)%N && (n <=? 57343)%N.

(** [BACKSLASH], the one-character escapes. *)
Definition simple_escape (e : ascii) : option ascii :=
  if Ascii.eqb e dquote then Some dquote
  else if Ascii.eqb e backslash then Some backslash
  else if Ascii.eqb e "/"%char then Some "/"%char
  else if Ascii.eqb e "b"%char then Some "008"%char
  else if Ascii.eqb e "f"%char then Some "012"%char
  else if Ascii.eqb e "n"%char then Some "010"%char
  else if Ascii.eqb e "r"%char then Some "013"%char
  else if Ascii.eqb e "t"%char then Some "009"%char
  else None.

(** The escape whose text [r] follows a backslash: the characters it
    stands for and how many characters of [r] it takes.  A high surrogate
    followed by an escaped low surrogate is one code point. *)
Definition decode_escape (r : string) : option (string * nat) :=
  match r with
  | EmptyString => None
  | String e r1 =>
      if Ascii.eqb e "u"%char then
        match r1 with
        | String h1 (String h2 (String h3 (String h4 r2))) =>
            uni ← hex4 h1 h2 h3 h4;
            let single := Some (utf8 uni, 5%nat) in
            if is_high_surrogate uni then
              match r2 with
              | String b (String u (String g1 (String g2 (String g3 (String g4 _))))) =>
                  if Ascii.eqb b backslash && Ascii.eqb u "u"%char then
                    match hex4 g1 g2 g3 g4 with
                    | Some uni2 =>
                        if is_low_surrogate uni2 then
                          Some (utf8 (65536 + (uni - 55296) * 1024
                                      + (uni2 - 56320))%N, 11%nat)
                        else single
                    | None => single
                    end
                  else single
              | _ => single
              end
            else single
        | _ => None
        end
      else
        c ← simple_escape e; Some (String c EmptyString, 1%nat)
  end.

(** [scanstring], strict: the text after an opening quote up to the closing
    one.  [skip] counts the characters of the current escape that are still
    to be passed over. *)
Fixpoint scanstring_from (skip : nat) (s : string) : option (string * string) :=
  match s with
  | EmptyString => None
  | String c r =>
      match skip with
      | S k => scanstring_from k r
      | O =>
          if Ascii.eqb c dquote then Some (EmptyString, r)
          else if Ascii.eqb c backslash then
            '(chars, n) ← decode_escape r;
            '(str, rest) ← scanstring_from n r;
            Some (chars +:+ str, rest)
          else if Py.in_range 0 31 c then None
          else
            '(str, rest) ← scanstring_from 0 r;
            Some (String c str, rest)
      end
  end.

Definition scanstring : string → option (string * string) := scanstring_from 0.

Fixpoint span_digits (s : string) : string * string :=
  match s with
  | EmptyString => (EmptyString, EmptyString)
  | String c r =>
      if Py.is_digit_c c then
        let '(ds, rest) := span_digits r in (String c ds, rest)
      else (EmptyString, s)
  end.

Fixpoint digits_value (acc : Z) (ds : string) : Z :=
  match ds with
  | EmptyString => acc
  | String c r => digits_value (10 * acc + (Z.of_nat (Py.code c) - 48)) r
  end.

(** [NUMBER_RE]: an optional minus sign, then 0 or a digit 1-9 followed by
    digits; optionally a dot and one or more digits; optionally e or E, an
    optional sign and one or more digits.  The value is an [int] when there
    is neither fraction nor exponent, a [float] otherwise. *)
Definition match_int_part (s : string) : option (string * string) :=
  match s with
  | EmptyString => None
  | String c r =>
      if Ascii.eqb c "0"%char then Some (String c EmptyString, r)
      else if Py.is_digit_c c then
        let '(ds, rest) := span_digits r in Some (String c ds, rest)
      else None
  end.

Definition match_frac (s : string) : string * string :=
  match s with
  | String c r =>
      if Ascii.eqb c "."%char then
        match span_digits r with
        | (EmptyString, _) => (EmptyString, s)
        | (ds, rest) => (ds, rest)
        end
      else (EmptyString, s)
  | EmptyString => (EmptyString, s)
  end.

Definition match_exp (s : string) : option Z * string :=
  match s with
  | String c r =>
      if Ascii.eqb c "e"%char || Ascii.eqb c "E"%char then
        let '(neg, r1) :=
          match r with
          | String sg r' =>
              if Ascii.eqb sg "-"%char then (true, r')
              else if Ascii.eqb sg "+"%char then (false, r')
              else (false, r)
          | EmptyString => (false, r)
          end in
        match span_digits r1 with
        | (EmptyString, _) => (None, s)
        | (ds, rest) =>
            (Some (if neg then - digits_value 0 ds else digits_value 0 ds), rest)
        end
      else (None, s)
  | EmptyString => (None, s)
  end.

Definition match_number (s : string) : option (json * string) :=
  let '(neg, s1) :=
    match s with
    | String c r => if Ascii.eqb c "-"%char then (true, r) else (false, s)
    | EmptyString => (false, s)
    end in
  '(ip, r1) ← match_int_part s1;
  let '(fd, r2) := match_frac r1 in
  let '(ex, r3) := match_exp r2 in
  let sign (z : Z) := if neg then - z else z in
  match fd, ex with
  | EmptyString, None => Some (JInt (sign (digits_value 0 ip)), r3)
  | _, _ =>
      Some (JFloat (FDec (sign (digits_value (digits_value 0 ip) fd))
                      (default 0 ex - Z.of_nat (String.length fd))), r3)
  end.

(** A literal or a number, the cases of [scan_once] besides strings,
    objects and arrays, in its order. *)
Definition scan_atom (s : string) : option (json * string) :=
  match starts_with "null" s with Some r => Some (JNull, r) | None =>
  match starts_with "true" s with Some r => Some (JBool true, r) | None =>
  match starts_with "false" s with Some r => Some (JBool false, r) | None =>
  match match_number s with Some res => Some res | None =>
  match starts_with "NaN" s with Some r => Some (JFloat FNaN, r) | None =>
  match starts_with "Infinity" s with Some r => Some (JFloat FInf, r) | None =>
  match starts_with "-Infinity" s with Some r => Some (JFloat FNegInf, r) | None =>
  None
  end end end end end end end.

(** [scan_once], [JSONArray] and [JSONObject].  Each call takes at least
    one character of the text, so a fuel above twice its length is never
    used up.  The interpreter's own limits (the recursion depth, the number
    of digits of an [int] literal) are not part of the embedding. *)
Fixpoint scan_once (fuel : nat) (s : string) : option (json * string) :=
  match fuel with
  | O => None
  | S f =>
      match s with
      | EmptyString => None
      | String c r =>
          if Ascii.eqb c dquote then
            '(str, rest) ← scanstring r; Some (JStr str, rest)
          else if Ascii.eqb c "{"%char then
            match skip_ws r with
            | String d r1 =>
                if Ascii.eqb d "}"%char then Some (JObj [], r1)
                else if Ascii.eqb d dquote then scan_members f [] r1
                else None
            | EmptyString => None
            end
          else if Ascii.eqb c "["%char then
            match skip_ws r with
            | String d r1 =>
                if Ascii.eqb d "]"%char then Some (JArr [], r1)
                else scan_items f [] (String d r1)
            | EmptyString => None
            end
          else scan_atom s
      end
  end
with scan_items (fuel : nat) (acc : list json) (s : string)
  : option (json * string) :=
  match fuel with
  | O => None
  | S f =>
      '(v, r1) ← scan_once f s;
      match skip_ws r1 with
      | String d r2 =>
          if Ascii.eqb d "]"%char then Some (JArr (acc ++ [v]), r2)
          else if Ascii.eqb d ","%char then scan_items f (acc ++ [v]) (skip_ws r2)
          else None
      | EmptyString => None
      end
  end
with scan_members (fuel : nat) (acc : list (string * json)) (s : string)
  : option (json * string) :=
  match fuel with
  | O => None
  | S f =>
      '(key, r1) ← scanstring s;
      match skip_ws r1 with
      | String d r2 =>
          if Ascii.eqb d ":"%char then
            '(v, r3) ← scan_once f (skip_ws r2);
            let acc' := Dict.set key v acc in
            match skip_ws r3 with
            | String d' r4 =>
                if Ascii.eqb d' "}"%char then Some (JObj acc', r4)
                else if Ascii.eqb d' ","%char then
                  match skip_ws r4 with
                  | String q r5 =>
                      if Ascii.eqb q dquote then scan_members f acc' r5
                      else None
                  | EmptyString => None
                  end
                else None
            | EmptyString => None
            end
          else None
      | EmptyString => None
      end
  end.

(** [json.loads(s)]: one value between optional white space, nothing
    after it. *)
Definition loads (s : string) : result json :=
  match scan_once (2 * String.length s + 2) (skip_ws s) with
  | Some (v, rest) =>
      match skip_ws rest with
      | EmptyString => Ok v
      | _ => Raise JSONDecodeError
      end
  | None => Raise JSONDecodeError
  end.

(** *** Encoder, [json.dumps(obj, ensure_ascii=False, indent=2)] *)

Definition hex_digit (n : N) : ascii :=
  (if n <? 10 then ascii_of_N (48 + n) else ascii_of_N (87 + n))%N.

(** [ESCAPE] and [ESCAPE_DCT]: the quote, the backslash and the control
    characters are escaped, everything else is written as it is. *)
Definition escape_char (c : ascii) : string :=
  let two (e : ascii) := String backslash (String e EmptyString) in
  if Ascii.eqb c dquote then two dquote
  else if Ascii.eqb c backslash then two backslash
  else if Ascii.eqb c "010"%char then two "n"%char
  else if Ascii.eqb c "013"%char then two "r"%char
  else if Ascii.eqb c "009"%char then two "t"%char
  else if Ascii.eqb c "008"%char then two "b"%char
  else if Ascii.eqb c "012"%char then two "f"%char
  else if Py.in_range 0 31 c then
    let n := N_of_ascii c in
    String backslash
      (String "u" (String "0" (String "0"
         (String (hex_digit (n / 16)%N)
            (String (hex_digit (n mod 16)%N) EmptyString)))))
  else String c EmptyString.

Fixpoint escape (s : string) : string :=
  match s with
  | EmptyString => EmptyString
  | String c r => escape_char c +:+ escape r
  end.

Definition encode_basestring (s : string) : string :=
  String dquote (escape s +:+ String dquote EmptyString).

Fixpoint spaces (n : nat) : string :=
  match n with
  | O => EmptyString
  | S k => String " " (spaces k)
  end.

(** ['\n' + indent * level] *)
Definition newline_indent (level : nat) : string :=
  String "010" (spaces (2 * level)).

Section Encoder.

(** [float.__repr__], with [NaN], [Infinity] and [-Infinity] for the
    non-finite values: a parameter of the encoder. *)
Variable float_repr : pyfloat → string.

(** [_iterencode]: an empty list or dict is written without a line break;
    otherwise each item starts a line indented one level deeper, items are
    separated by a comma, a key is followed by a colon and a space, and the
    closing bracket is on a line of its own. *)
Fixpoint encode (level : nat) (v : json) {struct v} : string :=
  match v with
  | JNull => "null"
  | JBool true => "true"
  | JBool false => "false"
  | JInt z => pretty z
  | JFloat f => float_repr f
  | JStr s => encode_basestring s
  | JArr [] => "[]"
  | JArr items =>
      "[" +:+ newline_indent (S level)
      +:+ Py.join ("," +:+ newline_indent (S level))
            (List.map (encode (S level)) items)
      +:+ newline_indent level +:+ "]"
  | JObj [] => "{}"
  | JObj fields =>
      "{" +:+ newline_indent (S level)
      +:+ Py.join ("," +:+ newline_indent (S level))
            (List.map (λ kv, encode_basestring kv.1 +:+ ": "
                               +:+ encode (S level) kv.2) fields)
      +:+ newline_indent level +:+ "}"
  end.

Definition dumps (v : json) : string := encode 0 v.

End Encoder.

End Json.

(** ** The table: a pandas [DataFrame] as the program uses it *)

Inductive cell : Type :=
| NA
| Val (s : string).

Module Pandas.

(** A row: the cell under each column label. *)
Definition row : Type := list (string * cell).

(** [refuses_text] lists the columns that take no text.  From pandas 3
    on, writing a [str] into a cell of a column whose dtype is numeric
    (float64, which is also the dtype of a column read with every cell
    empty; int64; bool) raises [TypeError].  Before pandas 3 such a write
    converts the column (with a warning), and no column is listed. *)
Record DataFrame : Type := {
  columns : list string;
  rows : list row;
  refuses_text : list string;
}.

(** [row[col]] *)
Definition at_col (r : row) (col : string) : cell :=
  default NA (Dict.get col r).

Definition notna (c : cell) : bool :=
  match c with
  | NA => false
  | Val _ => true
  end.

(** [str(x) if pd.notna(x) else ""] *)
Definition text_of (c : cell) : string :=
  match c with
  | NA => EmptyString
  | Val s => s
  end.

(** [col in df.columns] *)
Definition has_column (df : DataFrame) (col : string) : bool :=
  bool_decide (col ∈ columns df).

(** [df.head(n)] *)
Definition head (df : DataFrame) (n : Z) : DataFrame :=
  {| columns := columns df; rows := Py.slice_to (rows df) n;
     refuses_text := refuses_text df |}.

(** [df[col] = ""]: every row gets the value, a new column goes last; the
    column is a column of texts. *)
Definition assign_column (df : DataFrame) (col : string) (v : cell) : DataFrame :=
  {| columns := if has_column df col then columns df else columns df ++ [col];
     rows := (λ r, Dict.set col v r) <$> rows df;
     refuses_text :=
       List.filter (λ c, negb (String.eqb c col)) (refuses_text df) |}.

(** The frame with [v] in the cell of column [col] in the row of label
    [i], a label of the default index [0 .. len-1]. *)
Definition set_at (df : DataFrame) (i : nat) (col : string) (v : cell) : DataFrame :=
  {| columns := columns df;
     rows := match rows df !! i with
             | Some r => <[i := Dict.set col v r]> (rows df)
             | None => rows df
             end;
     refuses_text := refuses_text df |}.

(** [df.at[i, col] = text], [text] a [str]: the cell is replaced, or the
    column refuses the text. *)
Definition setitem_at (df : DataFrame) (i : nat) (col text : string)
  : result DataFrame :=
  if bool_decide (col ∈ refuses_text df) then Raise TypeError
  else Ok (set_at df i col (Val text)).

(** [df.at[i, col]] *)
Definition get_at (df : DataFrame) (i : nat) (col : string) : cell :=
  match rows df !! i with
  | Some r => at_col r col
  | None => NA
  end.

(** [df.iterrows()]: the index labels with the rows, as they are when the
    iteration starts. *)
Definition iterrows (df : DataFrame) : list (nat * row) :=
  imap (λ i r, (i, r)) (rows df).

Definition key_of (r : row) (col : string) : option string :=
  match at_col r col with
  | Val k => Some k
  | NA => None
  end.

(** [df.groupby(col)] on a column of texts: the keys are the values of
    the column, missing ones left out, each once, sorted; a group keeps
    the rows of its key in their order.  (A column of numbers is grouped
    by the numbers, in their order; here its keys are their texts, in the
    order of texts.) *)
Definition group_keys (df : DataFrame) (col : string) : list string :=
  merge_sort String.le (remove_dups (omap (λ r, key_of r col) (rows df))).

Definition in_group (col k : string) (r : row) : bool :=
  match at_col r col with
  | Val k' => String.eqb k k'
  | NA => false
  end.

Definition group_rows (df : DataFrame) (col k : string) : list row :=
  List.filter (in_group col k) (rows df).

(** [g[col].dropna().astype(str).tolist()] *)
Definition dropna_tolist (rs : list row) (col : string) : list string :=
  omap (λ r, match at_col r col with Val s => Some s | NA => None end) rs.

(** What [pd.read_csv] returns: an empty field is read as missing, so no
    cell holds the empty text. *)
Definition from_read_csv (df : DataFrame) : Prop :=
  ∀ r col, r ∈ rows df → at_col r col ≠ Val EmptyString.

End Pandas.

(** ** The text completion gateway, [agents/llm.py] *)

(** [temperature]: the module default [TEMPERATURE] or the learner's 0.2. *)
Inductive temperature : Type :=
| TEMPERATURE
| Temp_0_2.

Module Gateway.

Definition call : Type := string * string * temperature.

(** [llm_call(system, user, temperature)] in a world [W]: the generated
    text or the exception raised, and the world after the call. *)
Definition llm (W : Type) : Type :=
  string → string → temperature → W → result string * W.

Record io (W : Type) : Type := {
  world : W;
  calls : list call;
}.
Arguments world {W} _.
Arguments calls {W} _.

(** One call, logged. *)
Definition invoke {W} (llm_call : llm W) (system user : string)
    (t : temperature) (st : io W) : result string * io W :=
  let '(r, w) := llm_call system user t (world st) in
  (r, {| world := w; calls := calls st ++ [(system, user, t)] |}).

End Gateway.

(** ** agents/persona_learner.py *)

Module PersonaLearner.
Import Pandas Gateway.

Record PersonaProfile : Type := {
  character_id : string;
  target_lang : string;
  tone : string;
  quirks : list string;
  pronouns : option string;
  formality : option string;
  punctuation_habits : option string;
  lexical_preferences : list string;
  style_rules_en : list string;
  style_rules_id : list string;
  notes : option string;
}.

(** *** Validation of the model's fields (pydantic, lax mode, extra keys
    ignored) *)

(** [pattern="^(en|id)$"] *)
Definition target_lang_ok (s : string) : bool :=
  String.eqb s "en" || String.eqb s "id".

(** A required [str] field. *)
Definition field_str (d : list (string * json)) (k : string) : result string :=
  match Dict.get k d with
  | Some (JStr s) => Ok s
  | _ => Raise ValidationError
  end.

(** A [str | None = None] field. *)
Definition field_opt_str (d : list (string * json)) (k : string)
  : result (option string) :=
  match Dict.get k d with
  | None => Ok None
  | Some JNull => Ok None
  | Some (JStr s) => Ok (Some s)
  | Some _ => Raise ValidationError
  end.

(** A list whose items must all be [str]; [e] is raised otherwise. *)
Fixpoint all_str_or (e : exn) (l : list json) : result (list string) :=
  match l with
  | [] => Ok []
  | JStr s :: l' => ss ← all_str_or e l'; Ok (s :: ss)
  | _ :: _ => Raise e
  end.

Definition all_str : list json → result (list string) :=
  all_str_or ValidationError.

(** A [List[str] = []] field. *)
Definition field_list_str (d : list (string * json)) (k : string)
  : result (list string) :=
  match Dict.get k d with
  | None => Ok []
  | Some (JArr l) => all_str l
  | Some _ => Raise ValidationError
  end.

(** The constructor [PersonaProfile], called with the entries of [d] as
    keyword arguments. *)
Definition validate (d : list (string * json)) : result PersonaProfile :=
  cid ← field_str d "character_id";
  tl ← field_str d "target_lang";
  if negb (target_lang_ok tl) then Raise ValidationError else
  tn ← field_str d "tone";
  qs ← field_list_str d "quirks";
  pr ← field_opt_str d "pronouns";
  fo ← field_opt_str d "formality";
  pu ← field_opt_str d "punctuation_habits";
  lp ← field_list_str d "lexical_preferences";
  se ← field_list_str d "style_rules_en";
  si ← field_list_str d "style_rules_id";
  nt ← field_opt_str d "notes";
  Ok {| character_id := cid; target_lang := tl; tone := tn; quirks := qs;
        pronouns := pr; formality := fo; punctuation_habits := pu;
        lexical_preferences := lp; style_rules_en := se;
        style_rules_id := si; notes := nt |}.

Definition dump_opt (o : option string) : json :=
  match o with
  | Some s => JStr s
  | None => JNull
  end.

Definition dump_list (l : list string) : json := JArr (JStr <$> l).

(** [profile.model_dump()] *)
Definition model_dump (p : PersonaProfile) : json :=
  JObj [ ("character_id", JStr (character_id p));
         ("target_lang", JStr (target_lang p));
         ("tone", JStr (tone p));
         ("quirks", dump_list (quirks p));
         ("pronouns", dump_opt (pronouns p));
         ("formality", dump_opt (formality p));
         ("punctuation_habits", dump_opt (punctuation_habits p));
         ("lexical_preferences", dump_list (lexical_preferences p));
         ("style_rules_en", dump_list (style_rules_en p));
         ("style_rules_id", dump_list (style_rules_id p));
         ("notes", dump_opt (notes p)) ].

(** [obj[k] = v] *)
Definition setitem (obj : json) (k : string) (v : json) : result json :=
  match obj with
  | JObj d => Ok (JObj (Dict.set k v d))
  | _ => Raise TypeError
  end.

(** The body of the [try]: the text between the first opening and the last
    closing brace is parsed, the two known fields are forced, the object is
    validated. *)
Definition parse_profile (raw character_id target_lang : string) : result json :=
  let start := Py.find_c "{" raw in
  let stop := Py.rfind_c "}" raw + 1 in
  obj ← Json.loads (Py.substr raw start stop);
  obj ← setitem obj "character_id" (JStr character_id);
  obj ← setitem obj "target_lang" (JStr target_lang);
  match obj with
  | JObj d => profile ← validate d; Ok (model_dump profile)
  | _ => Raise TypeError
  end.

(** The body of the [except]:
    [PersonaProfile(character_id=..., target_lang=..., tone="neutral",
    quirks=[]).model_dump()]. *)
Definition fallback_profile (character_id target_lang : string) : result json :=
  profile ← validate [ ("character_id", JStr character_id);
                       ("target_lang", JStr target_lang);
                       ("tone", JStr "neutral");
                       ("quirks", JArr []) ];
  Ok (model_dump profile).

Definition handle_response (raw character_id target_lang : string) : result json :=
  try_except (parse_profile raw character_id target_lang)
    (λ _, fallback_profile character_id target_lang).

(** *** The prompt *)

Definition nl : string := String "010" EmptyString.

Definition system_prompt : string :=
  "You are a localization style analyst. "
  +:+ "Given several translated dialog lines from ONE game character, infer their speaking style.".

Definition sample_block (tgt_lines : list string) : string :=
  Py.join nl ((λ line, "- " +:+ line) <$> tgt_lines).

Definition language_name (target_lang : string) : string :=
  if String.eqb target_lang "en" then "English" else "Indonesian".

Section Learner.

Context {W : Type}.
Variable llm_call : llm W.
(** [PersonaProfile.schema_json(indent=2)], a constant text. *)
Variable schema_json : string.

Definition user_prompt (max_lines_per_char : Z) (target_lang character_id : string)
    (tgt_lines : list string) : string :=
  Py.strip (Py.join nl [
    EmptyString;
    "You will be given up to " +:+ pretty max_lines_per_char
      +:+ " lines **already translated** to " +:+ language_name target_lang +:+ ".";
    "From these, infer a concise persona profile capturing tone, quirks, formality, pronoun choices, punctuation habits, and recurring lexical preferences.";
    EmptyString;
    "Return STRICT JSON that validates this Pydantic model:";
    EmptyString;
    schema_json;
    EmptyString;
    "Character ID: " +:+ character_id;
    "Target language code: " +:+ target_lang;
    EmptyString;
    "Translated sample lines:";
    sample_block tgt_lines;
    EmptyString;
    "Important:";
    "- Base your analysis ONLY on these translated lines.";
    "- Keep it short and concrete; no generic fluff.";
    "- If a field is unknown, leave it empty or minimal.";
    "- Output ONLY the JSON object, nothing else.";
    EmptyString ]).

(** [tgt_lines] of the group of [character_id]. *)
Definition tgt_lines_of (df : DataFrame) (char_col tgt_col : string)
    (max_lines_per_char : Z) (character_id : string) : list string :=
  Py.slice_to (dropna_tolist (group_rows df char_col character_id) tgt_col)
    max_lines_per_char.

(** The loop over the groups; [results] is the dictionary built so far. *)
Fixpoint learn_groups (df : DataFrame) (char_col tgt_col target_lang : string)
    (max_lines_per_char : Z) (keys : list string)
    (results : list (string * json)) (st : io W)
  : result (list (string * json)) * io W :=
  match keys with
  | [] => (Ok results, st)
  | character_id :: keys' =>
      let tgt_lines :=
        tgt_lines_of df char_col tgt_col max_lines_per_char character_id in
      match tgt_lines with
      | [] =>
          learn_groups df char_col tgt_col target_lang max_lines_per_char
            keys' results st
      | _ :: _ =>
          let user :=
            user_prompt max_lines_per_char target_lang character_id tgt_lines in
          match invoke llm_call system_prompt user Temp_0_2 st with
          | (Raise e, st1) => (Raise e, st1)
          | (Ok raw, st1) =>
              match handle_response raw character_id target_lang with
              | Raise e => (Raise e, st1)
              | Ok profile =>
                  learn_groups df char_col tgt_col target_lang
                    max_lines_per_char keys'
                    (Dict.set character_id profile results) st1
              end
          end
      end
  end.

(** [need = {char_col, src_col, tgt_col}] and
    [missing = [c for c in need if c not in df.columns]]; a set is walked
    in an order of its own. *)
Definition missing_columns (df : DataFrame) (char_col src_col tgt_col : string)
  : list string :=
  List.filter (λ c, negb (has_column df c))
    (elements ({[ char_col; src_col; tgt_col ]} : gset string)).

(** [if max_chars: df = df.head(max_chars)] *)
Definition limit_rows (df : DataFrame) (max_chars : option Z) : DataFrame :=
  match max_chars with
  | Some n => if n =? 0 then df else head df n
  | None => df
  end.

(** [learn_personas_from_csv], from the frame [pd.read_csv] returned. *)
Definition learn_personas_from_csv (df : DataFrame)
    (char_col src_col tgt_col target_lang : string)
    (max_lines_per_char : Z) (max_chars : option Z) (st : io W)
  : result (list (string * json)) * io W :=
  match missing_columns df char_col src_col tgt_col with
  | (_ :: _) as missing => (Raise (CsvMissingColumns missing), st)
  | [] =>
      let df := limit_rows df max_chars in
      learn_groups df char_col tgt_col target_lang max_lines_per_char
        (group_keys df char_col) [] st
  end.

End Learner.

(** *** Saving and loading, on a file system of paths and contents *)

Section Store.

Variable float_repr : pyfloat → string.

(** [with open(path, "w", encoding="utf-8") as f:
       json.dump(profiles, f, ensure_ascii=False, indent=2)]:
    the text is written to the file, unless it holds a surrogate, which
    the file's encoder refuses with [UnicodeEncodeError].  (The file is
    then left with the part written before the error; the embedding does
    not follow the files after a failed write.) *)
Definition save_personas (profiles : json) (path : string)
    (fs : gmap string string) : result (gmap string string) :=
  let text := Json.dumps float_repr profiles in
  if Py.has_surrogate text then Raise UnicodeEncodeError
  else Ok (<[path := text]> fs).

End Store.

(** [json.load(f)]; a path without a file is [FileNotFoundError]. *)
Definition load_personas (path : string) (fs : gmap string string) : result json :=
  match fs !! path with
  | Some text => Json.loads text
  | None => Raise FileNotFoundError
  end.

End PersonaLearner.

(** ** The translation filler: fill_translations.py and the translation
    handler of streamlit_app.py *)

Module Filler.
Import Pandas Gateway.

Definition nl : string := String "010" EmptyString.

(** [not s.strip()] *)
Definition blank (s : string) : bool := String.eqb (Py.strip s) EmptyString.

(** [build_system()], the same text in both programs. *)
Definition build_system : string :=
  Py.join nl [
    "You are a professional game localization translator.";
    "Preserve placeholders/tags exactly (e.g., {NICKNAME}, {PLAYER_NAME}, <color=...> ... </color>).";
    "Follow the character persona and mimic tone and quirks.";
    "Output only the translation." ].

(** What the programs print or show while they run. *)
Inductive ui_note : Type :=
| SkippedEmpty
| KeptExisting
| FilledSoFar (filled : nat).

Inductive event : Type :=
| CliError (processed total : nat) (e : exn)
    (* print(f"[{processed}/{total}] ERROR: {e}") *)
| CliAutosave (checkpoint : DataFrame) (filled : nat)
    (* save_sheet(df, work_path) and its message *)
| CliProgress (filled : nat)
    (* print(f"Progress: filled {filled} rows") *)
| UiProgress (row_number total : nat) (note : ui_note)
    (* progress.progress(pct, text=...) *)
| UiError (row_number : nat) (e : exn).
    (* st.write(f"Row {idx+1}: ERROR {e}") *)

Fixpoint chars_of (s : string) : list string :=
  match s with
  | EmptyString => []
  | String c r => String c EmptyString :: chars_of r
  end.

(** What iterating over a value yields: the items of a list, the
    characters of a string, the keys of a dict; nothing else iterates. *)
Definition iterate (v : json) : result (list json) :=
  match v with
  | JArr l => Ok l
  | JStr s => Ok (JStr <$> chars_of s)
  | JObj d => Ok (JStr <$> Dict.keys d)
  | _ => Raise TypeError
  end.

(** [sep.join(items)]: every item must be a [str]. *)
Definition join_values (sep : string) (items : list json) : result string :=
  ss ← PersonaLearner.all_str_or TypeError items; Ok (Py.join sep ss).

(** [persona.get(k)], [persona.get(k, default)]: only a dict has [get]. *)
Definition persona_get (persona : json) (k : string) : result (option json) :=
  match persona with
  | JObj d => Ok (Dict.get k d)
  | _ => Raise AttributeError
  end.

Definition language_name (tgt_lang : string) : string :=
  if String.eqb tgt_lang "id" then "Indonesian" else "English".

Definition rules_key (tgt_lang : string) : string :=
  if String.eqb tgt_lang "id" then "style_rules_id" else "style_rules_en".

Section Prompts.

(** [str(v)] for a value that is not a [str], as an f-string formats it. *)
Variable py_str : json → string.

Definition format_value (v : json) : string :=
  match v with
  | JStr s => s
  | _ => py_str v
  end.

(** *** fill_translations.py *)

Definition or_none (s : string) : string :=
  if String.eqb s EmptyString then "none" else s.

Definition cli_build_user (src_cn : string) (persona : json) (tgt_lang : string)
  : result string :=
  tone ← persona_get persona "tone";
  let tone := default (JStr "neutral") tone in
  q ← persona_get persona "quirks";
  qs ← iterate (default (JArr []) q);
  quirks ← join_values ", " qs;
  r ← persona_get persona (rules_key tgt_lang);
  rs ← iterate (default (JArr []) r);
  rules ← join_values ", " rs;
  Ok (Py.strip (Py.join nl [
    EmptyString;
    "Translate from Chinese (Simplified) to " +:+ language_name tgt_lang +:+ ".";
    EmptyString;
    "Persona:";
    "- Tone: " +:+ format_value tone;
    "- Quirks: " +:+ or_none quirks;
    "- Rules: " +:+ or_none rules;
    EmptyString;
    "Untranslatable tokens (preserve verbatim): patterns like {NICKNAME}, {PLAYER_NAME},";
    "and tags like <color=...> ... </color>. Do not remove or translate them.";
    EmptyString;
    "Text:";
    src_cn;
    EmptyString;
    "Requirements:";
    "1) Preserve placeholders/tags exactly.";
    "2) Keep sentences concise for UI.";
    "3) Match persona tone/quirks.";
    "4) Output only translated text.";
    EmptyString ])).

(** *** streamlit_app.py *)

(** [if persona.get(k): lines.append(f"{label}: {persona[k]}")] *)
Definition scalar_line (persona : json) (k label : string)
  : result (list string) :=
  v ← persona_get persona k;
  match v with
  | Some x => if truthy x then Ok [label +:+ ": " +:+ format_value x] else Ok []
  | None => Ok []
  end.

(** [if persona.get(k):
       lines.append(f"{label}: {', '.join([q for q in persona[k] if q])}")] *)
Definition list_line (persona : json) (k label : string)
  : result (list string) :=
  v ← persona_get persona k;
  match v with
  | Some x =>
      if truthy x then
        items ← iterate x;
        joined ← join_values ", " (List.filter truthy items);
        Ok [label +:+ ": " +:+ joined]
      else Ok []
  | None => Ok []
  end.

Definition persona_to_lines (persona : json) (tgt_lang : string) : result string :=
  l1 ← scalar_line persona "tone" "Tone";
  l2 ← scalar_line persona "formality" "Formality";
  l3 ← scalar_line persona "pronouns" "Preferred pronouns/register";
  l4 ← scalar_line persona "punctuation_habits" "Punctuation habits";
  l5 ← list_line persona "quirks" "Quirks";
  l6 ← list_line persona "lexical_preferences" "Lexical preferences";
  l7 ← list_line persona (rules_key tgt_lang) "Style rules";
  match l1 ++ l2 ++ l3 ++ l4 ++ l5 ++ l6 ++ l7 with
  | [] => Ok "Use neutral tone."
  | lines => Ok (Py.join nl lines)
  end.

Definition ui_build_user (src_cn : string) (persona : json) (tgt_lang : string)
  : result string :=
  persona_lines ← persona_to_lines persona tgt_lang;
  Ok (Py.strip (Py.join nl [
    EmptyString;
    "Translate from Chinese (Simplified) to " +:+ language_name tgt_lang +:+ ".";
    EmptyString;
    "Persona guidance:";
    persona_lines;
    EmptyString;
    "Keep placeholders/tags verbatim: tokens like {NICKNAME}, {PLAYER_NAME}, and tags such as <color=...> ... </color>.";
    "Do not translate or remove them. Keep lines concise and suitable for UI/dialog.";
    EmptyString;
    "Text:";
    src_cn;
    EmptyString;
    "Output only the translation.";
    EmptyString ])).

End Prompts.

(** *** The loop of [main] in fill_translations.py *)

Record cli_args : Type := {
  cn_col : string;
  id_col : string;
  overwrite : bool;
  kbbi : bool;
  autosave_every : Z;
  progress_every : Z;
}.

Record state (W : Type) : Type := {
  df : DataFrame;
  gw : io W;
  events : list event;
  filled : nat;
  processed : nat;
}.
Arguments df {W} _.
Arguments gw {W} _.
Arguments events {W} _.
Arguments filled {W} _.
Arguments processed {W} _.

Definition emit {W} (ev : event) (st : state W) : state W :=
  {| df := df st; gw := gw st; events := events st ++ [ev];
     filled := filled st; processed := processed st |}.

Definition with_gw {W} (g : io W) (st : state W) : state W :=
  {| df := df st; gw := g; events := events st;
     filled := filled st; processed := processed st |}.

Definition with_df {W} (d : DataFrame) (st : state W) : state W :=
  {| df := d; gw := gw st; events := events st;
     filled := filled st; processed := processed st |}.

(** [df.at[i, col] = text] *)
Definition write_at {W} (i : nat) (col text : string) (st : state W)
  : result (state W) :=
  d ← setitem_at (df st) i col text; Ok (with_df d st).

(** [filled += 1] *)
Definition count_filled {W} (st : state W) : state W :=
  {| df := df st; gw := gw st; events := events st;
     filled := S (filled st); processed := processed st |}.

(** [df.at[i, col] = text; filled += 1] *)
Definition write_cell {W} (i : nat) (col text : string) (st : state W)
  : result (state W) :=
  st ← write_at i col text st; Ok (count_filled st).

Definition count_processed {W} (st : state W) : state W :=
  {| df := df st; gw := gw st; events := events st;
     filled := filled st; processed := S (processed st) |}.

(** [n and k % n == 0] *)
Definition every (n : Z) (k : nat) : bool :=
  negb (n =? 0) && (Z.of_nat k mod n =? 0).

(** The state [main] and the handler start their loop in. *)
Definition initial {W} (d : DataFrame) (g : io W) : state W :=
  {| df := d; gw := g; events := []; filled := 0; processed := 0 |}.

(** [for i, row in df.iterrows(): body]: a pass of the body ends normally
    ([None]) or leaves the loop with an exception. *)
Fixpoint for_each_row {W} (body : nat → row → state W → option exn * state W)
    (todo : list (nat * row)) (st : state W) : option exn * state W :=
  match todo with
  | [] => (None, st)
  | (i, r) :: todo' =>
      match body i r st with
      | (Some e, st') => (Some e, st')
      | (None, st') => for_each_row body todo' st'
      end
  end.

(** [if args.kbbi: out = normalize_indonesian(out, custom_map=custom_map)] *)
Definition cli_post (kbbi : bool) (custom_map : option json) (out : string)
  : result string :=
  if kbbi then Normalizer.normalize_indonesian out custom_map else Ok out.

(** [if use_kbbi and trans_lang == "id":
       try: out = normalize_indonesian(out, custom_map=custom_map)
       except Exception: pass] *)
Definition ui_post (use_kbbi : bool) (trans_lang : string)
    (custom_map : option json) (out : string) : string :=
  if use_kbbi && String.eqb trans_lang "id" then
    match Normalizer.normalize_indonesian out custom_map with
    | Ok normalized => normalized
    | Raise _ => out
    end
  else out.

Section Loops.

Context {W : Type}.
Variable llm_call : llm W.
Variable py_str : json → string.

(** One pass of the body of [for i, row in df.iterrows()]: [None] when the
    pass ends (by [continue] or by reaching its end), the exception when it
    leaves the loop. *)
Definition cli_row (args : cli_args) (persona : json) (custom_map : option json)
    (total : nat) (i : nat) (r : row) (st : state W) : option exn * state W :=
  let st := count_processed st in
  let src := text_of (at_col r (cn_col args)) in
  if blank src then (None, st) else
  let tgt_existing := text_of (at_col r (id_col args)) in
  if negb (blank tgt_existing) && negb (overwrite args) then (None, st) else
  match cli_build_user py_str src persona "id" with
  | Raise e => (Some e, st)
  | Ok user_prompt =>
      match invoke llm_call build_system user_prompt TEMPERATURE (gw st) with
      | (Raise e, g) =>
          (None, emit (CliError (processed st) total e) (with_gw g st))
      | (Ok out, g) =>
          let st := with_gw g st in
          match cli_post (kbbi args) custom_map out with
          | Raise e => (Some e, st)
          | Ok out =>
              match write_cell i (id_col args) out st with
              | Raise e => (Some e, st)
              | Ok st =>
                  let st :=
                    if every (autosave_every args) (filled st)
                    then emit (CliAutosave (df st) (filled st)) st else st in
                  let st :=
                    if every (progress_every args) (processed st)
                    then emit (CliProgress (filled st)) st else st in
                  (None, st)
              end
          end
      end
  end.

Definition cli_rows (args : cli_args) (persona : json) (custom_map : option json)
    (total : nat) : list (nat * row) → state W → option exn * state W :=
  for_each_row (cli_row args persona custom_map total).

(** [main], from the loaded sheet to the frame [save_sheet] writes to the
    output path.  The second component is the state the run ends in. *)
Definition cli_main (args : cli_args) (persona : json) (custom_map : option json)
    (sheet : DataFrame) (g : io W) : result DataFrame * state W :=
  if negb (has_column sheet (cn_col args)) then
    (Raise (MissingColumn (cn_col args)), initial sheet g)
  else
    let d :=
      if has_column sheet (id_col args) then sheet
      else assign_column sheet (id_col args) (Val EmptyString) in
    match cli_rows args persona custom_map (length (rows d)) (iterrows d)
            (initial d g) with
    | (Some e, st) => (Raise e, st)
    | (None, st) => (Ok (df st), st)
    end.

(** *** The loop of the translation handler in streamlit_app.py *)

Record ui_args : Type := {
  test_cn_col : string;
  test_tgt_col : string;
  trans_lang : string;
  no_training : bool;
  use_kbbi : bool;
  ui_overwrite : bool;
}.

Definition ui_row (args : ui_args) (persona : json) (custom_map : option json)
    (total : nat) (idx : nat) (r : row) (st : state W) : option exn * state W :=
  let src := text_of (at_col r (test_cn_col args)) in
  if blank src then (None, emit (UiProgress (S idx) total SkippedEmpty) st) else
  let existing := text_of (at_col r (test_tgt_col args)) in
  if negb (blank existing) && negb (ui_overwrite args) then
    (None, emit (UiProgress (S idx) total KeptExisting) st)
  else
  let persona_used :=
    if negb (no_training args) && truthy persona then persona else JObj [] in
  match ui_build_user py_str src persona_used (trans_lang args) with
  | Raise e => (Some e, st)
  | Ok user_prompt =>
      let '(r, g) :=
        invoke llm_call build_system user_prompt TEMPERATURE (gw st) in
      let st := with_gw g st in
      let attempt :=
        out ← r;
        write_cell idx (test_tgt_col args)
          (ui_post (use_kbbi args) (trans_lang args) custom_map out) st in
      match attempt with
      | Ok st =>
          (None, emit (UiProgress (S idx) total (FilledSoFar (filled st))) st)
      | Raise e =>
          match write_at idx (test_tgt_col args) existing st with
          | Raise e' => (Some e', st)
          | Ok st =>
              let st := emit (UiError (S idx) e) st in
              (None,
               emit (UiProgress (S idx) total (FilledSoFar (filled st))) st)
          end
      end
  end.

Definition ui_rows (args : ui_args) (persona : json) (custom_map : option json)
    (total : nat) : list (nat * row) → state W → option exn * state W :=
  for_each_row (ui_row args persona custom_map total).

(** The handler of the "Run Translation" button, from the uploaded sheet
    to the frame offered for download.  Without the source column the
    handler shows the error and stops. *)
Definition ui_run (args : ui_args) (persona : json) (custom_map : option json)
    (sheet : DataFrame) (g : io W) : result DataFrame * state W :=
  if negb (has_column sheet (test_cn_col args)) then
    (Raise (MissingColumn (test_cn_col args)), initial sheet g)
  else
    let d :=
      if has_column sheet (test_tgt_col args) then sheet
      else assign_column sheet (test_tgt_col args) (Val EmptyString) in
    match ui_rows args persona custom_map (length (rows d)) (iterrows d)
            (initial d g) with
    | (Some e, st) => (Raise e, st)
    | (None, st) => (Ok (df st), st)
    end.

End Loops.

End Filler.

(** *** The learner's sampling and fallback in the specification's words *)

Module LearnerSpec.
Import Pandas PersonaLearner.

(** "Non-empty target-language values". *)
Definition usable (c : cell) : option string :=
  match c with
  | Val s => if String.eqb s EmptyString then None else Some s
  | NA => None
  end.

(** The text is not the text of a number or of a boolean: it starts with
    a letter and is, in any letter case, none of "nan", "inf", "infinity",
    "true" and "false".  A cell with such a text holds a [str]. *)
Definition names (s : string) : bool :=
  match s with
  | EmptyString => false
  | String c _ =>
      Py.is_cased_c c
      && negb (bool_decide
                 (Py.lower s ∈ ["nan"; "inf"; "infinity"; "true"; "false"]))
  end.

(** The character column is a column of texts: one of its cells holds
    such a text, so that [pd.read_csv] read the whole column as texts and
    [groupby] groups it by texts. *)
Definition text_keys (df : DataFrame) (char_col : string) : Prop :=
  ∃ r k, r ∈ rows df ∧ at_col r char_col = Val k ∧ names k = true.

(** The row is a line of the character [k]. *)
Definition speaks (char_col k : string) (r : row) : bool :=
  match at_col r char_col with
  | Val k' => String.eqb k' k
  | NA => false
  end.

(** "For each group, collect non-empty target-language values, in row
    order, truncated to [max_lines_per_character]": one pass over the rows,
    taking the usable value of each row of the character until [limit]
    values are taken. *)
Fixpoint sample_lines (rs : list row) (char_col tgt_col k : string)
    (limit : nat) : list string :=
  match rs, limit with
  | [], _ => []
  | _, O => []
  | r :: rs', S limit' =>
      if speaks char_col k r then
        match usable (at_col r tgt_col) with
        | Some s => s :: sample_lines rs' char_col tgt_col k limit'
        | None => sample_lines rs' char_col tgt_col k limit
        end
      else sample_lines rs' char_col tgt_col k limit
  end.

(** The lines as the prompt shows them: each on a line of its own, after a
    dash and a space. *)
Fixpoint listed (lines : list string) : string :=
  match lines with
  | [] => EmptyString
  | [l] => "- " +:+ l
  | l :: ls => "- " +:+ l +:+ PersonaLearner.nl +:+ listed ls
  end.

(** The text of the prompt before and after the lines. *)
Definition prompt_before (schema_json : string) (n : Z) (tl k : string)
  : string :=
  "You will be given up to " +:+ pretty n
  +:+ " lines **already translated** to "
  +:+ (if String.eqb tl "en" then "English" else "Indonesian") +:+ "."
  +:+ PersonaLearner.nl
  +:+ "From these, infer a concise persona profile capturing tone, quirks, formality, pronoun choices, punctuation habits, and recurring lexical preferences."
  +:+ PersonaLearner.nl +:+ PersonaLearner.nl
  +:+ "Return STRICT JSON that validates this Pydantic model:"
  +:+ PersonaLearner.nl +:+ PersonaLearner.nl
  +:+ schema_json
  +:+ PersonaLearner.nl +:+ PersonaLearner.nl
  +:+ "Character ID: " +:+ k +:+ PersonaLearner.nl
  +:+ "Target language code: " +:+ tl
  +:+ PersonaLearner.nl +:+ PersonaLearner.nl
  +:+ "Translated sample lines:" +:+ PersonaLearner.nl.

Definition prompt_after : string :=
  PersonaLearner.nl +:+ PersonaLearner.nl
  +:+ "Important:" +:+ PersonaLearner.nl
  +:+ "- Base your analysis ONLY on these translated lines."
  +:+ PersonaLearner.nl
  +:+ "- Keep it short and concrete; no generic fluff."
  +:+ PersonaLearner.nl
  +:+ "- If a field is unknown, leave it empty or minimal."
  +:+ PersonaLearner.nl
  +:+ "- Output ONLY the JSON object, nothing else.".

(** The gateway call for the character [k] with the lines [lines]. *)
Definition call_with (schema_json : string) (n : Z) (tl k : string)
    (lines : list string) : Gateway.call :=
  ("You are a localization style analyst. Given several translated dialog lines from ONE game character, infer their speaking style.",
   prompt_before schema_json n tl k +:+ listed lines +:+ prompt_after,
   Temp_0_2).

Definition nonempty {A} (l : list A) : bool :=
  match l with
  | [] => false
  | _ :: _ => true
  end.

(** "The fallback minimal profile (tone="neutral", empty quirks)". *)
Definition fallback_record (character_id target_lang : string) : PersonaProfile :=
  {| character_id := character_id; target_lang := target_lang;
     tone := "neutral"; quirks := [];
     pronouns := None; formality := None; punctuation_habits := None;
     lexical_preferences := []; style_rules_en := []; style_rules_id := [];
     notes := None |}.

(** The groups the code sends to the gateway: those whose [tgt_lines] is
    not empty. *)
Definition sent_groups (df : DataFrame) (char_col tgt_col : string)
    (max_lines_per_char : Z) : list string :=
  List.filter (λ k, nonempty (tgt_lines_of df char_col tgt_col max_lines_per_char k))
    (group_keys df char_col).

(** The gateway call the learner makes for a group. *)
Definition call_for (schema_json : string) (df : DataFrame)
    (char_col tgt_col target_lang : string) (max_lines_per_char : Z)
    (k : string) : Gateway.call :=
  (system_prompt,
   user_prompt schema_json max_lines_per_char target_lang k
     (tgt_lines_of df char_col tgt_col max_lines_per_char k),
   Temp_0_2).

(** The entry the learner stores for a group whose gateway call returned
    [raw]: the validated profile, or the fallback when the response
    handling raised. *)
Definition profile_or_fallback (raw k target_lang : string) : json :=
  match parse_profile raw k target_lang with
  | Ok profile => profile
  | Raise _ => model_dump (fallback_record k target_lang)
  end.

(** The gateway returns a text, whatever it is asked and whenever. *)
Definition always_returns {W} (llm_call : Gateway.llm W) : Prop :=
  ∀ system user t w, ∃ raw w', llm_call system user t w = (Ok raw, w').

End LearnerSpec.

(** *** Properties of a loop body *)

Module FillerSpec.
Import Pandas Gateway Filler.

(** A body that, in its pass over row [i], leaves the columns and every
    other row as they are and only adds to what was reported. *)
Definition local {W} (body : nat → row → state W → option exn * state W) : Prop :=
  ∀ i r st o st',
    body i r st = (o, st') →
    columns (df st') = columns (df st)
    ∧ (∀ j, j ≠ i → rows (df st') !! j = rows (df st) !! j)
    ∧ events st `prefix_of` events st'.

(** A body that leaves the columns that refuse text as they are. *)
Definition keeps_refusals {W}
    (body : nat → row → state W → option exn * state W) : Prop :=
  ∀ i r st o st',
    body i r st = (o, st') → refuses_text (df st') = refuses_text (df st).

(** The column takes text. *)
Definition takes_text (d : DataFrame) (col : string) : Prop :=
  col ∉ refuses_text d.





(** The row is not passed over: its source is not blank, and its target is
    blank or may be overwritten. *)
Definition selected (src_col tgt_col : string) (overwrite : bool) (r : row) : Prop :=
  blank (text_of (at_col r src_col)) = false
  ∧ (blank (text_of (at_col r tgt_col)) = true ∨ overwrite = true).


(** The persona the handler of streamlit_app.py hands to [build_user]. *)
Definition persona_used (args : ui_args) (persona : json) : json :=
  if negb (no_training args) && truthy persona then persona else JObj [].

End FillerSpec.

(** *** What the persona store holds *)

Module StoreSpec.
Import PersonaLearner.

(** The values a mapping of persona profiles is made of: [None], booleans,
    strings of any bytes, lists, and dicts, whose keys are distinct.
    Numbers do not occur in a profile. *)
Fixpoint plain (v : json) : bool :=
  match v with
  | JNull | JBool _ | JStr _ => true
  | JInt _ | JFloat _ => false
  | JArr items => forallb plain items
  | JObj fields =>
      bool_decide (NoDup (Dict.keys fields))
      && forallb (λ kv, plain kv.2) fields
  end.

(** Every text of the value, keys included, is well-formed: it holds no
    surrogate, so it can be encoded as UTF-8. *)
Fixpoint encodable (v : json) : bool :=
  match v with
  | JNull | JBool _ | JInt _ | JFloat _ => true
  | JStr s => negb (Py.has_surrogate s)
  | JArr items => forallb encodable items
  | JObj fields =>
      forallb (λ kv, negb (Py.has_surrogate kv.1) && encodable kv.2) fields
  end.

(** The text ends with the byte ED, the first byte of a surrogate. *)
Fixpoint ends_with_lead (s : string) : bool :=
  match s with
  | EmptyString => false
  | String c EmptyString => Nat.eqb (Py.code c) 237
  | String _ r => ends_with_lead r
  end.

(** The text starts with a byte A0..BF, the second byte of a surrogate. *)
Definition starts_with_trail (s : string) : bool :=
  match s with
  | EmptyString => false
  | String c _ => Py.in_range 160 191 c
  end.

(** The text [t] holds a surrogate exactly when [h], and neither starts
    nor ends inside one. *)
Definition clean (t : string) (h : bool) : Prop :=
  Py.has_surrogate t = h ∧ starts_with_trail t = false
  ∧ ends_with_lead t = false.

(** A mapping from character identifier to Persona Profile, as the Python
    value [save_personas] is given: a dict of the profiles' dicts. *)
Definition profiles_value (profiles : list (string * PersonaProfile)) : json :=
  JObj ((λ kp, (kp.1, model_dump kp.2)) <$> profiles).

End StoreSpec.
(** * Further parts of the repository

    The sections below embed what surrounds the learner and the filler:
    the names and formats of the sheets ([load_sheet], [save_sheet],
    [default_output_path], [read_any_dataframe]), the gateway of
    [agents/llm.py] with its two backends over an HTTP service, and the
    programs with their files (the persona file read by
    fill_translations.py and by the Translate tab, the store the Train tab
    merges into, the output and work files of a run). *)

(** ** File names: [os.path.splitext] and the format of a sheet *)

Module OsPath.

(** The loop of [genericpath._splitext] that passes over the dots at the
    start of the file name: [n] characters are left between
    [filenameIndex] and [dotIndex].  The first one that is not a dot
    settles the split [p[:dotIndex], p[dotIndex:]]. *)
Fixpoint skip_leading_dots (p : string) (dotIndex : Z) (n : nat)
    (filenameIndex : Z) : string * string :=
  match n with
  | O => (p, EmptyString)
  | S n' =>
      if negb (String.eqb (Py.substr p filenameIndex (filenameIndex + 1)) ".")
      then (Py.substr p 0 dotIndex,
            Py.substr p dotIndex (Z.of_nat (String.length p)))
      else skip_leading_dots p dotIndex n' (filenameIndex + 1)
  end.

(** [os.path.splitext(p)] of [posixpath]: the extension starts at the last
    dot of the last component, unless that component has only dots before
    it. *)
Definition splitext (p : string) : string * string :=
  let sepIndex := Py.rfind_c "/" p in
  let dotIndex := Py.rfind_c "." p in
  if sepIndex <? dotIndex then
    skip_leading_dots p dotIndex (Z.to_nat (dotIndex - (sepIndex + 1)))
      (sepIndex + 1)
  else (p, EmptyString).

End OsPath.

Module Sheets.

Inductive format : Type :=
| Excel   (* pd.read_excel, df.to_excel *)
| Csv.    (* pd.read_csv, df.to_csv *)

(** [ext in (".xlsx", ".xls")] *)
Definition excel_ext (ext : string) : bool :=
  String.eqb ext ".xlsx" || String.eqb ext ".xls".

(** The choice of [load_sheet] and [save_sheet] in fill_translations.py
    (and of [load_sheet] in learn_from_excel.py), on
    [os.path.splitext(path)[1].lower()]. *)
Definition sheet_format (path : string) : format :=
  if excel_ext (Py.lower (OsPath.splitext path).2) then Excel else Csv.

(** [default_output_path]: [f"{base}_out{ext or '.xlsx'}"] *)
Definition default_output_path (input_path : string) : string :=
  let '(base, ext) := OsPath.splitext input_path in
  base +:+ "_out" +:+ (if String.eqb ext EmptyString then ".xlsx" else ext).

(** [output_path = args.output or default_output_path(args.input)] *)
Definition output_path (output : option string) (input : string) : string :=
  match output with
  | Some o => if String.eqb o EmptyString then default_output_path input else o
  | None => default_output_path input
  end.

(** [work_path = output_path + ".work"] *)
Definition work_path (output_path : string) : string :=
  output_path +:+ ".work".

(** [s.endswith(suffix)] *)
Definition endswith (s suffix : string) : bool :=
  let n := String.length s in
  let m := String.length suffix in
  Nat.leb m n && String.eqb (String.substring (n - m) m s) suffix.

(** The choice of [read_any_dataframe] in streamlit_app.py, on the name of
    the uploaded file. *)
Definition upload_format (file_name : string) : format :=
  let name := Py.lower file_name in
  if endswith name ".xlsx" || endswith name ".xls" then Excel else Csv.

End Sheets.
(** ** agents/llm.py: the gateway and its two backends *)

Module Llm.

(** What the module can raise: the exceptions of [exn], the lookup errors
    of a subscript, [ValueError], and whatever [requests.post] raises when
    no response arrives. *)
Inductive raised : Type :=
| Exn (e : exn)
| KeyError (key : json)
| IndexError
| ValueError
| RequestException.

Inductive outcome (A : Type) : Type :=
| Returned (a : A)
| Raised (e : raised).
Arguments Returned {A} a.
Arguments Raised {A} e.

Global Instance outcome_bind : MBind outcome := λ A B k r,
  match r with
  | Returned a => k a
  | Raised e => Raised e
  end.
Global Instance outcome_ret : MRet outcome := @Returned.

Definition lift {A} (r : result A) : outcome A :=
  match r with
  | Ok a => Returned a
  | Raise e => Raised (Exn e)
  end.

(** *** Subscripts and methods on a decoded JSON value *)

(** [x[k]] for a text [k]: only a dict takes a text as subscript. *)
Definition getitem (x : json) (k : string) : outcome json :=
  match x with
  | JObj d =>
      match Dict.get k d with
      | Some v => Returned v
      | None => Raised (KeyError (JStr k))
      end
  | _ => Raised (Exn TypeError)
  end.

(** The number of bytes of the UTF-8 sequence that starts with [b]. *)
Definition utf8_width (b : ascii) : nat :=
  let n := Py.code b in
  if Nat.ltb n 128 then 1%nat
  else if Nat.ltb n 224 then 2%nat
  else if Nat.ltb n 240 then 3%nat
  else 4%nat.

(** [x[0]]: the first item of a list, the first character of a text; a
    dict decoded from JSON has no key 0. *)
Definition getitem0 (x : json) : outcome json :=
  match x with
  | JArr (v :: _) => Returned v
  | JArr [] => Raised IndexError
  | JStr (String b _ as s) => Returned (JStr (String.substring 0 (utf8_width b) s))
  | JStr EmptyString => Raised IndexError
  | JObj _ => Raised (KeyError (JInt 0))
  | _ => Raised (Exn TypeError)
  end.

(** [x.strip()]: only a text has the method. *)
Definition strip_of (x : json) : outcome string :=
  match x with
  | JStr s => Returned (Py.strip s)
  | _ => Raised (Exn AttributeError)
  end.

(** [x.get(k, dflt)] *)
Definition get_or (x : json) (k : string) (dflt : json) : outcome json :=
  lift (v ← Filler.persona_get x k; Ok (default dflt v)).

(** A [for] loop that collects: the body yields what it appends. *)
Fixpoint for_each {A} (body : json → outcome (list A)) (l : list json)
  : outcome (list A) :=
  match l with
  | [] => Returned []
  | x :: l' => a ← body x; b ← for_each body l'; Returned (a ++ b)
  end.

(** [t = p.get("text", ""); if t: parts.append(t)] *)
Definition part_text (p : json) : outcome (list json) :=
  t ← get_or p "text" (JStr EmptyString);
  Returned (if truthy t then [t] else []).

(** [for p in cand.get("content", {}).get("parts", []): ...] *)
Definition candidate_parts (cand : json) : outcome (list json) :=
  content ← get_or cand "content" (JObj []);
  ps ← get_or content "parts" (JArr []);
  ps ← lift (Filler.iterate ps);
  for_each part_text ps.

(** The two loops of [_gemini_call] over [data] and the text they leave:
    [out = "".join(parts).strip()]. *)
Definition generated_text (data : json) : outcome string :=
  cands ← get_or data "candidates" (JArr []);
  cands ← lift (Filler.iterate cands);
  parts ← for_each candidate_parts cands;
  joined ← lift (Filler.join_values EmptyString parts);
  Returned (Py.strip joined).

(** *** Requests *)

Record request : Type := {
  url : string;
  headers : list (string * string);
  payload : json;         (* json=payload *)
  timeout : Z;
}.

Record response : Type := {
  status_code : Z;
  text : string;
}.

(** [r.ok]: the status is no client or server error. *)
Definition ok (r : response) : bool :=
  negb ((400 <=? status_code r) && (status_code r <? 600)).

(** [r.json()] *)
Definition json_of (r : response) : outcome json := lift (Json.loads (text r)).

(** [requests.post] in a world [W]: the response or the exception raised,
    and the world after the request. *)
Definition http (W : Type) : Type := request → W → outcome response * W.

Record net (W : Type) : Type := {
  wire : W;
  sent : list request;
}.
Arguments wire {W} _.
Arguments sent {W} _.

(** The module's settings, read from the environment when it is
    imported. *)
Record config : Type := {
  PROVIDER : string;
  API_KEY : string;
  OPENAI_MODEL : string;
  GEMINI_MODEL : string;
  TEMPERATURE_value : pyfloat;   (* the module's TEMPERATURE *)
}.

Section Settings.

(** [float(s)], [None] when it raises [ValueError]. *)
Variable py_float : string → option pyfloat.

(** [os.getenv(k, dflt)] *)
Definition getenv (env : gmap string string) (k dflt : string) : string :=
  default dflt (env !! k).

(** The statements the module runs when it is imported, on the
    environment [load_dotenv()] left. *)
Definition import_module (env : gmap string string) : outcome config :=
  let provider := Py.lower (getenv env "AI_PROVIDER" "google") in
  let api_key := env !! "AI_API_KEY" in
  let openai_model := getenv env "OPENAI_MODEL" "gpt-4o-mini" in
  let gemini_model := getenv env "GEMINI_MODEL" "gemini-2.5-flash" in
  match py_float (getenv env "TEMPERATURE" "0.4") with
  | None => Raised ValueError
  | Some t =>
      match api_key with
      | Some (String _ _ as key) =>
          Returned {| PROVIDER := provider; API_KEY := key;
                      OPENAI_MODEL := openai_model;
                      GEMINI_MODEL := gemini_model;
                      TEMPERATURE_value := t |}
      | _ => Raised (Exn (RuntimeError "AI_API_KEY is not set in .env"))
      end
  end.

End Settings.

Section Calls.

Context {W : Type}.
Variable http_post : http W.
Variable cfg : config.
(** [json.dumps(data)] with the defaults, for the text of an error. *)
Variable py_dumps : json → string.

(** One request, logged. *)
Definition post (req : request) (n : net W) : outcome response * net W :=
  let '(r, w) := http_post req (wire n) in
  (r, {| wire := w; sent := sent n ++ [req] |}).

Definition openai_request (system user : string) (temperature : pyfloat)
  : request :=
  {| url := "https://api.openai.com/v1/chat/completions";
     headers := [ ("Authorization", "Bearer " +:+ API_KEY cfg);
                  ("Content-Type", "application/json") ];
     payload :=
       JObj [ ("model", JStr (OPENAI_MODEL cfg));
              ("temperature", JFloat temperature);
              ("messages",
               JArr [ JObj [("role", JStr "system"); ("content", JStr system)];
                      JObj [("role", JStr "user"); ("content", JStr user)] ]) ];
     timeout := 120 |}.

(** [data["choices"][0]["message"]["content"].strip()] *)
Definition openai_content (data : json) : outcome string :=
  choices ← getitem data "choices";
  first ← getitem0 choices;
  message ← getitem first "message";
  content ← getitem message "content";
  strip_of content.

Definition _openai_call (system user : string) (temperature : pyfloat)
    (n : net W) : outcome string * net W :=
  match post (openai_request system user temperature) n with
  | (Raised e, n1) => (Raised e, n1)
  | (Returned r, n1) =>
      if negb (ok r) then
        (Raised (Exn (RuntimeError
           ("OpenAI error " +:+ pretty (status_code r) +:+ ": " +:+ text r))),
         n1)
      else (data ← json_of r; openai_content data, n1)
  end.

Definition gemini_headers : list (string * string) :=
  [ ("x-goog-api-key", API_KEY cfg); ("Content-Type", "application/json") ].

(** The v1 request, with the camelCase payload. *)
Definition gemini_request_v1 (system user : string) (temperature : pyfloat)
  : request :=
  {| url := "https://generativelanguage.googleapis.com/v1/models/"
            +:+ GEMINI_MODEL cfg +:+ ":generateContent";
     headers := gemini_headers;
     payload :=
       JObj [ ("systemInstruction", JObj [("parts", JArr [JObj [("text", JStr system)]])]);
              ("contents",
               JArr [JObj [("role", JStr "user");
                           ("parts", JArr [JObj [("text", JStr user)]])]]);
              ("generationConfig", JObj [("temperature", JFloat temperature)]) ];
     timeout := 120 |}.

(** The v1beta request, with the snake_case payload. *)
Definition gemini_request_beta (system user : string) (temperature : pyfloat)
  : request :=
  {| url := "https://generativelanguage.googleapis.com/v1beta/models/"
            +:+ GEMINI_MODEL cfg +:+ ":generateContent";
     headers := gemini_headers;
     payload :=
       JObj [ ("system_instruction", JObj [("parts", JArr [JObj [("text", JStr system)]])]);
              ("contents",
               JArr [JObj [("role", JStr "user");
                           ("parts", JArr [JObj [("text", JStr user)]])]]);
              ("generation_config", JObj [("temperature", JFloat temperature)]) ];
     timeout := 120 |}.

(** The second half of [_gemini_call], from the v1beta request on. *)
Definition gemini_beta (system user : string) (temperature : pyfloat)
    (n : net W) : outcome string * net W :=
  match post (gemini_request_beta system user temperature) n with
  | (Raised e, n2) => (Raised e, n2)
  | (Returned rb, n2) =>
      if negb (ok rb) then
        (Raised (Exn (RuntimeError
           ("Gemini error " +:+ pretty (status_code rb) +:+ ": " +:+ text rb))),
         n2)
      else
        (data ← json_of rb;
         out ← generated_text data;
         if String.eqb out EmptyString then
           Raised (Exn (RuntimeError
             ("Gemini returned empty response: "
              +:+ Py.substr (py_dumps data) 0 400)))
         else Returned out,
         n2)
  end.

Definition _gemini_call (system user : string) (temperature : pyfloat)
    (n : net W) : outcome string * net W :=
  match post (gemini_request_v1 system user temperature) n with
  | (Raised e, n1) => (Raised e, n1)
  | (Returned r, n1) =>
      if ok r then
        match (data ← json_of r; generated_text data) with
        | Raised e => (Raised e, n1)
        | Returned out =>
            if String.eqb out EmptyString
            then gemini_beta system user temperature n1
            else (Returned out, n1)
        end
      else gemini_beta system user temperature n1
  end.

(** The value of the parameter [temperature]: the module's default or the
    learner's 0.2. *)
Definition temperature_of (t : temperature) : pyfloat :=
  match t with
  | TEMPERATURE => TEMPERATURE_value cfg
  | Temp_0_2 => FDec 2 (-1)
  end.

Definition llm_call (system user : string) (t : temperature) (n : net W)
  : outcome string * net W :=
  if String.eqb (PROVIDER cfg) "openai" then
    _openai_call system user (temperature_of t) n
  else if String.eqb (PROVIDER cfg) "google" then
    _gemini_call system user (temperature_of t) n
  else
    (Raised (Exn (RuntimeError ("Unsupported AI_PROVIDER: " +:+ PROVIDER cfg))), n).

(** [translate_simple] *)
Definition translate_simple (text_cn tgt_lang : string) (n : net W)
  : outcome string * net W :=
  let system := "You are a professional translator. Output only the translation." in
  let user :=
    "Translate from Chinese (Simplified) to "
    +:+ (if String.eqb tgt_lang "en" then "English" else "Indonesian")
    +:+ ":" +:+ Filler.nl +:+ text_cn in
  llm_call system user TEMPERATURE n.

End Calls.

End Llm.
(** ** The programs around the learner and the filler *)

Module Programs.
Import Pandas Gateway PersonaLearner Filler.

(** *** learn_personas.py *)

Section LearnScript.

Context {W : Type}.
Variable llm_call : llm W.
Variable schema_json : string.
Variable float_repr : pyfloat → string.

(** The script, from the frame [pd.read_csv("mini_dialog.csv")] returned:
    the profiles are learned from the Indonesian column and saved. *)
Definition learn_personas (df : DataFrame) (st : io W) (fs : gmap string string)
  : result (list (string * json) * gmap string string) * io W :=
  match learn_personas_from_csv llm_call schema_json df
          "character_id" "zh_cn" "id_id" "id" 10 None st with
  | (Raise e, st') => (Raise e, st')
  | (Ok profiles, st') =>
      (fs' ← save_personas float_repr (JObj profiles)
               "personas_learned_id.json" fs;
       Ok (profiles, fs'),
       st')
  end.

End LearnScript.

(** *** streamlit_app.py: the persona store of the page *)

(** [os.path.join(PERSONA_DIR, f"personas_learned_{lang}.json")] *)
Definition persona_json_path (lang : string) : string :=
  "data/personas_learned_" +:+ lang +:+ ".json".

(** The entries of a dict after [update]: every entry of [profiles] is
    set, in order. *)
Definition update_all (d profiles : list (string * json))
  : list (string * json) :=
  foldl (λ acc kv, Dict.set kv.1 kv.2 acc) d profiles.

(** [existing.update(profiles)]: only a dict has the method. *)
Definition dict_update (existing : json) (profiles : list (string * json))
  : result json :=
  match existing with
  | JObj d => Ok (JObj (update_all d profiles))
  | _ => Raise AttributeError
  end.

(** [existing = {}], then, when the file exists,
    [try: existing = load_personas(path)  except Exception: existing = {}] *)
Definition existing_profiles (path : string) (fs : gmap string string) : json :=
  match fs !! path with
  | Some _ =>
      match load_personas path fs with
      | Ok v => v
      | Raise _ => JObj []
      end
  | None => JObj []
  end.

Section Training.

Variable float_repr : pyfloat → string.

(** What the "Learn Persona" handler does with the learned [profiles]:
    they are merged into the profiles of the file, the file is written,
    and the merged mapping is kept in the session under the language. *)
Definition store_learned (target_lang : string) (profiles : list (string * json))
    (session : list (string * json)) (fs : gmap string string)
  : result (gmap string string * list (string * json)) :=
  let path := persona_json_path target_lang in
  existing ← dict_update (existing_profiles path fs) profiles;
  fs' ← save_personas float_repr existing path fs;
  Ok (fs', Dict.set target_lang existing session).

End Training.

(** [x or {}], [x] being what [dict.get] returned. *)
Definition or_empty (x : option json) : json :=
  match x with
  | Some v => if truthy v then v else JObj []
  | None => JObj []
  end.

(** [personas_all]: the session's mapping, with the profiles of the file of
    the language when the file exists and can be loaded. *)
Definition personas_all (session : list (string * json)) (trans_lang : string)
    (fs : gmap string string) : list (string * json) :=
  let path := persona_json_path trans_lang in
  match fs !! path with
  | Some _ =>
      match load_personas path fs with
      | Ok v => Dict.set trans_lang v session
      | Raise _ => session
      end
  | None => session
  end.

(** [sorted(list((personas_all.get(trans_lang) or {}).keys()))] *)
Definition available_ids (all : list (string * json)) (trans_lang : string)
  : result (list string) :=
  match or_empty (Dict.get trans_lang all) with
  | JObj d => Ok (merge_sort String.le (Dict.keys d))
  | _ => Raise AttributeError
  end.

(** The persona of the "Translate" tab: [{}], or with training data and
    the learned persona in use
    [(personas_all.get(trans_lang) or {}).get(test_char_id, {}) or {}]. *)
Definition ui_persona (all : list (string * json))
    (trans_lang test_char_id : string) (no_training use_learned_persona : bool)
  : result json :=
  _ ← available_ids all trans_lang;
  if negb no_training && use_learned_persona then
    p ← persona_get (or_empty (Dict.get trans_lang all)) test_char_id;
    Ok (or_empty p)
  else Ok (JObj []).

(** *** fill_translations.py: [main] with its files *)

Record cli_files : Type := {
  input : string;
  output : option string;
  persona_json : string;
  char_id : string;
  kbbi_json : option string;
}.

(** "Load persona": without the file the persona is [{}] (and a warning is
    printed); with it, [json.load(f).get(args.char_id, {})]. *)
Definition cli_persona (files : cli_files) (fs : gmap string string) : result json :=
  match fs !! persona_json files with
  | Some text =>
      personas ← Json.loads text;
      p ← persona_get personas (char_id files);
      Ok (default (JObj []) p)
  | None => Ok (JObj [])
  end.

(** "Load custom KBBI map":
    [if args.kbbi_json and os.path.exists(args.kbbi_json)] *)
Definition cli_custom_map (files : cli_files) (fs : gmap string string)
  : result (option json) :=
  match kbbi_json files with
  | Some (String _ _ as path) =>
      match fs !! path with
      | Some text => m ← Json.loads text; Ok (Some m)
      | None => Ok None
      end
  | _ => Ok None
  end.

(** The sheets a run has written, by path. *)
Definition sheets : Type := gmap string (Sheets.format * DataFrame).

(** [save_sheet(df, path)] *)
Definition save_sheet (d : DataFrame) (path : string) (out : sheets) : sheets :=
  <[path := (Sheets.sheet_format path, d)]> out.

(** The frames of the checkpoints among the events of a run, in order. *)
Definition checkpoints (evs : list event) : list DataFrame :=
  omap (λ ev, match ev with
              | CliAutosave d _ => Some d
              | _ => None
              end) evs.

Section Main.

Context {W : Type}.
Variable llm_call : llm W.
Variable py_str : json → string.

(** [main], [sheet] being what [load_sheet(args.input)] returned: the
    persona and the custom map are loaded, the loop runs and writes its
    checkpoints to the work path; when the loop ends the frame is saved to
    the output path and the work file is removed. *)
Definition cli_program (files : cli_files) (args : cli_args) (sheet : DataFrame)
    (fs : gmap string string) (written : sheets) (g : io W)
  : result DataFrame * io W * sheets :=
  let output_path := Sheets.output_path (output files) (input files) in
  let work_path := Sheets.work_path output_path in
  match cli_persona files fs with
  | Raise e => (Raise e, g, written)
  | Ok persona =>
      match cli_custom_map files fs with
      | Raise e => (Raise e, g, written)
      | Ok custom_map =>
          let '(res, st) := cli_main llm_call py_str args persona custom_map sheet g in
          let written :=
            foldl (λ out d, save_sheet d work_path out) written
              (checkpoints (events st)) in
          match res with
          | Raise e => (Raise e, gw st, written)
          | Ok d => (Ok d, gw st, delete work_path (save_sheet d output_path written))
          end
      end
  end.

End Main.

End Programs.
(** *** Notions used to state further properties *)

Module TextSpec.
Import Normalizer.

(** The tokens the pattern matches in a text, from left to right: what
    [_WORD_RE.findall(text)] lists, and what [repl] is called with.  The
    scan is the one of [sub_from]. *)
Fixpoint tokens_from (skip : nat) (prev : option ascii) (s : string)
  : list string :=
  match s with
  | EmptyString => []
  | String c r =>
      match skip with
      | S k => tokens_from k (Some c) r
      | O =>
          match match_at prev s with
          | Some (tok, _) =>
              tok :: tokens_from (String.length tok - 1) (Some c) r
          | None => tokens_from 0 (Some c) r
          end
      end
  end.

Definition tokens (text : string) : list string := tokens_from 0 None text.

Definition is_str (v : json) : bool :=
  match v with
  | JStr _ => true
  | _ => false
  end.

(** A custom map that is absent, counts as false, or is a dict whose
    values are all texts. *)
Definition text_map (custom_map : option json) : bool :=
  match custom_map with
  | None => true
  | Some (JObj d) => forallb (λ kv, is_str kv.2) d
  | Some v => negb (truthy v)
  end.

Definition texts_only (mapping : gmap string json) : Prop :=
  ∀ k v, mapping !! k = Some v → is_str v = true.

(** The character before the position that follows [a], [prev] being the
    one before [a]. *)
Definition last_of (prev : option ascii) (a : string) : option ascii :=
  match a with
  | EmptyString => prev
  | String c r => Some (NormalizerSpec.last_c c r)
  end.

(** The text starts with a white space character: the tests of
    [Py.lstrip] at the head of the text. *)
Definition ws_head (s : string) : bool :=
  match s with
  | EmptyString => false
  | String b1 r1 =>
      Py.is_space_c b1
      || match r1 with
         | EmptyString => false
         | String b2 r2 =>
             Py.is_space2 b1 b2
             || match r2 with
                | EmptyString => false
                | String b3 _ => Py.is_space3 b1 b2 b3
                end
         end
  end.

(** The same for [Py.lstrip_reversed], on the reversed text. *)
Definition ws_head_reversed (s : string) : bool :=
  match s with
  | EmptyString => false
  | String b1 r1 =>
      Py.is_space_c b1
      || match r1 with
         | EmptyString => false
         | String b2 r2 =>
             Py.is_space2 b2 b1
             || match r2 with
                | EmptyString => false
                | String b3 _ => Py.is_space3 b3 b2 b1
                end
         end
  end.

End TextSpec.

Module SheetSpec.
Import Pandas Gateway Filler.

(** Two frames with the same columns and as many rows, that hold the same
    cells outside the column [tgt]. *)
Definition same_outside (tgt : string) (d d' : DataFrame) : Prop :=
  columns d' = columns d
  ∧ length (rows d') = length (rows d)
  ∧ ∀ i col, col ≠ tgt → get_at d' i col = get_at d i col.

(** A loop body that leaves the frame as it is or writes one cell of the
    row it is given, in the column [tgt]. *)
Definition writes_only {W} (tgt : string)
    (body : nat → row → state W → option exn * state W) : Prop :=
  ∀ i r st o st',
    body i r st = (o, st') →
    df st' = df st ∨ ∃ v, df st' = set_at (df st) i tgt v.

(** The test of the loops: the row is not passed over. *)
Definition selected_b (src_col tgt_col : string) (overwrite : bool) (r : row)
  : bool :=
  negb (blank (text_of (at_col r src_col)))
  && (blank (text_of (at_col r tgt_col)) || overwrite).

Definition one_if (b : bool) : nat := if b then 1%nat else 0%nat.

Definition count_selected (src_col tgt_col : string) (overwrite : bool)
    (todo : list (nat * row)) : nat :=
  length (List.filter (λ ir, selected_b src_col tgt_col overwrite ir.2) todo).

Definition is_error (ev : event) : bool :=
  match ev with
  | CliError _ _ _ | UiError _ _ => true
  | _ => false
  end.

(** The number of rows whose gateway call was reported as failed. *)
Definition count_errors (evs : list event) : nat :=
  length (List.filter is_error evs).

(** The numbers of filled rows at which a checkpoint was written. *)
Definition checkpoint_counts (evs : list event) : list nat :=
  omap (λ ev, match ev with
              | CliAutosave _ filled => Some filled
              | _ => None
              end) evs.

(** The persona a run works with: none, or the dump of a profile. *)
Definition from_store (persona : json) : Prop :=
  persona = JObj [] ∨ ∃ p, persona = PersonaLearner.model_dump p.

End SheetSpec.

Module LlmSpec.

(** A Gemini response as the service sends it: candidates, each with the
    parts of its content, each part with a text. *)
Definition part (t : string) : json := JObj [("text", JStr t)].

Definition candidate (texts : list string) : json :=
  JObj [ ("content", JObj [("parts", JArr (part <$> texts)); ("role", JStr "model")]);
         ("finishReason", JStr "STOP") ].

Definition response_of (texts : list (list string)) : json :=
  JObj [ ("candidates", JArr (candidate <$> texts)) ].

End LlmSpec.

(** ** Concrete inputs *)

Module Examples.
Import Pandas Gateway.

(** A sheet with a character column, a source column and a target column;
    the second row of A has no translation yet. *)
Definition dialog : DataFrame :=
  {| columns := ["character_id"; "zh_cn"; "id_id"];
     rows := [ [("character_id", Val "B"); ("zh_cn", Val "ni hao"); ("id_id", Val "Halo")];
               [("character_id", Val "A"); ("zh_cn", Val "zai jian"); ("id_id", NA)];
               [("character_id", Val "A"); ("zh_cn", Val "xie xie"); ("id_id", Val "Makasih ya")];
               [("character_id", Val "A"); ("zh_cn", Val "hao de"); ("id_id", Val "Oke deh")];
               [("character_id", Val "A"); ("zh_cn", Val "zou ba"); ("id_id", Val "Yuk")] ];
     refuses_text := [] |}.

(** Five lines of one character, the first without translation. *)
Definition monologue : DataFrame :=
  {| columns := ["character_id"; "zh_cn"; "id_id"];
     rows := [ [("character_id", Val "A"); ("zh_cn", Val "zai jian"); ("id_id", NA)];
               [("character_id", Val "A"); ("zh_cn", Val "xie xie"); ("id_id", Val "Makasih ya")];
               [("character_id", Val "A"); ("zh_cn", Val "hao de"); ("id_id", Val "Oke deh")];
               [("character_id", Val "A"); ("zh_cn", Val "zou ba"); ("id_id", Val "Yuk")];
               [("character_id", Val "A"); ("zh_cn", Val "hao"); ("id_id", Val "Sip")] ];
     refuses_text := [] |}.

(** The same sheet without its target column. *)
Definition dialog_untranslated : DataFrame :=
  {| columns := ["character_id"; "zh_cn"];
     rows := [ [("character_id", Val "A"); ("zh_cn", Val "ni hao")] ];
     refuses_text := [] |}.

Definition start : io nat := {| world := 0%nat; calls := [] |}.

(** A gateway whose every answer is prose without a JSON object. *)
Definition chatty : llm nat :=
  λ _ _ _ w, (Ok "Sorry, I cannot help with that.", S w).

(** A gateway that is down for the first call and answers afterwards. *)
Definition down_then_up : llm nat :=
  λ _ _ _ w,
    (match w with
     | O => Raise (RuntimeError "Gemini error 503: unavailable")
     | S _ => Ok "Sorry, I cannot help with that."
     end, S w).


(** A gateway that answers the first call and is down afterwards. *)
Definition up_then_down : llm nat :=
  λ _ _ _ w,
    (match w with
     | O => Ok "halo teman"
     | S _ => Raise (RuntimeError "Gemini error 503: unavailable")
     end, S w).

Definition schema : string := "{}".

(** A response with prose around the object: the text
    Here you go: {"tone": "calm", "extra": 1} Hope it helps. *)
Definition wrapped_reply : string :=
  let q := String Json.dquote EmptyString in
  "Here you go: {" +:+ q +:+ "tone" +:+ q +:+ ": " +:+ q +:+ "calm" +:+ q
  +:+ ", " +:+ q +:+ "extra" +:+ q +:+ ": 1} Hope it helps.".

Definition no_repr : json → string := λ _, "?".

Definition no_float_repr : pyfloat → string := λ _, "0.0".

(** A sheet to fill: a row to translate, a row without source, a row that
    is already translated. *)
Definition sheet : DataFrame :=
  {| columns := ["zh"; "id"];
     rows := [ [("zh", Val "ni hao"); ("id", NA)];
               [("zh", Val "  "); ("id", NA)];
               [("zh", Val "zai jian"); ("id", Val "dadah")] ];
     refuses_text := [] |}.

(** A sheet whose target column was read with every cell empty, held by
    pandas 3: the column refuses text. *)
Definition unfilled : DataFrame :=
  {| columns := ["zh"; "id"];
     rows := [ [("zh", Val "ni hao"); ("id", NA)];
               [("zh", Val "zai jian"); ("id", NA)] ];
     refuses_text := ["id"] |}.

Definition cli (overwrite kbbi : bool) : Filler.cli_args :=
  {| Filler.cn_col := "zh"; Filler.id_col := "id";
     Filler.overwrite := overwrite; Filler.kbbi := kbbi;
     Filler.autosave_every := 0; Filler.progress_every := 20 |}.

Definition ui (overwrite kbbi : bool) : Filler.ui_args :=
  {| Filler.test_cn_col := "zh"; Filler.test_tgt_col := "id";
     Filler.trans_lang := "id"; Filler.no_training := false;
     Filler.use_kbbi := kbbi; Filler.ui_overwrite := overwrite |}.

(** Two learned profiles, with text outside ASCII. *)
Definition stored_profiles : list (string * PersonaLearner.PersonaProfile) :=
  [ ("Paimon",
     {| PersonaLearner.character_id := "Paimon";
        PersonaLearner.target_lang := "id";
        PersonaLearner.tone := "ceria, cerewet";
        PersonaLearner.quirks := ["menyebut diri «Paimon»"; "派蒙!"];
        PersonaLearner.pronouns := Some "Paimon/kamu";
        PersonaLearner.formality := Some "informal";
        PersonaLearner.punctuation_habits := None;
        PersonaLearner.lexical_preferences := ["hehe"];
        PersonaLearner.style_rules_en := [];
        PersonaLearner.style_rules_id := ["kalimat pendek"];
        PersonaLearner.notes := None |});
    ("钟离", LearnerSpec.fallback_record "钟离" "id") ].

(** An answer whose tone is an escaped lone surrogate: the text
    {"tone": "\ud800"} *)
Definition surrogate_reply : string :=
  let q := String Json.dquote EmptyString in
  "{" +:+ q +:+ "tone" +:+ q +:+ ": " +:+ q
  +:+ String Json.backslash "ud800" +:+ q +:+ "}".

(** The profile that answer gives: its tone is the surrogate U+D800. *)
Definition garbled : PersonaLearner.PersonaProfile :=
  {| PersonaLearner.character_id := "A";
     PersonaLearner.target_lang := "id";
     PersonaLearner.tone := Json.utf8 55296;
     PersonaLearner.quirks := [];
     PersonaLearner.pronouns := None;
     PersonaLearner.formality := None;
     PersonaLearner.punctuation_habits := None;
     PersonaLearner.lexical_preferences := [];
     PersonaLearner.style_rules_en := [];
     PersonaLearner.style_rules_id := [];
     PersonaLearner.notes := None |}.

(** A custom map for a reduplicated word. *)
Definition temen_map : option json :=
  Some (JObj [("temen-temen", JStr "teman-teman")]).

(** A custom map file whose one entry is not a text. *)
Definition bad_map : option json := Some (JObj [("halo", JInt 1)]).

End Examples.
(** ** Further concrete inputs *)

Module MoreExamples.
Import Pandas Gateway.

(** An answer that names another character and another language: the text
    {"character_id": "Klee", "target_lang": "fr", "tone": "calm"} *)
Definition renaming_reply : string :=
  let q := String Json.dquote EmptyString in
  "{" +:+ q +:+ "character_id" +:+ q +:+ ": " +:+ q +:+ "Klee" +:+ q
  +:+ ", " +:+ q +:+ "target_lang" +:+ q +:+ ": " +:+ q +:+ "fr" +:+ q
  +:+ ", " +:+ q +:+ "tone" +:+ q +:+ ": " +:+ q +:+ "calm" +:+ q +:+ "}".

(** The member "tone": "calm" of an object. *)
Definition tone_member : string :=
  let q := String Json.dquote EmptyString in
  q +:+ "tone" +:+ q +:+ ": " +:+ q +:+ "calm" +:+ q.

(** The arguments of a run that overwrites and saves a checkpoint every
    two filled rows. *)
Definition autosaving : Filler.cli_args :=
  {| Filler.cn_col := "zh"; Filler.id_col := "id";
     Filler.overwrite := true; Filler.kbbi := false;
     Filler.autosave_every := 2; Filler.progress_every := 20 |}.

(** The files of a run for the character 钟离, with the default output. *)
Definition files : Programs.cli_files :=
  {| Programs.input := "sheet.csv"; Programs.output := None;
     Programs.persona_json := "data/personas_learned_id.json";
     Programs.char_id := "钟离"; Programs.kbbi_json := None |}.

(** A persona file with two characters: the text
    {"Klee": {"tone": "riang"}, "Paimon": {"tone": "datar"}} *)
Definition store_text : string :=
  let q := String Json.dquote EmptyString in
  "{" +:+ q +:+ "Klee" +:+ q +:+ ": {" +:+ q +:+ "tone" +:+ q +:+ ": "
  +:+ q +:+ "riang" +:+ q +:+ "}, " +:+ q +:+ "Paimon" +:+ q +:+ ": {"
  +:+ q +:+ "tone" +:+ q +:+ ": " +:+ q +:+ "datar" +:+ q +:+ "}}".

(** The settings of the gateway, for the Gemini backend. *)
Definition settings : Llm.config :=
  {| Llm.PROVIDER := "google"; Llm.API_KEY := "secret";
     Llm.OPENAI_MODEL := "gpt-4o-mini"; Llm.GEMINI_MODEL := "gemini-2.5-flash";
     Llm.TEMPERATURE_value := FDec 4 (-1) |}.

(** The body of a Gemini response with one candidate of one part: the text
    {"candidates": [{"content": {"parts": [{"text": " Halo! "}]}}]} *)
Definition gemini_body : string :=
  let q := String Json.dquote EmptyString in
  "{" +:+ q +:+ "candidates" +:+ q +:+ ": [{" +:+ q +:+ "content" +:+ q
  +:+ ": {" +:+ q +:+ "parts" +:+ q +:+ ": [{" +:+ q +:+ "text" +:+ q
  +:+ ": " +:+ q +:+ " Halo! " +:+ q +:+ "}]}}]}".

(** A service whose v1 endpoint rejects the request with status 400 and
    whose v1beta endpoint answers; the world counts the requests. *)
Definition v1_rejects : Llm.http nat :=
  λ req w,
    (match w with
     | O => Llm.Returned {| Llm.status_code := 400; Llm.text := "unknown field" |}
     | S _ => Llm.Returned {| Llm.status_code := 200; Llm.text := gemini_body |}
     end, S w).

Definition offline : Llm.net nat := {| Llm.wire := 0%nat; Llm.sent := [] |}.

End MoreExamples.
(** * Properties *)

(** ** Texts *)

Section StringFacts.

Lemma app_cons c s t : String c s +:+ t = String c (s +:+ t).
Proof. done. Qed.

Lemma app_nil_l' t : EmptyString +:+ t = t.
Proof. done. Qed.

Lemma app_assoc' s t u : (s +:+ t) +:+ u = s +:+ (t +:+ u).
Proof.
  induction s as [|c s IH]; [done|]. by rewrite !app_cons, IH.
Qed.

Lemma length_app' s t :
  String.length (s +:+ t) = (String.length s + String.length t)%nat.
Proof.
  induction s as [|c s IH]; [done|]. rewrite app_cons. cbn. by rewrite IH.
Qed.

Lemma append_empty_r (s : string) : s +:+ "" = s.
Proof.
  induction s as [|c s IH]; [done|].
  change (String c (s +:+ "") = String c s). by rewrite IH.
Qed.

Lemma app_inv_head' (s t u : string) : s +:+ t = s +:+ u → t = u.
Proof.
  induction s as [|c s IH]; [done|]. rewrite !app_cons. intros [= H]. by apply IH.
Qed.

End StringFacts.

(** ** [str.strip]: a stripped text is not stripped further *)

Section StripFacts.
Import TextSpec.

Lemma lstrip_no_ws_head s : ws_head s = false → Py.lstrip s = s.
Proof.
  destruct s as [|b1 [|b2 [|b3 r3]]]; cbn; [done|..].
  - by intros [-> _]%orb_false_elim.
  - intros [-> H]%orb_false_elim. by apply orb_false_elim in H as [-> _].
  - intros [-> H]%orb_false_elim. by apply orb_false_elim in H as [-> ->].
Qed.

Lemma ws_head_lstrip n :
  ∀ s, (String.length s ≤ n)%nat → ws_head (Py.lstrip s) = false.
Proof.
  induction n as [|n IH]; intros s Hn.
  - destruct s; [done|cbn in Hn; lia].
  - destruct s as [|b1 r1]; [done|]. cbn [String.length] in Hn.
    cbn [Py.lstrip]. destruct (Py.is_space_c b1) eqn:E1; [apply IH; lia|].
    destruct r1 as [|b2 r2]; [cbn; by rewrite E1|].
    cbn [String.length] in Hn.
    destruct (Py.is_space2 b1 b2) eqn:E2; [apply IH; lia|].
    destruct r2 as [|b3 r3]; [cbn; by rewrite E1, E2|].
    cbn [String.length] in Hn.
    destruct (Py.is_space3 b1 b2 b3) eqn:E3; [apply IH; lia|].
    cbn. by rewrite E1, E2, E3.
Qed.

Lemma ws_head_prefix p t : ws_head (p +:+ t) = false → ws_head p = false.
Proof.
  destruct p as [|b1 [|b2 [|b3 r3]]]; rewrite ?app_cons, ?app_nil_l'; cbn;
    [done|..].
  - intros [-> _]%orb_false_elim. done.
  - intros [-> H]%orb_false_elim. cbn.
    apply orb_false_elim in H as [-> _]. done.
  - done.
Qed.

Lemma lstrip_reversed_no_ws_head s :
  ws_head_reversed s = false → Py.lstrip_reversed s = s.
Proof.
  destruct s as [|b1 [|b2 [|b3 r3]]]; cbn; [done|..].
  - by intros [-> _]%orb_false_elim.
  - intros [-> H]%orb_false_elim. by apply orb_false_elim in H as [-> _].
  - intros [-> H]%orb_false_elim. by apply orb_false_elim in H as [-> ->].
Qed.

(** [lstrip_reversed] leaves an end of the text, which has no white space
    at its head. *)
Lemma lstrip_reversed_suffix n :
  ∀ s, (String.length s ≤ n)%nat →
    ws_head_reversed (Py.lstrip_reversed s) = false
    ∧ ∃ a, s = a +:+ Py.lstrip_reversed s.
Proof.
  induction n as [|n IH]; intros s Hn.
  - destruct s; [by split; [|exists ""]|cbn in Hn; lia].
  - destruct s as [|b1 r1]; [by split; [|exists ""]|].
    cbn [String.length] in Hn. cbn [Py.lstrip_reversed].
    destruct (Py.is_space_c b1) eqn:E1.
    { destruct (IH r1) as [H [a Ha]]; [lia|]. split; [done|].
      exists (String b1 a). by rewrite app_cons, <- Ha. }
    destruct r1 as [|b2 r2].
    { split; [cbn; by rewrite E1|by exists ""]. }
    cbn [String.length] in Hn.
    destruct (Py.is_space2 b2 b1) eqn:E2.
    { destruct (IH r2) as [H [a Ha]]; [lia|]. split; [done|].
      exists (String b1 (String b2 a)). by rewrite !app_cons, <- Ha. }
    destruct r2 as [|b3 r3].
    { split; [cbn; by rewrite E1, E2|by exists ""]. }
    cbn [String.length] in Hn.
    destruct (Py.is_space3 b3 b2 b1) eqn:E3.
    { destruct (IH r3) as [H [a Ha]]; [lia|]. split; [done|].
      exists (String b1 (String b2 (String b3 a))).
      by rewrite !app_cons, <- Ha. }
    split; [cbn; by rewrite E1, E2, E3|by exists ""].
Qed.

Lemma srev_onto_app s acc : Py.srev_onto s acc = Py.srev s +:+ acc.
Proof.
  unfold Py.srev. revert acc. induction s as [|c s IH]; intros acc; cbn; [done|].
  rewrite IH, (IH (String c "")). by rewrite app_assoc', app_cons, app_nil_l'.
Qed.

Lemma srev_cons c s : Py.srev (String c s) = Py.srev s +:+ String c "".
Proof. unfold Py.srev at 1. cbn. apply srev_onto_app. Qed.

Lemma srev_app a b : Py.srev (a +:+ b) = Py.srev b +:+ Py.srev a.
Proof.
  induction a as [|c a IH]; rewrite ?app_nil_l', ?app_cons.
  - by rewrite append_empty_r.
  - by rewrite !srev_cons, IH, app_assoc'.
Qed.

Lemma srev_involutive s : Py.srev (Py.srev s) = s.
Proof.
  induction s as [|c s IH]; [done|].
  by rewrite srev_cons, srev_app, IH.
Qed.

(** [rstrip] leaves a start of the text. *)
Lemma rstrip_prefix s : ∃ t, s = Py.rstrip s +:+ t.
Proof.
  unfold Py.rstrip.
  destruct (lstrip_reversed_suffix _ (Py.srev s) (le_n _)) as [_ [a Ha]].
  exists (Py.srev a).
  rewrite <- srev_app, <- Ha. by rewrite srev_involutive.
Qed.

Lemma rstrip_rstrip s : Py.rstrip (Py.rstrip s) = Py.rstrip s.
Proof.
  unfold Py.rstrip. rewrite srev_involutive.
  destruct (lstrip_reversed_suffix _ (Py.srev s) (le_n _)) as [H _].
  by rewrite (lstrip_reversed_no_ws_head _ H).
Qed.

Lemma strip_strip s : Py.strip (Py.strip s) = Py.strip s.
Proof.
  unfold Py.strip. set (u := Py.lstrip s).
  assert (Hu : ws_head u = false) by apply (ws_head_lstrip _ s (le_n _)).
  destruct (rstrip_prefix u) as [t Ht].
  rewrite Ht in Hu. apply ws_head_prefix in Hu.
  by rewrite (lstrip_no_ws_head _ Hu), rstrip_rstrip.
Qed.

End StripFacts.

(** ** Lexical normalizer *)

Section NormalizerFacts.
Import Normalizer NormalizerSpec.

Lemma is_word_in_class c : is_word_c c = true → in_class c = true.
Proof. unfold in_class. intros ->. done. Qed.

Lemma match_end_token c r :
  Py.sall in_class r = true →
  is_word_c (last_c c r) = true →
  match_end c r = Some (r, "").
Proof.
  revert c. induction r as [|d r IH]; intros c Hall Hlast; simpl in *.
  - unfold boundary. simpl. by rewrite Hlast.
  - apply andb_true_iff in Hall as [Hd Hall].
    rewrite Hd, (IH d Hall Hlast). done.
Qed.

Lemma match_at_token w :
  is_token w = true → match_at None w = Some (w, "").
Proof.
  destruct w as [|c r]; simpl; [done|].
  intros H. apply andb_true_iff in H as [H Hlast].
  apply andb_true_iff in H as [Hc Hall].
  unfold boundary. simpl. rewrite Hc, (is_word_in_class c Hc). simpl.
  by rewrite (match_end_token c r Hall Hlast).
Qed.

Lemma sub_from_skip_all f s prev :
  sub_from f (String.length s) prev s = Ok [].
Proof.
  revert prev. induction s as [|c s IH]; intros prev; simpl; [done|].
  apply IH.
Qed.

(** A text that is one token is handed to [repl] whole. *)
Lemma re_sub_token f w :
  is_token w = true →
  re_sub f w = (out ← f w; join_list (match out with JNull => [] | _ => [out] end)).
Proof.
  intros Hw. pose proof (match_at_token w Hw) as Hm.
  unfold re_sub. destruct w as [|c r]; [done|].
  cbn [sub_from]. rewrite Hm.
  cbn [String.length Nat.sub]. rewrite Nat.sub_0_r, sub_from_skip_all.
  by destruct (f (String c r)) as [out|e].
Qed.

(** Once a letter has been seen, a run of letters is in title case exactly
    when no further letter is upper-case. *)
Lemma istitle_from_cased_letters r :
  letters_only r = true →
  Py.istitle_from true true r = Py.sall (λ d, negb (Py.is_upper_c d)) r.
Proof.
  induction r as [|d r IH]; simpl; [done|].
  intros H. apply andb_true_iff in H as [Hd Hr].
  unfold Py.is_cased_c in Hd.
  destruct (Py.is_upper_c d) eqn:Hu; simpl; [done|].
  simpl in Hd. rewrite Hd. by apply IH.
Qed.

(** On a word made of letters only, [str.istitle] is "first letter
    capitalized, rest lower". *)
Lemma istitle_letters w :
  letters_only w = true → Py.istitle w = first_capital_rest_lower w.
Proof.
  destruct w as [|c r]; simpl; [done|].
  intros H. apply andb_true_iff in H as [Hc Hr].
  unfold Py.istitle. simpl. unfold Py.is_cased_c in Hc.
  destruct (Py.is_upper_c c) eqn:Hu; simpl.
  - by apply istitle_from_cased_letters.
  - simpl in Hc. by rewrite Hc.
Qed.

End NormalizerFacts.


(** ** Dictionaries *)

Section DictFacts.
Context {V : Type}.
Implicit Types (d : list (string * V)) (k : string) (v : V).

Lemma dict_get_set_eq d k v : Dict.get k (Dict.set k v d) = Some v.
Proof.
  induction d as [|[k' v'] d IH]; simpl.
  - by rewrite String.eqb_refl.
  - destruct (String.eqb k k') eqn:E; simpl.
    + by rewrite String.eqb_refl.
    + by rewrite E.
Qed.

Lemma dict_get_set_ne d k k' v :
  k ≠ k' → Dict.get k (Dict.set k' v d) = Dict.get k d.
Proof.
  intros Hne. induction d as [|[k0 v0] d IH]; simpl.
  - by apply String.eqb_neq in Hne as ->.
  - destruct (String.eqb k' k0) eqn:E; simpl.
    + apply String.eqb_eq in E as <-.
      by apply String.eqb_neq in Hne as ->.
    + by rewrite IH.
Qed.

Lemma dict_set_fresh d k v :
  k ∉ Dict.keys d → Dict.set k v d = d ++ [(k, v)].
Proof.
  unfold Dict.keys. induction d as [|[k' v'] d IH]; simpl; [done|].
  intros Hk. apply not_elem_of_cons in Hk as [Hne Hk].
  apply String.eqb_neq in Hne as ->. by rewrite IH.
Qed.

Lemma dict_keys_set_fresh d k v :
  k ∉ Dict.keys d → Dict.keys (Dict.set k v d) = Dict.keys d ++ [k].
Proof.
  intros Hk. rewrite dict_set_fresh by done.
  unfold Dict.keys. by rewrite fmap_app.
Qed.

Lemma dict_get_None d k : k ∉ Dict.keys d → Dict.get k d = None.
Proof.
  unfold Dict.keys. induction d as [|[k' v'] d IH]; simpl; [done|].
  intros Hk. apply not_elem_of_cons in Hk as [Hne Hk].
  apply String.eqb_neq in Hne as ->. by apply IH.
Qed.

End DictFacts.


(** ** Lists *)

Lemma elem_of_lfilter {A} (f : A → bool) (l : list A) (x : A) :
  x ∈ List.filter f l ↔ x ∈ l ∧ f x = true.
Proof. by rewrite !list_elem_of_In, filter_In. Qed.

Lemma NoDup_lfilter {A} (f : A → bool) (l : list A) :
  NoDup l → NoDup (List.filter f l).
Proof.
  induction 1 as [|x l Hx Hnd IH]; cbn; [constructor|].
  destruct (f x); [|done]. constructor; [|done].
  rewrite elem_of_lfilter. tauto.
Qed.

(** ** Persona learner *)

Section LearnerFacts.
Import Pandas Gateway PersonaLearner LearnerSpec.
Context {W : Type}.
Variable llm_call : llm W.
Variable schema_json : string.

Abbreviation learn_groups := (learn_groups llm_call schema_json).
Abbreviation learn := (learn_personas_from_csv llm_call schema_json).

(** *** Response handling *)

Lemma fallback_profile_eq k tl :
  fallback_profile k tl
  = if target_lang_ok tl then Ok (model_dump (fallback_record k tl))
    else Raise ValidationError.
Proof.
  unfold fallback_profile, validate. cbn.
  by destruct (target_lang_ok tl).
Qed.

Lemma validate_bad_lang d tl :
  target_lang_ok tl = false →
  Dict.get "target_lang" d = Some (JStr tl) →
  validate d = Raise ValidationError.
Proof.
  intros Htl Hget. unfold validate, field_str. rewrite Hget.
  destruct (Dict.get "character_id" d) as [[]|]; cbn; try done.
  by rewrite Htl.
Qed.

Lemma parse_profile_bad_lang raw k tl :
  target_lang_ok tl = false →
  ∃ e, parse_profile raw k tl = Raise e.
Proof.
  intros Htl. unfold parse_profile.
  destruct (Json.loads _) as [obj|e]; cbn; [|by eexists].
  destruct obj; cbn; try by eexists.
  rewrite (validate_bad_lang _ tl Htl); cbn; [by eexists|].
  apply dict_get_set_eq.
Qed.

(** With a language code outside the pattern every path of the response
    handling ends in the failing fallback constructor. *)
Lemma handle_response_bad_lang raw k tl :
  target_lang_ok tl = false →
  handle_response raw k tl = Raise ValidationError.
Proof.
  intros Htl. unfold handle_response, try_except.
  destruct (parse_profile_bad_lang raw k tl Htl) as [e ->].
  by rewrite fallback_profile_eq, Htl.
Qed.

Lemma handle_response_good_lang raw k tl :
  target_lang_ok tl = true →
  handle_response raw k tl = Ok (profile_or_fallback raw k tl).
Proof.
  intros Htl. unfold handle_response, try_except, profile_or_fallback.
  rewrite fallback_profile_eq, Htl.
  by destruct (parse_profile raw k tl).
Qed.

(** *** The loop over the groups *)

Lemma learn_groups_app df cc tc tl n ks1 ks2 results st :
  learn_groups df cc tc tl n (ks1 ++ ks2) results st
  = match learn_groups df cc tc tl n ks1 results st with
    | (Ok results1, st1) => learn_groups df cc tc tl n ks2 results1 st1
    | (Raise e, st1) => (Raise e, st1)
    end.
Proof.
  revert results st. induction ks1 as [|k ks1 IH]; intros results st; [done|].
  cbn [app PersonaLearner.learn_groups].
  destruct (tgt_lines_of df cc tc n k) as [|l ls]; [apply IH|].
  destruct (invoke _ _ _ _ _) as [[raw|e] st1]; [|done].
  destruct (handle_response raw k tl) as [p|e]; [apply IH|done].
Qed.

(** Groups without lines are passed over: the loop only sees the groups
    that are sent. *)
Lemma learn_groups_sent df cc tc tl n ks results st :
  learn_groups df cc tc tl n ks results st
  = learn_groups df cc tc tl n
      (List.filter (λ k, nonempty (tgt_lines_of df cc tc n k)) ks) results st.
Proof.
  revert results st. induction ks as [|k ks IH]; intros results st; [done|].
  cbn [List.filter PersonaLearner.learn_groups].
  destruct (tgt_lines_of df cc tc n k) as [|l ls] eqn:E; cbn [nonempty].
  - apply IH.
  - cbn [PersonaLearner.learn_groups]. rewrite E.
    destruct (invoke _ _ _ _ _) as [[raw|e] st1]; [|done].
    destruct (handle_response raw k tl) as [p|e]; [apply IH|done].
Qed.

Lemma invoke_calls system user t (st st1 : io W) r :
  invoke llm_call system user t st = (r, st1) →
  calls st1 = calls st ++ [(system, user, t)].
Proof.
  unfold invoke. destruct (llm_call _ _ _ _) as [r' w].
  intros [= <- <-]. done.
Qed.

(** The calls of a run, one for each group reached, in the order of the
    groups; a run that returns reached them all and stored an entry for
    each. *)
Lemma learn_groups_trace df cc tc tl n ks results st res st' :
  NoDup ks →
  (∀ k, k ∈ ks → nonempty (tgt_lines_of df cc tc n k) = true) →
  (∀ k, k ∈ ks → k ∉ Dict.keys results) →
  learn_groups df cc tc tl n ks results st = (res, st') →
  ∃ reached, reached `prefix_of` ks
    ∧ calls st' = calls st ++ (call_for schema_json df cc tc tl n <$> reached)
    ∧ ∀ results', res = Ok results' →
        reached = ks ∧ Dict.keys results' = Dict.keys results ++ ks.
Proof.
  revert results st. induction ks as [|k ks IH]; intros results st Hnd Hne Hfresh.
  - cbn. intros [= <- <-]. exists []. split_and!; [done|by rewrite app_nil_r|].
    intros ? [= <-]. by rewrite app_nil_r.
  - cbn [PersonaLearner.learn_groups].
    pose proof (Hne k (list_elem_of_here _ _)) as Hk.
    destruct (tgt_lines_of df cc tc n k) as [|l ls] eqn:E; [done|].
    destruct (invoke _ _ _ _ _) as [[raw|e] st1] eqn:Hinv.
    + apply invoke_calls in Hinv.
      destruct (handle_response raw k tl) as [p|e] eqn:Hh.
      * intros Hrun. apply NoDup_cons in Hnd as [Hk' Hnd].
        apply IH in Hrun as (reached & Hpre & Hcalls & Hok); [|done|..].
        -- exists (k :: reached). split_and!.
           ++ by apply prefix_cons.
           ++ rewrite Hcalls, Hinv, fmap_cons, <- app_assoc. cbn.
              unfold call_for at 2. by rewrite E.
           ++ intros results' Hres. destruct (Hok _ Hres) as [-> Hkeys].
              split; [done|]. rewrite Hkeys, dict_keys_set_fresh.
              ** by rewrite <- app_assoc.
              ** apply Hfresh. left.
        -- intros k0 Hk0. apply Hne. by right.
        -- intros k0 Hk0. rewrite dict_keys_set_fresh.
           ++ intros [Hin|Hin%list_elem_of_singleton]%elem_of_app.
              ** eapply Hfresh; [by right|done].
              ** by subst.
           ++ apply Hfresh. left.
      * intros [= <- <-]. exists [k]. split_and!.
        -- apply prefix_cons, prefix_nil.
        -- rewrite Hinv. cbn. unfold call_for. by rewrite E.
        -- done.
    + apply invoke_calls in Hinv. intros [= <- <-]. exists [k]. split_and!.
      * apply prefix_cons, prefix_nil.
      * rewrite Hinv. cbn. unfold call_for. by rewrite E.
      * done.
Qed.


(** *** Groups and sampled lines *)

Lemma group_keys_NoDup df col : NoDup (group_keys df col).
Proof.
  unfold group_keys. rewrite merge_sort_Permutation. apply NoDup_remove_dups.
Qed.

Lemma slice_to_nonneg {A} (l : list A) n :
  0 ≤ n → Py.slice_to l n = take (Z.to_nat n) l.
Proof. intros Hn. unfold Py.slice_to. by apply Z.leb_le in Hn as ->. Qed.

Lemma speaks_in_group cc k r : speaks cc k r = in_group cc k r.
Proof.
  unfold speaks, in_group. destruct (at_col r cc) as [|k']; [done|].
  apply String.eqb_sym.
Qed.

(** On a frame without empty texts, the one-pass sampling of the
    specification is the truncated list the code builds. *)
Lemma sample_lines_take rs cc tc k limit :
  (∀ r, r ∈ rs → at_col r tc ≠ Val EmptyString) →
  sample_lines rs cc tc k limit
  = take limit (dropna_tolist (List.filter (in_group cc k) rs) tc).
Proof.
  revert limit. induction rs as [|r rs IH]; intros limit Hcsv.
  - by destruct limit.
  - assert (Hrs : ∀ r', r' ∈ rs → at_col r' tc ≠ Val EmptyString).
    { intros r' Hr'. apply Hcsv. by right. }
    pose proof (Hcsv r (list_elem_of_here _ _)) as Hr.
    destruct limit as [|limit]; [by rewrite take_0|].
    cbn [sample_lines List.filter]. rewrite speaks_in_group.
    destruct (in_group cc k r); [|by apply IH].
    unfold dropna_tolist. cbn [omap list_omap]. fold (dropna_tolist (List.filter (in_group cc k) rs) tc).
    destruct (at_col r tc) as [|s]; cbn [usable]; [by apply IH|].
    destruct (String.eqb s EmptyString) eqn:Es.
    + apply String.eqb_eq in Es. by subst.
    + cbn. f_equal. by apply IH.
Qed.

Lemma tgt_lines_sample df cc tc n k :
  0 ≤ n → from_read_csv df →
  tgt_lines_of df cc tc n k = sample_lines (rows df) cc tc k (Z.to_nat n).
Proof.
  intros Hn Hcsv. unfold tgt_lines_of, group_rows.
  rewrite slice_to_nonneg, sample_lines_take; [done| |done].
  intros r Hr. by apply Hcsv.
Qed.

(** A character with sampled lines is a key of the grouping. *)
Lemma sample_lines_key rs cc tc k limit :
  sample_lines rs cc tc k limit ≠ [] →
  k ∈ omap (λ r, key_of r cc) rs.
Proof.
  revert limit. induction rs as [|r rs IH]; intros limit; [by destruct limit|].
  destruct limit as [|limit]; [done|]. cbn [sample_lines omap list_omap].
  unfold speaks, key_of.
  destruct (at_col r cc) as [|k'] eqn:E.
  - intros H. by apply IH in H.
  - destruct (String.eqb k' k) eqn:Ek.
    + apply String.eqb_eq in Ek as ->. intros _. left.
    + intros H. right. by apply IH in H.
Qed.

Lemma group_keys_elem df cc k :
  k ∈ group_keys df cc ↔ k ∈ omap (λ r, key_of r cc) (rows df).
Proof.
  unfold group_keys. by rewrite merge_sort_Permutation, elem_of_remove_dups.
Qed.

Lemma limit_rows_from_read_csv df mc :
  from_read_csv df → from_read_csv (limit_rows df mc).
Proof.
  intros Hcsv r col Hr. apply Hcsv. revert Hr.
  destruct mc as [n|]; cbn; [|done].
  destruct (n =? 0); [done|]. cbn. unfold Py.slice_to.
  destruct (0 <=? n); apply subseteq_take.
Qed.

Lemma sent_groups_NoDup df cc tc n : NoDup (sent_groups df cc tc n).
Proof. apply NoDup_lfilter, group_keys_NoDup. Qed.

Lemma sent_groups_nonempty df cc tc n k :
  k ∈ sent_groups df cc tc n → nonempty (tgt_lines_of df cc tc n k) = true.
Proof.
  unfold sent_groups. rewrite elem_of_lfilter. by intros [_ ?].
Qed.

(** A run is the loop over the groups that are sent. *)
Lemma learn_run df cc sc tc tl n mc st :
  missing_columns df cc sc tc = [] →
  learn df cc sc tc tl n mc st
  = learn_groups (limit_rows df mc) cc tc tl n
      (sent_groups (limit_rows df mc) cc tc n) [] st.
Proof.
  intros Hm. unfold learn_personas_from_csv. rewrite Hm.
  apply learn_groups_sent.
Qed.

(** With a valid language code, on a gateway that returns, the loop
    returns, and stores one entry for each group it was given. *)
Lemma learn_groups_total df cc tc tl n ks results st :
  target_lang_ok tl = true →
  always_returns llm_call →
  NoDup ks →
  (∀ k, k ∈ ks → k ∉ Dict.keys results) →
  ∃ results' st',
    learn_groups df cc tc tl n ks results st = (Ok results', st')
    ∧ (∀ k, k ∈ ks → nonempty (tgt_lines_of df cc tc n k) = true →
         ∃ raw, Dict.get k results' = Some (profile_or_fallback raw k tl))
    ∧ (∀ k, k ∉ ks → Dict.get k results' = Dict.get k results).
Proof.
  intros Htl Hret. revert results st.
  induction ks as [|k ks IH]; intros results st Hnd Hfresh.
  - exists results, st. split_and!; [done| |done]. intros k Hk. by apply elem_of_nil in Hk.
  - apply NoDup_cons in Hnd as [Hk Hnd].
    cbn [PersonaLearner.learn_groups].
    destruct (tgt_lines_of df cc tc n k) as [|l ls] eqn:E.
    + destruct (IH results st Hnd) as (results' & st' & Hrun & Hin & Hout).
      { intros k0 Hk0. apply Hfresh. by right. }
      exists results', st'. split_and!; [done| |].
      * intros k0 [->|Hk0]%elem_of_cons Hne; [by rewrite E in Hne|by apply Hin].
      * intros k0 Hk0. apply not_elem_of_cons in Hk0 as [_ Hk0]. by apply Hout.
    + unfold invoke.
      destruct (Hret system_prompt (user_prompt schema_json n tl k (l :: ls))
                  Temp_0_2 (world st)) as (raw & w' & ->).
      rewrite (handle_response_good_lang raw k tl Htl).
      destruct (IH (Dict.set k (profile_or_fallback raw k tl) results)
                  {| world := w';
                     calls := calls st ++ [(system_prompt,
                       user_prompt schema_json n tl k (l :: ls), Temp_0_2)] |} Hnd)
        as (results' & st' & Hrun & Hin & Hout).
      { intros k0 Hk0. rewrite dict_keys_set_fresh.
        - intros [Hin|Hin%list_elem_of_singleton]%elem_of_app.
          + eapply Hfresh; [by right|done].
          + by subst.
        - apply Hfresh. left. }
      exists results', st'. split_and!; [done| |].
      * intros k0 [->|Hk0]%elem_of_cons Hne; [|by apply Hin].
        exists raw. rewrite (Hout k Hk). apply dict_get_set_eq.
      * intros k0 Hk0. apply not_elem_of_cons in Hk0 as [Hne Hk0].
        rewrite (Hout k0 Hk0). by apply dict_get_set_ne.
Qed.

End LearnerFacts.
(** *** The text of the learning prompt *)

Section PromptFacts.
Import Pandas Gateway PersonaLearner LearnerSpec.

Lemma sample_block_listed lines : sample_block lines = listed lines.
Proof.
  unfold sample_block. induction lines as [|l [|l' ls] IH]; [done|done|].
  cbn [fmap list_fmap Py.join listed] in *. by rewrite IH.
Qed.

Lemma lstrip_newline_Y r :
  Py.lstrip (nl +:+ String "Y" r) = String "Y" r.
Proof. by destruct r as [|b2 [|b3 r3]]. Qed.

Lemma is_space2_dot b : Py.is_space2 b "." = false.
Proof. unfold Py.is_space2. cbn. apply andb_false_r. Qed.

Lemma is_space3_dot a b : Py.is_space3 a b "." = false.
Proof.
  unfold Py.is_space3, Py.in_range. cbn. by rewrite !andb_false_r.
Qed.

Lemma rstrip_dot_newline x :
  Py.rstrip (x +:+ "." +:+ nl) = x +:+ ".".
Proof.
  unfold Py.rstrip. rewrite !srev_app.
  change (Py.srev nl) with nl. change (Py.srev ".") with ".".
  rewrite app_assoc'.
  assert (H : Py.lstrip_reversed (nl +:+ "." +:+ Py.srev x) = "." +:+ Py.srev x).
  { change (nl +:+ "." +:+ Py.srev x) with (String "010" (String "." (Py.srev x))).
    change ("." +:+ Py.srev x) with (String "." (Py.srev x)).
    destruct (Py.srev x) as [|b2 [|b3 r3]]; cbn [Py.lstrip_reversed];
      rewrite ?is_space2_dot, ?is_space3_dot; done. }
  rewrite H, srev_app, srev_involutive. done.
Qed.

Lemma strip_framed body :
  (∃ r, body = String "Y" r) → (∃ x, body = x +:+ ".") →
  Py.strip (nl +:+ body +:+ nl) = body.
Proof.
  intros [r HY] [x Hdot]. unfold Py.strip.
  rewrite HY at 1. rewrite app_cons, lstrip_newline_Y, <- app_cons, <- HY.
  rewrite Hdot, app_assoc'. apply rstrip_dot_newline.
Qed.

Lemma prompt_after_dot :
  ∃ x, prompt_after = x +:+ ".".
Proof.
  exists (nl +:+ nl +:+ "Important:" +:+ nl
          +:+ "- Base your analysis ONLY on these translated lines." +:+ nl
          +:+ "- Keep it short and concrete; no generic fluff." +:+ nl
          +:+ "- If a field is unknown, leave it empty or minimal." +:+ nl
          +:+ "- Output ONLY the JSON object, nothing else").
  reflexivity.
Qed.

(** The prompt of a group is the fixed text around the listed lines. *)
Lemma user_prompt_text schema_json n tl k lines :
  user_prompt schema_json n tl k lines
  = prompt_before schema_json n tl k +:+ listed lines +:+ prompt_after.
Proof.
  unfold user_prompt. rewrite sample_block_listed.
  set (body := prompt_before schema_json n tl k +:+ listed lines +:+ prompt_after).
  destruct prompt_after_dot as [x Hx].
  rewrite <- (strip_framed body).
  - f_equal. unfold body, prompt_before, prompt_after, language_name.
    cbn [Py.join]. by rewrite !app_assoc', append_empty_r, !app_nil_l'.
  - unfold body, prompt_before. rewrite !app_assoc', app_cons. by eexists.
  - exists (prompt_before schema_json n tl k +:+ listed lines +:+ x).
    unfold body. by rewrite Hx, !app_assoc'.
Qed.

Lemma system_prompt_text schema_json n tl k lines :
  (system_prompt, user_prompt schema_json n tl k lines, Temp_0_2)
  = call_with schema_json n tl k lines.
Proof. unfold call_with. by rewrite user_prompt_text. Qed.

End PromptFacts.

(** *** The claims about the learner *)

Section LearnerClaims.
Import Pandas Gateway PersonaLearner LearnerSpec.

(** C1 (as amended).  When the language code is "en" or "id" and the
    gateway returns a text for every call, the learner does not raise: it
    returns a mapping whose keys are exactly the groups that had sample
    lines, each entry being the validated profile of the group's response
    or, when anything in the handling of that response raised (no JSON
    between the first opening and the last closing brace, a schema
    violation, any other exception), the fallback profile; and the loop
    goes on with the remaining groups. *)
Theorem C1_fallback_on_malformed_response :
  ∀ (W : Type) (llm_call : llm W) (schema_json : string) (df : DataFrame)
    (cc sc tc tl : string) (n : Z) (mc : option Z) (st : io W),
    target_lang_ok tl = true →
    always_returns llm_call →
    missing_columns df cc sc tc = [] →
    let df' := limit_rows df mc in
    (∃ results st',
       learn_personas_from_csv llm_call schema_json df cc sc tc tl n mc st
       = (Ok results, st')
       ∧ Dict.keys results = sent_groups df' cc tc n
       ∧ ∀ k, k ∈ sent_groups df' cc tc n →
           ∃ raw, Dict.get k results = Some (profile_or_fallback raw k tl))
    ∧ (∀ raw k e,
         parse_profile raw k tl = Raise e →
         handle_response raw k tl = Ok (model_dump (fallback_record k tl)))
    ∧ (∀ k ks results st0 raw st1,
         nonempty (tgt_lines_of df' cc tc n k) = true →
         invoke llm_call system_prompt
           (user_prompt schema_json n tl k (tgt_lines_of df' cc tc n k))
           Temp_0_2 st0 = (Ok raw, st1) →
         learn_groups llm_call schema_json df' cc tc tl n (k :: ks) results st0
         = learn_groups llm_call schema_json df' cc tc tl n ks
             (Dict.set k (profile_or_fallback raw k tl) results) st1).
Proof.
  intros W llm_call schema_json df cc sc tc tl n mc st Htl Hret Hm df'.
  split_and!.
  - rewrite learn_run by done. fold df'.
    destruct (learn_groups_total llm_call schema_json df' cc tc tl n
                (sent_groups df' cc tc n) [] st Htl Hret)
      as (results & st' & Hrun & Hin & _).
    { apply sent_groups_NoDup. }
    { intros k _. apply not_elem_of_nil. }
    exists results, st'. split_and!; [done| |].
    + destruct (learn_groups_trace llm_call schema_json df' cc tc tl n
                  (sent_groups df' cc tc n) [] st (Ok results) st')
        as (reached & _ & _ & Hok); [apply sent_groups_NoDup| | |done|].
      * apply sent_groups_nonempty.
      * intros k _. apply not_elem_of_nil.
      * by destruct (Hok results eq_refl) as [_ ->].
    + intros k Hk. apply Hin; [done|]. by apply sent_groups_nonempty in Hk.
  - intros raw k e He. rewrite handle_response_good_lang by done.
    unfold profile_or_fallback. by rewrite He.
  - intros k ks results st0 raw st1 Hne Hinv.
    cbn [PersonaLearner.learn_groups].
    destruct (tgt_lines_of df' cc tc n k) as [|l ls]; [done|].
    by rewrite Hinv, handle_response_good_lang.
Qed.

Lemma C1_fallback_on_malformed_response_witness :
  ∃ results st',
    learn_personas_from_csv Examples.chatty Examples.schema Examples.dialog
      "character_id" "zh_cn" "id_id" "id" 2 None Examples.start
    = (Ok results, st')
    ∧ Dict.keys results = ["A"; "B"].
Proof.
  destruct (C1_fallback_on_malformed_response nat Examples.chatty
              Examples.schema Examples.dialog "character_id" "zh_cn" "id_id"
              "id" 2 None Examples.start eq_refl
              (λ _ _ _ w, ex_intro _ _ (ex_intro _ (S w) eq_refl)) eq_refl)
    as [(results & st' & Hrun & Hkeys & _) _].
  exists results, st'. split; [exact Hrun|exact Hkeys].
Defined.

(** C1, as stated, fails for a language code outside {"en", "id"}: the
    fallback profile is itself validated against the pattern of
    [target_lang], so a malformed response makes the learner raise. *)
Lemma C1_counterexample :
  (learn_personas_from_csv Examples.chatty Examples.schema Examples.dialog
     "character_id" "zh_cn" "id_id" "fr" 30 None Examples.start).1
  = Raise ValidationError.
Proof. by vm_compute. Qed.


(** C2.  On the frame [pd.read_csv] returned (an empty field is a missing
    cell), with a non-negative [max_lines_per_char], the gateway is called
    once for each character the loop reaches, and the lines listed in the
    prompt of a character are exactly the non-empty target values of its
    rows, in row order, truncated to [max_lines_per_char].  A character
    without such lines is passed over: no call is made for it, the loop
    continues as if the group were not there, and a run that returns has
    called the gateway for every character with such lines and holds
    entries for these characters only. *)
Theorem C2_sample_lines_in_prompt :
  ∀ (W : Type) (llm_call : llm W) (schema_json : string) (df : DataFrame)
    (cc sc tc tl : string) (n : Z) (mc : option Z) (st : io W)
    (res : result (list (string * json))) (st' : io W),
    0 ≤ n →
    from_read_csv df →
    learn_personas_from_csv llm_call schema_json df cc sc tc tl n mc st
    = (res, st') →
    let df' := limit_rows df mc in
    let lines k := sample_lines (rows df') cc tc k (Z.to_nat n) in
    (∃ reached,
       NoDup reached
       ∧ calls st'
         = calls st
           ++ ((λ k, call_with schema_json n tl k (lines k)) <$> reached)
       ∧ (∀ k, k ∈ reached → lines k ≠ [])
       ∧ ∀ results, res = Ok results →
           Dict.keys results = reached
           ∧ ∀ k, k ∈ reached ↔ lines k ≠ [])
    ∧ (∀ k ks results st0,
         lines k = [] →
         learn_groups llm_call schema_json df' cc tc tl n (k :: ks) results st0
         = learn_groups llm_call schema_json df' cc tc tl n ks results st0).
Proof.
  intros W llm_call schema_json df cc sc tc tl n mc st res st' Hn Hcsv Hrun
    df' lines.
  pose proof (limit_rows_from_read_csv df mc Hcsv) as Hcsv'. fold df' in Hcsv'.
  assert (Hlines : ∀ k, tgt_lines_of df' cc tc n k = lines k).
  { intros k. by apply tgt_lines_sample. }
  assert (Hsent : ∀ k, k ∈ sent_groups df' cc tc n ↔ lines k ≠ []).
  { intros k. unfold sent_groups. rewrite elem_of_lfilter, Hlines. split.
    - intros [_ Hne] Hk. by rewrite Hk in Hne.
    - intros Hk. split; [|by destruct (lines k)].
      apply group_keys_elem. by eapply sample_lines_key. }
  split.
  - unfold learn_personas_from_csv in Hrun.
    destruct (missing_columns df cc sc tc) as [|c missing].
    + fold df' in Hrun. rewrite learn_groups_sent in Hrun.
      fold (sent_groups df' cc tc n) in Hrun.
      apply learn_groups_trace in Hrun as (reached & Hpre & Hcalls & Hok).
      * exists reached. split_and!.
        -- destruct Hpre as [rest Hrest].
           pose proof (sent_groups_NoDup df' cc tc n) as Hnd.
           rewrite Hrest in Hnd. by apply NoDup_app in Hnd as [? _].
        -- rewrite Hcalls. f_equal. apply list_fmap_ext. intros _ k _.
           unfold call_for. rewrite Hlines. apply system_prompt_text.
        -- intros k Hk. apply Hsent. by eapply elem_of_prefix.
        -- intros results Hres. destruct (Hok results Hres) as [-> Hkeys].
           split; [done|]. intros k. apply Hsent.
      * apply sent_groups_NoDup.
      * apply sent_groups_nonempty.
      * intros k _. apply not_elem_of_nil.
    + injection Hrun as <- <-. exists []. split_and!.
      * constructor.
      * by rewrite app_nil_r.
      * intros k Hk. by apply elem_of_nil in Hk.
      * done.
  - intros k ks results st0 Hk. cbn [PersonaLearner.learn_groups].
    by rewrite Hlines, Hk.
Qed.

Lemma monologue_from_read_csv : from_read_csv Examples.monologue.
Proof.
  intros r col Hr. unfold Examples.monologue in Hr. cbn in Hr.
  repeat (apply elem_of_cons in Hr as [->|Hr]);
    [..|by apply elem_of_nil in Hr];
    unfold at_col; cbn;
    repeat (destruct (String.eqb col _); [done|]); done.
Qed.

Lemma C2_sample_lines_in_prompt_witness :
  calls (learn_personas_from_csv Examples.chatty Examples.schema
           Examples.monologue "character_id" "zh_cn" "id_id" "id" 2 None
           Examples.start).2
  = [ ("You are a localization style analyst. Given several translated dialog lines from ONE game character, infer their speaking style.",
       prompt_before Examples.schema 2 "id" "A"
       +:+ ("- Makasih ya" +:+ nl +:+ "- Oke deh")
       +:+ prompt_after,
       Temp_0_2) ].
Proof.
  destruct (C2_sample_lines_in_prompt nat Examples.chatty Examples.schema
              Examples.monologue "character_id" "zh_cn" "id_id" "id" 2 None
              Examples.start _ _ ltac:(lia) monologue_from_read_csv
              (surjective_pairing _))
    as [(reached & _ & Hcalls & _ & Hok) _].
  destruct (Hok _ ltac:(by vm_compute)) as [<- _].
  exact Hcalls.
Defined.

(** C3 (as amended).  The learner does not recover from a gateway error:
    when the call for a group raises, after the groups before it were
    handled, [learn_personas_from_csv] raises that exception at once; the
    groups after it are not sent to the gateway and no mapping is
    returned. *)
Theorem C3_gateway_error_aborts_learning :
  ∀ (W : Type) (llm_call : llm W) (schema_json : string) (df : DataFrame)
    (cc sc tc tl : string) (n : Z) (mc : option Z) (st : io W)
    (before : list string) (k : string) (after : list string)
    (results1 : list (string * json)) (st1 st2 : io W) (e : exn),
    missing_columns df cc sc tc = [] →
    let df' := limit_rows df mc in
    sent_groups df' cc tc n = before ++ k :: after →
    learn_groups llm_call schema_json df' cc tc tl n before [] st
    = (Ok results1, st1) →
    invoke llm_call system_prompt
      (user_prompt schema_json n tl k (tgt_lines_of df' cc tc n k))
      Temp_0_2 st1 = (Raise e, st2) →
    learn_personas_from_csv llm_call schema_json df cc sc tc tl n mc st
    = (Raise e, st2)
    ∧ calls st2
      = calls st ++ (call_for schema_json df' cc tc tl n <$> (before ++ [k])).
Proof.
  intros W llm_call schema_json df cc sc tc tl n mc st before k after
    results1 st1 st2 e Hm df' Hgroups Hbefore Hinv.
  assert (Hnd : NoDup (before ++ k :: after)).
  { rewrite <- Hgroups. apply sent_groups_NoDup. }
  assert (Hne : ∀ k0, k0 ∈ before ++ k :: after →
                      nonempty (tgt_lines_of df' cc tc n k0) = true).
  { intros k0 Hk0. apply sent_groups_nonempty. by rewrite Hgroups. }
  split.
  - rewrite learn_run by done. fold df'.
    rewrite Hgroups, learn_groups_app, Hbefore.
    cbn [PersonaLearner.learn_groups].
    assert (Hk : nonempty (tgt_lines_of df' cc tc n k) = true).
    { apply Hne. apply elem_of_app. right. left. }
    destruct (tgt_lines_of df' cc tc n k) as [|l ls]; [done|].
    by rewrite Hinv.
  - apply learn_groups_trace in Hbefore as (reached & _ & Hcalls & Hok).
    + destruct (Hok results1 eq_refl) as [-> _].
      rewrite (invoke_calls _ _ _ _ _ _ _ Hinv), Hcalls, fmap_app.
      by rewrite <- app_assoc.
    + by apply NoDup_app in Hnd as [? _].
    + intros k0 Hk0. apply Hne. apply elem_of_app. by left.
    + intros k0 _. apply not_elem_of_nil.
Qed.

Lemma C3_gateway_error_aborts_learning_witness :
  learn_personas_from_csv Examples.down_then_up Examples.schema Examples.dialog
    "character_id" "zh_cn" "id_id" "id" 2 None Examples.start
  = (Raise (RuntimeError "Gemini error 503: unavailable"),
     {| world := 1%nat;
        calls := call_for Examples.schema Examples.dialog "character_id"
                   "id_id" "id" 2 <$> ([] ++ ["A"]) |}).
Proof.
  destruct (C3_gateway_error_aborts_learning nat Examples.down_then_up
              Examples.schema Examples.dialog "character_id" "zh_cn" "id_id"
              "id" 2 None Examples.start [] "A" ["B"] [] Examples.start
              {| world := 1%nat;
                 calls := [call_for Examples.schema Examples.dialog
                             "character_id" "id_id" "id" 2 "A"] |}
              (RuntimeError "Gemini error 503: unavailable")
              eq_refl eq_refl eq_refl eq_refl) as [Hrun _].
  exact Hrun.
Defined.

(** C3, as stated, fails: with the gateway down for the first group only,
    the run does not continue to the second group and returns no
    mapping. *)
Lemma C3_counterexample :
  ¬ ∃ results st',
      learn_personas_from_csv Examples.down_then_up Examples.schema
        Examples.dialog "character_id" "zh_cn" "id_id" "id" 2 None
        Examples.start
      = (Ok results, st').
Proof. intros (results & st' & H). vm_compute in H. discriminate H. Qed.


(** C9.  When one of the three named columns is absent from the frame, the
    learner raises the "CSV missing columns" error, which lists exactly
    the named columns that are absent, each once; the gateway state is as
    it was before the call: nothing was sent, no group was looked at. *)
Theorem C9_missing_columns_raise_first :
  ∀ (W : Type) (llm_call : llm W) (schema_json : string) (df : DataFrame)
    (cc sc tc tl : string) (n : Z) (mc : option Z) (st : io W),
    has_column df cc = false ∨ has_column df sc = false
      ∨ has_column df tc = false →
    ∃ missing,
      learn_personas_from_csv llm_call schema_json df cc sc tc tl n mc st
      = (Raise (CsvMissingColumns missing), st)
      ∧ missing ≠ []
      ∧ NoDup missing
      ∧ ∀ c, c ∈ missing ↔ (c = cc ∨ c = sc ∨ c = tc) ∧ c ∉ columns df.
Proof.
  intros W llm_call schema_json df cc sc tc tl n mc st Habsent.
  assert (Hchar : ∀ c, c ∈ missing_columns df cc sc tc
                       ↔ (c = cc ∨ c = sc ∨ c = tc) ∧ c ∉ columns df).
  { intros c. unfold missing_columns. rewrite elem_of_lfilter, elem_of_elements.
    unfold has_column. rewrite negb_true_iff, bool_decide_eq_false.
    rewrite !elem_of_union, !elem_of_singleton. tauto. }
  assert (Hex : ∃ c, c ∈ missing_columns df cc sc tc).
  { unfold has_column in Habsent. rewrite !bool_decide_eq_false in Habsent.
    destruct Habsent as [H|[H|H]];
      [exists cc|exists sc|exists tc]; apply Hchar; tauto. }
  exists (missing_columns df cc sc tc).
  unfold learn_personas_from_csv.
  destruct (missing_columns df cc sc tc) as [|c missing] eqn:E.
  - destruct Hex as [c Hc]. by apply elem_of_nil in Hc.
  - split_and!; [done|done| |done].
    rewrite <- E. unfold missing_columns. apply NoDup_lfilter, NoDup_elements.
Qed.

Lemma C9_missing_columns_raise_first_witness :
  ∃ missing,
    learn_personas_from_csv Examples.chatty Examples.schema
      Examples.dialog_untranslated "character_id" "zh_cn" "id_id" "id" 30 None
      Examples.start
    = (Raise (CsvMissingColumns missing), Examples.start)
    ∧ missing ≠ []
    ∧ NoDup missing
    ∧ ∀ c, c ∈ missing
           ↔ (c = "character_id" ∨ c = "zh_cn" ∨ c = "id_id")
             ∧ c ∉ columns Examples.dialog_untranslated.
Proof.
  exact (C9_missing_columns_raise_first nat Examples.chatty Examples.schema
           Examples.dialog_untranslated "character_id" "zh_cn" "id_id" "id" 30
           None Examples.start (or_intror (or_intror eq_refl))).
Defined.

(** C10.  With a language code outside {"en", "id"} the response handling
    raises a validation error whatever the gateway returned, because the
    fallback profile is validated against the same pattern; so the run
    raises it at the first group that has sample lines, after one gateway
    call.  The response handling raises for no other reason: with a code
    in {"en", "id"} it always yields a profile. *)
Theorem C10_invalid_target_lang_raises :
  (∀ (W : Type) (llm_call : llm W) (schema_json : string) (df : DataFrame)
     (cc sc tc tl : string) (n : Z) (mc : option Z) (st : io W)
     (k : string) (rest : list string) (raw : string) (st1 : io W),
     target_lang_ok tl = false →
     missing_columns df cc sc tc = [] →
     let df' := limit_rows df mc in
     sent_groups df' cc tc n = k :: rest →
     invoke llm_call system_prompt
       (user_prompt schema_json n tl k (tgt_lines_of df' cc tc n k))
       Temp_0_2 st = (Ok raw, st1) →
     learn_personas_from_csv llm_call schema_json df cc sc tc tl n mc st
     = (Raise ValidationError, st1)
     ∧ fallback_profile k tl = Raise ValidationError)
  ∧ (∀ raw k tl e,
       handle_response raw k tl = Raise e
       ↔ target_lang_ok tl = false ∧ e = ValidationError)
  ∧ (∀ tl, target_lang_ok tl = true ↔ tl = "en" ∨ tl = "id").
Proof.
  split_and!.
  - intros W llm_call schema_json df cc sc tc tl n mc st k rest raw st1
      Htl Hm df' Hgroups Hinv.
    split; [|by rewrite fallback_profile_eq, Htl].
    rewrite learn_run by done. fold df'. rewrite Hgroups.
    cbn [PersonaLearner.learn_groups].
    assert (Hk : nonempty (tgt_lines_of df' cc tc n k) = true).
    { apply sent_groups_nonempty. rewrite Hgroups. left. }
    destruct (tgt_lines_of df' cc tc n k) as [|l ls]; [done|].
    by rewrite Hinv, handle_response_bad_lang.
  - intros raw k tl e. destruct (target_lang_ok tl) eqn:Htl.
    + rewrite handle_response_good_lang by done. split; [done|]. by intros [? _].
    + rewrite handle_response_bad_lang by done. split.
      * by intros [= <-].
      * by intros [_ ->].
  - intros tl. unfold target_lang_ok.
    rewrite orb_true_iff, !String.eqb_eq. done.
Qed.

Lemma C10_invalid_target_lang_raises_witness :
  learn_personas_from_csv Examples.chatty Examples.schema Examples.dialog
    "character_id" "zh_cn" "id_id" "fr" 30 None Examples.start
  = (Raise ValidationError,
     {| world := 1%nat;
        calls := [call_for Examples.schema Examples.dialog "character_id"
                    "id_id" "fr" 30 "A"] |})
  ∧ fallback_profile "A" "fr" = Raise ValidationError.
Proof.
  exact (proj1 C10_invalid_target_lang_raises nat Examples.chatty
           Examples.schema Examples.dialog "character_id" "zh_cn" "id_id"
           "fr" 30 None Examples.start "A" ["B"]
           "Sorry, I cannot help with that." _ eq_refl eq_refl eq_refl eq_refl).
Defined.

End LearnerClaims.

(** ** Translation filler *)

Section LoopFacts.
Import Pandas Gateway Filler FillerSpec.
Context {W : Type}.
Implicit Types (body : nat → row → state W → option exn * state W).

Lemma for_each_row_app body todo1 todo2 st :
  for_each_row body (todo1 ++ todo2) st
  = match for_each_row body todo1 st with
    | (Some e, st1) => (Some e, st1)
    | (None, st1) => for_each_row body todo2 st1
    end.
Proof.
  revert st. induction todo1 as [|[i r] todo1 IH]; intros st; [done|].
  cbn. destruct (body i r st) as [[e|] st1]; [done|apply IH].
Qed.

Lemma for_each_row_frame body todo st o st' i :
  local body →
  i ∉ todo.*1 →
  for_each_row body todo st = (o, st') →
  columns (df st') = columns (df st)
  ∧ rows (df st') !! i = rows (df st) !! i
  ∧ events st `prefix_of` events st'.
Proof.
  intros Hloc. revert st. induction todo as [|[j r] todo IH]; intros st Hi.
  - by intros [= <- <-].
  - cbn in *. apply not_elem_of_cons in Hi as [Hij Hi].
    destruct (body j r st) as [[e|] st1] eqn:Hb;
      destruct (Hloc _ _ _ _ _ Hb) as (Hc & Hr & He).
    + intros [= <- <-]. split_and!; [done| |done]. by apply Hr.
    + intros Hrun. destruct (IH st1 Hi Hrun) as (Hc' & Hr' & He').
      split_and!.
      * by rewrite Hc'.
      * rewrite Hr'. by apply Hr.
      * by etrans.
Qed.

Lemma for_each_row_events body todo st o st' :
  local body →
  for_each_row body todo st = (o, st') →
  events st `prefix_of` events st'.
Proof.
  intros Hloc. revert st. induction todo as [|[j r] todo IH]; intros st.
  - by intros [= <- <-].
  - cbn. destruct (body j r st) as [[e|] st1] eqn:Hb;
      destruct (Hloc _ _ _ _ _ Hb) as (_ & _ & He).
    + by intros [= <- <-].
    + intros Hrun. etrans; [done|]. by eapply IH.
Qed.

Lemma iterrows_labels d : (iterrows d).*1 = seq 0 (length (rows d)).
Proof.
  unfold iterrows. rewrite fmap_imap.
  rewrite (imap_ext _ (λ j _, id j)) by done.
  by rewrite imap_seq_0, list_fmap_id.
Qed.

(** The place of a row in the iteration: its label occurs once, and the
    row is the one the frame holds under that label. *)
Lemma iterrows_position d before i r after :
  iterrows d = before ++ (i, r) :: after →
  (i ∉ before.*1) ∧ (i ∉ after.*1) ∧ rows d !! i = Some r.
Proof.
  intros Hsplit.
  pose proof (NoDup_seq 0 (length (rows d))) as Hnd.
  rewrite <- iterrows_labels, Hsplit, fmap_app, fmap_cons in Hnd.
  apply NoDup_app in Hnd as (_ & Hb & Ha). apply NoDup_cons in Ha as [Ha _].
  split_and!; [|done|].
  - intros Hi. apply (Hb i Hi). left.
  - assert (Hin : (i, r) ∈ iterrows d).
    { rewrite Hsplit. apply elem_of_app. right. left. }
    apply elem_of_lookup_imap_1 in Hin as (j & y & [= -> ->] & Hy). done.
Qed.



Lemma set_at_columns d i col v : columns (set_at d i col v) = columns d.
Proof. done. Qed.

Lemma set_at_lookup_ne d i j col v :
  j ≠ i → rows (set_at d i col v) !! j = rows d !! j.
Proof.
  intros Hne. unfold set_at. cbn. destruct (rows d !! i); [|done].
  by apply list_lookup_insert_ne.
Qed.

Lemma set_at_lookup_eq d i r col v :
  rows d !! i = Some r →
  rows (set_at d i col v) !! i = Some (Dict.set col v r).
Proof.
  intros Hi. unfold set_at. cbn. rewrite Hi.
  apply list_lookup_insert_eq. by eapply lookup_lt_Some.
Qed.



(** *** Writing a cell *)

Lemma write_at_takes i col text (st : state W) :
  takes_text (df st) col →
  write_at i col text st = Ok (with_df (set_at (df st) i col (Val text)) st).
Proof.
  intros H. unfold write_at, setitem_at. by rewrite bool_decide_eq_false_2.
Qed.

Lemma write_at_refuses i col text (st : state W) :
  ¬ takes_text (df st) col → write_at i col text st = Raise TypeError.
Proof.
  intros H. unfold write_at, setitem_at. rewrite bool_decide_eq_true_2; [done|].
  unfold takes_text in H. by destruct (decide (col ∈ refuses_text (df st))).
Qed.

Lemma write_at_inv i col text (st : state W) :
  (takes_text (df st) col
   ∧ write_at i col text st = Ok (with_df (set_at (df st) i col (Val text)) st))
  ∨ (¬ takes_text (df st) col ∧ write_at i col text st = Raise TypeError).
Proof.
  destruct (decide (col ∈ refuses_text (df st))) as [H|H].
  - right. split; [by intros Hn|]. apply write_at_refuses. by intros Hn.
  - left. split; [done|]. by apply write_at_takes.
Qed.

Lemma write_cell_inv i col text (st : state W) :
  (takes_text (df st) col
   ∧ write_cell i col text st
     = Ok (count_filled (with_df (set_at (df st) i col (Val text)) st)))
  ∨ (¬ takes_text (df st) col ∧ write_cell i col text st = Raise TypeError).
Proof.
  unfold write_cell.
  destruct (write_at_inv i col text st) as [[H ->]|[H ->]]; [by left|by right].
Qed.

End LoopFacts.

Ltac write_hyps :=
  repeat match goal with
  | H : mbind _ ?r = _ |- _ =>
      is_var r; destruct r; cbn in H; simplify_eq
  | H : Filler.write_cell ?i ?col ?text ?st = _ |- _ =>
      let Hw := fresh in
      destruct (write_cell_inv i col text st) as [[_ Hw]|[_ Hw]];
      rewrite Hw in H; clear Hw; simplify_eq
  | H : Filler.write_at ?i ?col ?text ?st = _ |- _ =>
      let Hw := fresh in
      destruct (write_at_inv i col text st) as [[_ Hw]|[_ Hw]];
      rewrite Hw in H; clear Hw; simplify_eq
  end.


Section FillerFacts.
Import Pandas Gateway Filler FillerSpec.
Context {W : Type}.
Variable llm_call : llm W.
Variable py_str : json → string.

Lemma invoke_split system user t (g g' : io W) x :
  invoke llm_call system user t g = (x, g') →
  calls g' = calls g ++ [(system, user, t)].
Proof.
  unfold invoke. destruct (llm_call _ _ _ _) as [x' w]. by intros [= <- <-].
Qed.




Lemma cli_row_keeps_refusals args persona cm total :
  keeps_refusals (cli_row llm_call py_str args persona cm total).
Proof.
  intros i r st o st'. unfold cli_row.
  repeat (case_match; write_hyps; try (intros [= <- <-]; by cbn)).
Qed.

Lemma ui_row_keeps_refusals args persona cm total :
  keeps_refusals (ui_row llm_call py_str args persona cm total).
Proof.
  intros i r st o st'. unfold ui_row.
  repeat (case_match; write_hyps; try (intros [= <- <-]; by cbn)).
Qed.


(** *** One pass of the body *)



Lemma selected_tests src_col tgt_col ow r :
  selected src_col tgt_col ow r →
  blank (text_of (at_col r src_col)) = false
  ∧ negb (blank (text_of (at_col r tgt_col))) && negb ow = false.
Proof.
  intros [Hsrc Hsel]. split; [done|].
  destruct Hsel as [->| ->]; [done|]. apply andb_false_r.
Qed.





Lemma cli_row_refused args persona cm total i r st user out g' out' :
  selected (cn_col args) (id_col args) (overwrite args) r →
  cli_build_user py_str (text_of (at_col r (cn_col args))) persona "id" = Ok user →
  invoke llm_call build_system user TEMPERATURE (gw st) = (Ok out, g') →
  cli_post (kbbi args) cm out = Ok out' →
  ¬ takes_text (df st) (id_col args) →
  cli_row llm_call py_str args persona cm total i r st
  = (Some TypeError, with_gw g' (count_processed st)).
Proof.
  intros [Hsrc Htgt]%selected_tests Hbuild Hinv Hpost Hrefuses.
  unfold cli_row. rewrite Hsrc, Htgt, Hbuild. cbn [gw count_processed].
  rewrite Hinv, Hpost. unfold write_cell. by rewrite write_at_refuses.
Qed.


(** A pass over a row leaves the loop only through [build_user], through a
    column that refuses text or, in fill_translations.py, through the
    normalizer: never through the gateway. *)
Lemma cli_row_completes args persona cm total i r st :
  (∀ src, ∃ user, cli_build_user py_str src persona "id" = Ok user) →
  (∀ out, ∃ out', cli_post (kbbi args) cm out = Ok out') →
  takes_text (df st) (id_col args) →
  ∃ st', cli_row llm_call py_str args persona cm total i r st = (None, st').
Proof.
  intros Hbuild Hpost Htakes. unfold cli_row.
  destruct (blank _); [by eexists|].
  destruct (_ && _); [by eexists|].
  destruct (Hbuild (text_of (at_col r (cn_col args)))) as [user ->].
  destruct (invoke _ _ _ _ _) as [[out|e] g]; [|by eexists].
  destruct (Hpost out) as [out' ->]. unfold write_cell.
  rewrite write_at_takes by done. by eexists.
Qed.

Lemma ui_row_completes args persona cm total i r st :
  (∀ src, ∃ user,
     ui_build_user py_str src (persona_used args persona) (trans_lang args)
     = Ok user) →
  takes_text (df st) (test_tgt_col args) →
  ∃ st', ui_row llm_call py_str args persona cm total i r st = (None, st').
Proof.
  intros Hbuild Htakes. unfold ui_row. fold (persona_used args persona).
  destruct (blank _); [by eexists|].
  destruct (_ && _); [by eexists|].
  destruct (Hbuild (text_of (at_col r (test_cn_col args)))) as [user ->].
  destruct (invoke _ _ _ _ _) as [[out|e] g]; cbn [mbind result_bind bind];
    unfold write_cell; rewrite !write_at_takes by done; by eexists.
Qed.

Lemma for_each_row_completes
    (body : nat → row → state W → option exn * state W)
    (P : state W → Prop) todo st :
  (∀ i r st0 o st1, body i r st0 = (o, st1) → P st0 → P st1) →
  (∀ i r st0, P st0 → ∃ st1, body i r st0 = (None, st1)) →
  P st →
  ∃ st', for_each_row body todo st = (None, st').
Proof.
  intros Hkeep Hbody. revert st. induction todo as [|[i r] todo IH]; intros st HP.
  - by eexists.
  - cbn. destruct (Hbody i r st HP) as [st1 Hst1]. rewrite Hst1.
    apply IH. by eapply Hkeep.
Qed.

Lemma takes_text_kept
    (body : nat → row → state W → option exn * state W) col :
  keeps_refusals body →
  ∀ i r st0 o st1,
    body i r st0 = (o, st1) → takes_text (df st0) col → takes_text (df st1) col.
Proof.
  intros Hk i r st0 o st1 Hb. unfold takes_text. by rewrite (Hk _ _ _ _ _ Hb).
Qed.


(** *** A row within the whole loop *)

(** What a pass over row [i] leaves in that row stays there until the loop
    ends, however it ends. *)
Lemma loop_at_row (body : nat → row → state W → option exn * state W)
    d g before i r after (st_i st_f : state W) o (st' : state W) :
  local body →
  iterrows d = before ++ (i, r) :: after →
  for_each_row body before (initial d g) = (None, st_i) →
  body i r st_i = (None, st_f) →
  for_each_row body (iterrows d) (initial d g) = (o, st') →
  rows (df st_i) !! i = Some r
  ∧ for_each_row body (iterrows d) (initial d g) = for_each_row body after st_f
  ∧ rows (df st') !! i = rows (df st_f) !! i
  ∧ events st_f `prefix_of` events st'.
Proof.
  intros Hloc Hsplit Hbefore Hstep Hrun.
  destruct (iterrows_position _ _ _ _ _ Hsplit) as (Hb & Ha & Hr).
  destruct (for_each_row_frame _ _ _ _ _ i Hloc Hb Hbefore) as (_ & Hri & _).
  assert (Heq : for_each_row body (iterrows d) (initial d g)
                = for_each_row body after st_f).
  { rewrite Hsplit, for_each_row_app, Hbefore. cbn. by rewrite Hstep. }
  split_and!; [by rewrite Hri|done|..];
    rewrite Heq in Hrun;
    by destruct (for_each_row_frame _ _ _ _ _ i Hloc Ha Hrun) as (_ & ? & ?).
Qed.




End FillerFacts.
(** ** Texts that cannot be encoded *)

Section SurrogateFacts.
Import StoreSpec.

Lemma has_surrogate_cons c s :
  Py.has_surrogate (String c s)
  = (Nat.eqb (Py.code c) 237 && starts_with_trail s) || Py.has_surrogate s.
Proof. destruct s as [|d s]; [|done]. cbn. by rewrite andb_false_r. Qed.

Lemma ends_with_lead_cons c s :
  ends_with_lead (String c s)
  = match s with
    | EmptyString => Nat.eqb (Py.code c) 237
    | _ => ends_with_lead s
    end.
Proof. done. Qed.

Lemma has_surrogate_app a b :
  Py.has_surrogate (a +:+ b)
  = Py.has_surrogate a || Py.has_surrogate b
    || (ends_with_lead a && starts_with_trail b).
Proof.
  induction a as [|c a IH].
  { rewrite app_nil_l'. cbn. by rewrite orb_false_r. }
  rewrite app_cons, !has_surrogate_cons, IH, ends_with_lead_cons.
  destruct a as [|d a].
  - rewrite app_nil_l'. cbn [Py.has_surrogate starts_with_trail ends_with_lead].
    destruct (Nat.eqb (Py.code c) 237), (starts_with_trail b),
      (Py.has_surrogate b); done.
  - rewrite app_cons. cbn [starts_with_trail].
    destruct (Nat.eqb (Py.code c) 237 && Py.in_range 160 191 d),
      (Py.has_surrogate (String d a)), (Py.has_surrogate b),
      (ends_with_lead (String d a) && starts_with_trail b); done.
Qed.

Lemma ends_with_lead_app a b :
  ends_with_lead (a +:+ b)
  = match b with
    | EmptyString => ends_with_lead a
    | _ => ends_with_lead b
    end.
Proof.
  induction a as [|c a IH]; [by destruct b|].
  rewrite app_cons, ends_with_lead_cons, IH.
  destruct a as [|d a]; [rewrite app_nil_l'|rewrite app_cons]; by destruct b.
Qed.

Lemma starts_with_trail_app a b :
  starts_with_trail (a +:+ b)
  = match a with
    | EmptyString => starts_with_trail b
    | _ => starts_with_trail a
    end.
Proof. by destruct a. Qed.

Lemma clean_lit t : 
  Py.has_surrogate t = false → starts_with_trail t = false →
  ends_with_lead t = false → clean t false.
Proof. by intros; split_and!. Qed.

Lemma clean_app a b h1 h2 :
  clean a h1 → clean b h2 → clean (a +:+ b) (h1 || h2).
Proof.
  intros (Ha & Sa & Ea) (Hb & Sb & Eb). unfold clean.
  rewrite has_surrogate_app, starts_with_trail_app, ends_with_lead_app.
  rewrite Ha, Hb, Ea, Sa, Sb, Eb. split_and!.
  - by rewrite orb_false_r.
  - by destruct a.
  - by destruct b.
Qed.

Lemma clean_spaces n : clean (Json.spaces n) false.
Proof.
  induction n as [|n (Hh & Hs & He)]; [by apply clean_lit|]. cbn [Json.spaces].
  unfold clean.
  rewrite has_surrogate_cons, ends_with_lead_cons, Hh, He. split_and!; try done.
  by destruct (Json.spaces n).
Qed.

Lemma clean_indent level : clean (Json.newline_indent level) false.
Proof.
  unfold Json.newline_indent.
  change (String "010" (Json.spaces (2 * level)))
    with (String "010" EmptyString +:+ Json.spaces (2 * level)).
  apply (clean_app _ _ false false); [by apply clean_lit|apply clean_spaces].
Qed.

Lemma clean_join {A} sp (f : A → string) (h : A → bool) l :
  clean sp false →
  Forall (λ x, clean (f x) (h x)) l →
  clean (Py.join sp (List.map f l)) (existsb h l).
Proof.
  intros Hsp. induction 1 as [|x l Hx Hl IH]; [by apply clean_lit|].
  destruct l as [|y l].
  - cbn. by rewrite orb_false_r.
  - change (Py.join sp (List.map f (x :: y :: l)))
      with (f x +:+ sp +:+ Py.join sp (List.map f (y :: l))).
    change (existsb h (x :: y :: l)) with (h x || (false || existsb h (y :: l))).
    apply clean_app; [done|]. by apply clean_app.
Qed.

Lemma escape_char_clean c :
  Py.has_surrogate (Json.escape_char c) = false
  ∧ starts_with_trail (Json.escape_char c) = Py.in_range 160 191 c
  ∧ ends_with_lead (Json.escape_char c) = Nat.eqb (Py.code c) 237
  ∧ ∃ x y, Json.escape_char c = String x y.
Proof.
  destruct c as [[] [] [] [] [] [] [] []];
    (split_and!; [reflexivity..|by eexists _, _]).
Qed.

Lemma escape_surrogate s :
  Py.has_surrogate (Json.escape s) = Py.has_surrogate s
  ∧ starts_with_trail (Json.escape s) = starts_with_trail s
  ∧ ends_with_lead (Json.escape s) = ends_with_lead s
  ∧ (Json.escape s = EmptyString → s = EmptyString).
Proof.
  induction s as [|c s (Hh & Hs & He & Hnil)]; [done|].
  destruct (escape_char_clean c) as (Hc & Sc & Ec & x & y & Hxy).
  cbn [Json.escape].
  rewrite has_surrogate_app, starts_with_trail_app, ends_with_lead_app.
  rewrite Hc, Hh, Hs, He, Ec. split_and!.
  - rewrite has_surrogate_cons. cbn.
    by destruct (Nat.eqb (Py.code c) 237 && starts_with_trail s),
      (Py.has_surrogate s).
  - rewrite Hxy. by rewrite <- Hxy, Sc.
  - rewrite ends_with_lead_cons.
    destruct (Json.escape s) eqn:E; [by rewrite Hnil|].
    destruct s; [done|done].
  - rewrite Hxy. by rewrite app_cons.
Qed.

Lemma clean_basestring s : clean (Json.encode_basestring s) (Py.has_surrogate s).
Proof.
  destruct (escape_surrogate s) as (Hh & Hs & He & _).
  unfold Json.encode_basestring, clean.
  rewrite has_surrogate_cons, ends_with_lead_cons, has_surrogate_app,
    ends_with_lead_app, Hh.
  cbn. rewrite andb_false_r, !orb_false_r. split_and!; [done|done|].
  by destruct (Json.escape s +:+ _) eqn:E;
    [destruct (Json.escape s); discriminate E|].
Qed.

End SurrogateFacts.

(** ** Persona store: [json.dump] then [json.load] *)

Section JsonFacts.
Import Json StoreSpec.

(** *** Strings *)

(** One character, escaped by the encoder, is read back by the decoder. *)
Lemma scanstring_escape_char c tail :
  scanstring (escape_char c +:+ tail)
  = '(str, rest) ← scanstring tail; Some (String c str, rest).
Proof.
  destruct c as [[] [] [] [] [] [] [] []]; reflexivity.
Qed.


Lemma scanstring_escape s rest :
  scanstring (escape s +:+ String dquote rest) = Some (s, rest).
Proof.
  induction s as [|c s IH]; [done|].
  cbn [escape]. rewrite app_assoc', scanstring_escape_char, IH. done.
Qed.

Lemma scanstring_basestring s rest :
  ∃ body, encode_basestring s +:+ rest = String dquote body
          ∧ scanstring body = Some (s, rest).
Proof.
  exists (escape s +:+ String dquote rest). split.
  - unfold encode_basestring. by rewrite app_cons, app_assoc'.
  - apply scanstring_escape.
Qed.

Lemma length_basestring s : (2 ≤ String.length (encode_basestring s))%nat.
Proof.
  unfold encode_basestring. cbn [String.length]. rewrite length_app'. cbn. lia.
Qed.

(** *** White space *)

Lemma skip_ws_spaces n s : skip_ws (spaces n +:+ s) = skip_ws s.
Proof. induction n as [|n IH]; [done|]. cbn [spaces]. by rewrite app_cons. Qed.

Lemma skip_ws_indent level s : skip_ws (newline_indent level +:+ s) = skip_ws s.
Proof. unfold newline_indent. rewrite app_cons. cbn. apply skip_ws_spaces. Qed.

Lemma length_indent level : (1 ≤ String.length (newline_indent level))%nat.
Proof. unfold newline_indent. cbn. lia. Qed.

(** *** Values *)

Section Values.
Variable float_repr : pyfloat → string.
Abbreviation enc := (encode float_repr).

Lemma json_ind' (P : json → Prop) :
  P JNull → (∀ b, P (JBool b)) → (∀ z, P (JInt z)) → (∀ f, P (JFloat f)) →
  (∀ s, P (JStr s)) →
  (∀ l, Forall P l → P (JArr l)) →
  (∀ d, Forall (λ kv, P kv.2) d → P (JObj d)) →
  ∀ v, P v.
Proof.
  intros Hn Hb Hi Hf Hs Ha Ho.
  fix IH 1. intros [| b | z | f | s | l | d].
  - exact Hn.
  - apply Hb.
  - apply Hi.
  - apply Hf.
  - apply Hs.
  - apply Ha. induction l as [|x l IHl]; constructor; [apply IH|exact IHl].
  - apply Ho. induction d as [|[k x] d IHd]; constructor; [apply IH|exact IHd].
Qed.

(** The text of a plain value starts with a character that is neither
    white space nor a closing bracket, and has at least two characters. *)
Lemma encode_head level v :
  plain v = true →
  ∃ c body, enc level v = String c body ∧ is_ws c = false
            ∧ Ascii.eqb c "]" = false
            ∧ (1 ≤ String.length body)%nat.
Proof.
  destruct v as [| [] | z | f | s | [|x l] | [|kv d]]; intros Hv; try done;
    try (by eexists _, _; split_and!; [reflexivity..|cbn; lia]).
  - eexists _, _. split_and!; [reflexivity..|].
    rewrite length_app'. cbn. lia.
  - eexists _, _. split_and!; [reflexivity..|].
    rewrite length_app'. pose proof (length_indent (S level)). lia.
  - eexists _, _. split_and!; [reflexivity..|].
    rewrite length_app'. pose proof (length_indent (S level)). lia.
Qed.

Lemma skip_ws_encode level v s :
  plain v = true → skip_ws (enc level v +:+ s) = enc level v +:+ s.
Proof.
  intros Hv. destruct (encode_head level v Hv) as (c & body & -> & Hc & _).
  rewrite app_cons. cbn. by rewrite Hc.
Qed.

Lemma skip_ws_nonws c s : is_ws c = false → skip_ws (String c s) = String c s.
Proof. intros Hc. cbn. by rewrite Hc.
Qed.

(** The scanners, one step unfolded. *)
Lemma scan_once_str f body :
  scan_once (S f) (String dquote body)
  = '(str, rest) ← scanstring body; Some (JStr str, rest).
Proof. done. Qed.

Lemma scan_once_arr f r :
  scan_once (S f) (String "[" r)
  = match skip_ws r with
    | String d r1 =>
        if Ascii.eqb d "]" then Some (JArr [], r1)
        else scan_items f [] (String d r1)
    | EmptyString => None
    end.
Proof. done. Qed.

Lemma scan_once_obj f r :
  scan_once (S f) (String "{" r)
  = match skip_ws r with
    | String d r1 =>
        if Ascii.eqb d "}" then Some (JObj [], r1)
        else if Ascii.eqb d dquote then scan_members f [] r1
        else None
    | EmptyString => None
    end.
Proof. done. Qed.

Lemma scan_items_S f acc s :
  scan_items (S f) acc s
  = '(v, r1) ← scan_once f s;
    match skip_ws r1 with
    | String d r2 =>
        if Ascii.eqb d "]" then Some (JArr (acc ++ [v]), r2)
        else if Ascii.eqb d "," then scan_items f (acc ++ [v]) (skip_ws r2)
        else None
    | EmptyString => None
    end.
Proof. done. Qed.

Lemma scan_members_S f acc s :
  scan_members (S f) acc s
  = '(key, r1) ← scanstring s;
    match skip_ws r1 with
    | String d r2 =>
        if Ascii.eqb d ":" then
          '(v, r3) ← scan_once f (skip_ws r2);
          let acc' := Dict.set key v acc in
          match skip_ws r3 with
          | String d' r4 =>
              if Ascii.eqb d' "}" then Some (JObj acc', r4)
              else if Ascii.eqb d' "," then
                match skip_ws r4 with
                | String q r5 =>
                    if Ascii.eqb q dquote then scan_members f acc' r5
                    else None
                | EmptyString => None
                end
              else None
          | EmptyString => None
          end
        else None
    | EmptyString => None
    end.
Proof. done. Qed.

(** What the induction gives for the items of a list or a dict. *)
Definition reads_back (x : json) : Prop :=
  ∀ level rest fuel,
    (String.length (enc level x) ≤ fuel)%nat →
    scan_once fuel (enc level x +:+ rest) = Some (x, rest).

Definition sep (level : nat) : string := "," +:+ newline_indent level.

Lemma join_singleton (sp a : string) : Py.join sp [a] = a.
Proof. done. Qed.

Lemma join_cons2 (sp a b : string) l :
  Py.join sp (a :: b :: l) = a +:+ sp +:+ Py.join sp (b :: l).
Proof. done. Qed.

Local Arguments Py.join : simpl never.
Local Arguments newline_indent : simpl never.
Local Arguments sep : simpl never.

Lemma skip_ws_join level x l t :
  plain x = true →
  skip_ws (Py.join (sep level) (List.map (enc level) (x :: l)) +:+ t)
  = Py.join (sep level) (List.map (enc level) (x :: l)) +:+ t.
Proof.
  intros Hx. destruct l as [|y l]; cbn [List.map].
  - rewrite join_singleton. by apply skip_ws_encode.
  - rewrite join_cons2, !app_assoc'. by apply skip_ws_encode.
Qed.

Lemma scan_items_join level level0 l :
  l ≠ [] →
  Forall (λ x, plain x = true ∧ reads_back x) l →
  ∀ acc rest fuel,
    (String.length (Py.join (sep level) (List.map (enc level) l)) < fuel)%nat →
    scan_items fuel acc
      (Py.join (sep level) (List.map (enc level) l)
       +:+ (newline_indent level0 +:+ String "]" rest))
    = Some (JArr (acc ++ l), rest).
Proof.
  induction l as [|x l IH]; [done|]. intros _ Hall acc rest fuel Hfuel.
  apply Forall_cons in Hall as [[Hx Hback] Hall].
  destruct fuel as [|f]; [lia|]. rewrite scan_items_S.
  destruct l as [|y l].
  - cbn [List.map] in *. rewrite join_singleton in Hfuel |- *.
    rewrite Hback by lia. cbn.
    rewrite skip_ws_indent, skip_ws_nonws by done. done.
  - cbn [List.map] in Hfuel |- *. rewrite join_cons2 in Hfuel |- *.
    rewrite !length_app' in Hfuel. rewrite !app_assoc'.
    rewrite Hback by lia. cbn. unfold sep at 1. rewrite !app_cons, app_nil_l'.
    rewrite skip_ws_nonws by done.
    change (Ascii.eqb "," "]") with false. change (Ascii.eqb "," ",") with true.
    cbn match. rewrite skip_ws_indent.
    apply Forall_cons in Hall as Hall'. destruct Hall' as [[Hy _] _].
    change (enc level y :: List.map (enc level) l)
      with (List.map (enc level) (y :: l)).
    rewrite skip_ws_join by done.
    rewrite IH; [|done|done|].
    + by rewrite <- app_assoc.
    + destruct (encode_head level x Hx) as (c & body & Hc & _ & _ & Hlen).
      rewrite Hc in Hfuel. cbn [String.length] in Hfuel. cbn [List.map]. lia.
Qed.

(** The text of a dict member. *)
Definition member (level : nat) (kv : string * json) : string :=
  encode_basestring kv.1 +:+ ": " +:+ enc level kv.2.

Local Arguments member : simpl never.

Lemma member_text level k x t :
  member level (k, x) +:+ t
  = String dquote
      (escape k +:+ String dquote (String ":" (String " " (enc level x +:+ t)))).
Proof.
  unfold member, encode_basestring. cbn [fst snd].
  by rewrite !app_cons, !app_assoc', !app_cons, app_nil_l'.
Qed.

Lemma length_member level k x :
  (String.length (enc level x) + 4 ≤ String.length (member level (k, x)))%nat.
Proof.
  unfold member. cbn [fst snd]. rewrite !length_app'.
  pose proof (length_basestring k). change (String.length ": ") with 2%nat. lia.
Qed.

Lemma scan_members_join level level0 d :
  d ≠ [] →
  Forall (λ kv, plain kv.2 = true ∧ reads_back kv.2) d →
  ∀ acc rest fuel body,
    NoDup (Dict.keys acc ++ Dict.keys d) →
    (String.length (Py.join (sep level) (List.map (member level) d)) ≤ fuel)%nat →
    Py.join (sep level) (List.map (member level) d)
    +:+ (newline_indent level0 +:+ String "}" rest) = String dquote body →
    scan_members fuel acc body = Some (JObj (acc ++ d), rest).
Proof.
  induction d as [|[k x] d IH]; [done|].
  intros _ Hall acc rest fuel body Hnd Hfuel Hbody.
  apply Forall_cons in Hall as [[Hx Hback] Hall]. cbn [fst snd] in *.
  assert (Hk : k ∉ Dict.keys acc).
  { apply NoDup_app in Hnd as (_ & Hdisj & _). intros Hin.
    apply (Hdisj k Hin). left. }
  pose proof (length_member level k x) as Hlen.
  destruct (encode_head level x Hx) as (c & xbody & Hc & _ & _ & Hxlen).
  destruct fuel as [|f].
  { destruct d; cbn [List.map] in Hfuel;
      [rewrite join_singleton in Hfuel|rewrite join_cons2, !length_app' in Hfuel];
      lia. }
  rewrite scan_members_S.
  destruct d as [|[k2 x2] d].
  - cbn [List.map] in *. rewrite join_singleton in Hfuel, Hbody.
    rewrite member_text in Hbody. injection Hbody as <-.
    rewrite scanstring_escape. cbn.
    rewrite skip_ws_encode by done. rewrite Hback by lia. cbn.
    rewrite skip_ws_indent, skip_ws_nonws by done. cbn.
    by rewrite dict_set_fresh.
  - cbn [List.map] in Hfuel, Hbody. rewrite join_cons2 in Hfuel, Hbody.
    rewrite !length_app' in Hfuel.
    rewrite !app_assoc', member_text in Hbody. injection Hbody as <-.
    rewrite scanstring_escape. cbn.
    rewrite skip_ws_encode by done. rewrite Hback by lia. cbn.
    unfold sep at 1. rewrite !app_cons, app_nil_l'.
    rewrite skip_ws_nonws by done.
    change (Ascii.eqb "," "}") with false. change (Ascii.eqb "," ",") with true.
    cbn match. rewrite skip_ws_indent.
    change (member level (k2, x2) :: List.map (member level) d)
      with (List.map (member level) ((k2, x2) :: d)).
    destruct (Py.join (sep level) (List.map (member level) ((k2, x2) :: d))
              +:+ newline_indent level0 +:+ String "}" rest) as [|q body2] eqn:E.
    { exfalso. revert E. destruct d; cbn [List.map].
      - rewrite join_singleton, member_text. done.
      - rewrite join_cons2, !app_assoc', member_text. done. }
    assert (Hq : q = dquote).
    { revert E. destruct d; cbn [List.map].
      - rewrite join_singleton, member_text. by intros [= <- _].
      - rewrite join_cons2, !app_assoc', member_text. by intros [= <- _]. }
    subst q. rewrite skip_ws_nonws by done.
    change (Ascii.eqb dquote dquote) with true. cbn match.
    rewrite dict_set_fresh by done.
    rewrite (IH ltac:(done) Hall (acc ++ [(k, x)]) rest f body2).
    + by rewrite <- app_assoc.
    + unfold Dict.keys in *. rewrite fmap_app, <- app_assoc. exact Hnd.
    + cbn [List.map]. lia.
    + exact E.
Qed.

(** *** A value written by the encoder is read back by the decoder *)

Lemma Forall_forallb {A} (f : A → bool) (P : A → Prop) (l : list A) :
  forallb f l = true →
  Forall (λ x, f x = true → P x) l →
  Forall (λ x, f x = true ∧ P x) l.
Proof.
  induction l as [|x l IH]; cbn; [constructor|].
  intros [Hx Hl]%andb_true_iff HP. apply Forall_cons in HP as [HPx HP].
  constructor; [by split; [|apply HPx]|by apply IH].
Qed.

Lemma Forall_plain_fields (P : json → Prop) (d : list (string * json)) :
  forallb (λ kv, plain kv.2) d = true →
  Forall (λ kv, plain kv.2 = true → P kv.2) d →
  Forall (λ kv, plain kv.2 = true ∧ P kv.2) d.
Proof.
  induction d as [|kv d IH]; cbn; [constructor|].
  intros [Hx Hl]%andb_true_iff HP. apply Forall_cons in HP as [HPx HP].
  constructor; [by split; [|apply HPx]|by apply IH].
Qed.

Lemma encode_arr level x l :
  enc level (JArr (x :: l))
  = "[" +:+ newline_indent (S level)
    +:+ Py.join (sep (S level)) (List.map (enc (S level)) (x :: l))
    +:+ newline_indent level +:+ "]".
Proof. done. Qed.

Lemma encode_obj level kv d :
  enc level (JObj (kv :: d))
  = "{" +:+ newline_indent (S level)
    +:+ Py.join (sep (S level)) (List.map (member (S level)) (kv :: d))
    +:+ newline_indent level +:+ "}".
Proof. done. Qed.

Lemma scan_encode v : plain v = true → reads_back v.
Proof.
  induction v as [| b | z | f | s | l IH | d IH] using json_ind';
    intros Hv level rest fuel Hfuel; try done.
  - destruct fuel as [|fuel]; [cbn in Hfuel; lia|]. done.
  - destruct fuel as [|fuel]; [destruct b; cbn in Hfuel; lia|]. by destruct b.
  - destruct fuel as [|fuel]; [pose proof (length_basestring s); cbn in *; lia|].
    destruct (scanstring_basestring s rest) as (body & Hb & Hscan).
    cbn [encode]. rewrite Hb, scan_once_str, Hscan. done.
  - destruct l as [|x l].
    { destruct fuel as [|fuel]; [cbn in Hfuel; lia|]. done. }
    cbn [plain] in Hv. pose proof (Forall_forallb _ _ _ Hv IH) as Hall.
    rewrite encode_arr in Hfuel |- *.
    rewrite !length_app' in Hfuel. rewrite !app_assoc', !app_cons, !app_nil_l'.
    destruct fuel as [|fuel]; [cbn in Hfuel; lia|].
    rewrite scan_once_arr, skip_ws_indent.
    apply Forall_cons in Hall as Hall'. destruct Hall' as [[Hx _] _].
    rewrite skip_ws_join by done.
    destruct (encode_head (S level) x Hx) as (c & body & Hc & Hws & Hbr & _).
    assert (Hjoin : ∃ tl, Py.join (sep (S level)) (List.map (enc (S level)) (x :: l))
                          +:+ newline_indent level +:+ String "]" rest
                          = String c tl).
    { destruct l; cbn [List.map].
      - rewrite join_singleton, Hc, app_cons. by eexists.
      - rewrite join_cons2, Hc, !app_cons. by eexists. }
    destruct Hjoin as [tl Htl]. rewrite Htl, Hbr, <- Htl.
    rewrite (scan_items_join (S level) level (x :: l)); [done|done|done|].
    cbn [String.length] in Hfuel. lia.
  - destruct d as [|[k x] d].
    { destruct fuel as [|fuel]; [cbn in Hfuel; lia|]. done. }
    cbn [plain] in Hv. apply andb_true_iff in Hv as [Hnd Hv].
    apply bool_decide_eq_true in Hnd.
    pose proof (Forall_plain_fields _ _ Hv IH) as Hall.
    rewrite encode_obj in Hfuel |- *.
    rewrite !length_app' in Hfuel. rewrite !app_assoc', !app_cons, !app_nil_l'.
    destruct fuel as [|fuel]; [cbn in Hfuel; lia|].
    rewrite scan_once_obj, skip_ws_indent.
    assert (Hjoin : ∃ body,
              Py.join (sep (S level)) (List.map (member (S level)) ((k, x) :: d))
              +:+ newline_indent level +:+ String "}" rest
              = String dquote body).
    { destruct d; cbn [List.map].
      - rewrite join_singleton, member_text. by eexists.
      - rewrite join_cons2, !app_assoc', member_text. by eexists. }
    destruct Hjoin as [body Hbody]. rewrite Hbody.
    rewrite skip_ws_nonws by done.
    change (Ascii.eqb dquote "}") with false.
    change (Ascii.eqb dquote dquote) with true. cbn match.
    rewrite (scan_members_join (S level) level ((k, x) :: d)
               ltac:(done) Hall [] rest fuel body); [done|done| |done].
    cbn [String.length] in Hfuel. lia.
Qed.

(** *** The text of a value holds a surrogate exactly when the value does *)

Lemma clean_eq t h h' : clean t h → h = h' → clean t h'.
Proof. by intros ? <-. Qed.

Lemma negb_forallb {A} (f : A → bool) l :
  negb (forallb f l) = existsb (λ x, negb (f x)) l.
Proof.
  induction l as [|x l IH]; [done|]. cbn. by rewrite negb_andb, IH.
Qed.

Lemma clean_sep level : clean (sep level) false.
Proof.
  apply (clean_app "," _ false false); [by apply clean_lit|apply clean_indent].
Qed.

Lemma encode_clean v :
  plain v = true → ∀ level, clean (enc level v) (negb (encodable v)).
Proof.
  induction v as [| b | z | f | s | l IH | d IH] using json_ind';
    intros Hv level; try done; try (by apply clean_lit).
  - by destruct b; apply clean_lit.
  - cbn [encode encodable]. rewrite negb_involutive. apply clean_basestring.
  - destruct l as [|x l]; [by apply clean_lit|].
    cbn [plain] in Hv. pose proof (Forall_forallb _ _ _ Hv IH) as Hall.
    rewrite encode_arr. cbn [encodable]. rewrite negb_forallb.
    eapply clean_eq.
    + apply (clean_app "[" _ false); [by apply clean_lit|].
      apply clean_app; [apply clean_indent|].
      apply clean_app; [|apply (clean_app _ "]" false false);
                          [apply clean_indent|by apply clean_lit]].
      apply (clean_join _ _ (λ x, negb (encodable x))); [apply clean_sep|].
      eapply Forall_impl; [exact Hall|]. intros y [Hy HP]. by apply HP.
    + cbn [orb]. by rewrite orb_false_r.
  - destruct d as [|[k x] d]; [by apply clean_lit|].
    cbn [plain] in Hv. apply andb_true_iff in Hv as [_ Hv].
    pose proof (Forall_plain_fields
                  (λ v, ∀ level, clean (enc level v) (negb (encodable v)))
                  _ Hv IH) as Hall.
    rewrite encode_obj. cbn [encodable]. rewrite negb_forallb.
    eapply clean_eq.
    + apply (clean_app "{" _ false); [by apply clean_lit|].
      apply clean_app; [apply clean_indent|].
      apply clean_app; [|apply (clean_app _ "}" false false);
                          [apply clean_indent|by apply clean_lit]].
      apply (clean_join _ _
               (λ kv, negb (negb (Py.has_surrogate kv.1) && encodable kv.2)));
        [apply clean_sep|].
      eapply Forall_impl; [exact Hall|]. intros [k' y] [Hy HP]. cbn [fst snd] in *.
      eapply clean_eq.
      * apply clean_app; [apply clean_basestring|].
        apply (clean_app ": " _ false); [by apply clean_lit|]. by apply HP.
      * cbn [orb]. by rewrite negb_andb, negb_involutive.
    + cbn [orb]. by rewrite orb_false_r.
Qed.

(** What [json.dump] writes can be encoded exactly when the value holds
    no surrogate. *)
Lemma dumps_surrogate v :
  plain v = true →
  Py.has_surrogate (dumps float_repr v) = negb (encodable v).
Proof. intros Hv. by destruct (encode_clean v Hv 0%nat) as [? _]. Qed.

(** [json.loads(json.dumps(v, ensure_ascii=False, indent=2)) == v] *)
Lemma loads_dumps v :
  plain v = true → loads (dumps float_repr v) = Ok v.
Proof.
  intros Hv. unfold loads, dumps.
  pose proof (scan_encode v Hv 0%nat EmptyString
                (2 * String.length (enc 0 v) + 2)%nat ltac:(lia)) as Hscan.
  rewrite <- (append_empty_r (enc 0 v)) at 2.
  rewrite skip_ws_encode by done. by rewrite Hscan.
Qed.

End Values.

End JsonFacts.

(** *** The persona store *)

Section StoreClaims.
Import PersonaLearner StoreSpec.

Lemma dump_list_plain l : plain (dump_list l) = true.
Proof. unfold dump_list. cbn. by induction l. Qed.

Lemma dump_opt_plain o : plain (dump_opt o) = true.
Proof. by destruct o. Qed.

Lemma model_dump_plain p : plain (model_dump p) = true.
Proof.
  unfold model_dump. cbn [plain forallb snd].
  rewrite !dump_list_plain, !dump_opt_plain. by vm_compute.
Qed.

Lemma profiles_value_plain profiles :
  NoDup profiles.*1 → plain (profiles_value profiles) = true.
Proof.
  intros Hnd. unfold profiles_value. cbn [plain].
  apply andb_true_iff. split.
  - apply bool_decide_eq_true. unfold Dict.keys.
    rewrite <- list_fmap_compose. exact Hnd.
  - clear Hnd. induction profiles as [|[k p] ps IH]; [done|].
    rewrite fmap_cons. cbn [forallb snd]. by rewrite model_dump_plain, IH.
Qed.

Lemma save_personas_plain float_repr v path fs :
  plain v = true →
  save_personas float_repr v path fs
  = if encodable v then Ok (<[path := Json.dumps float_repr v]> fs)
    else Raise UnicodeEncodeError.
Proof.
  intros Hv. unfold save_personas. rewrite dumps_surrogate by done.
  by destruct (encodable v).
Qed.

Lemma load_saved float_repr v path fs fs' :
  plain v = true →
  save_personas float_repr v path fs = Ok fs' →
  load_personas path fs' = Ok v
  ∧ fs' = <[path := Json.dumps float_repr v]> fs
  ∧ encodable v = true.
Proof.
  intros Hv. rewrite save_personas_plain by done.
  destruct (encodable v); [|done]. intros [= <-]. split_and!; [|done|done].
  unfold load_personas. rewrite lookup_insert_eq. by apply loads_dumps.
Qed.

(** C6 (as amended).  For every mapping from distinct character
    identifiers to Persona Profile records whose texts are well-formed (no
    text holds a lone surrogate), and more generally for every such value
    made of [None], booleans, strings, lists and dicts: whatever the file
    system held, [save_personas] writes the file, and loading the file
    gives back the mapping that was saved.  Text outside ASCII is written
    as it is and read back unchanged.  When a text of the value holds a
    lone surrogate, [save_personas] raises [UnicodeEncodeError]. *)
Theorem C6_store_round_trip :
  ∀ (float_repr : pyfloat → string),
    (∀ (profiles : list (string * PersonaProfile)) path fs,
       NoDup profiles.*1 →
       encodable (profiles_value profiles) = true →
       ∃ fs',
         save_personas float_repr (profiles_value profiles) path fs = Ok fs'
         ∧ load_personas path fs' = Ok (profiles_value profiles))
    ∧ (∀ (v : json) path fs,
         plain v = true →
         encodable v = true →
         ∃ fs',
           save_personas float_repr v path fs = Ok fs'
           ∧ load_personas path fs' = Ok v)
    ∧ (∀ (v : json) path fs,
         plain v = true →
         encodable v = false →
         save_personas float_repr v path fs = Raise UnicodeEncodeError).
Proof.
  intros float_repr.
  assert (Hgen : ∀ (v : json) path fs,
            plain v = true → encodable v = true →
            ∃ fs', save_personas float_repr v path fs = Ok fs'
                   ∧ load_personas path fs' = Ok v).
  { intros v path fs Hv He. rewrite save_personas_plain, He by done.
    eexists. split; [done|].
    unfold load_personas. rewrite lookup_insert_eq. by apply loads_dumps. }
  split_and!; [|exact Hgen|].
  - intros profiles path fs Hnd He. apply Hgen; [|done].
    by apply profiles_value_plain.
  - intros v path fs Hv He. by rewrite save_personas_plain, He.
Qed.

Lemma C6_store_round_trip_witness :
  ∃ fs',
    save_personas Examples.no_float_repr
      (profiles_value Examples.stored_profiles)
      "data/personas_learned_id.json" ∅ = Ok fs'
    ∧ load_personas "data/personas_learned_id.json" fs'
      = Ok (profiles_value Examples.stored_profiles).
Proof.
  exact (proj1 (C6_store_round_trip Examples.no_float_repr)
           Examples.stored_profiles "data/personas_learned_id.json" ∅
           (bool_decide_unpack (NoDup (Examples.stored_profiles.*1)) I)
           eq_refl).
Defined.

(** C6, as stated, fails for a profile with a lone surrogate in a text:
    the answer {"tone": "\ud800"} is decoded, the profile validates, and
    [save_personas] raises on the mapping that holds it. *)
Lemma C6_counterexample :
  handle_response Examples.surrogate_reply "A" "id"
  = Ok (model_dump Examples.garbled)
  ∧ save_personas Examples.no_float_repr
      (profiles_value [("A", Examples.garbled)])
      "data/personas_learned_id.json" ∅
    = Raise UnicodeEncodeError.
Proof. split; by vm_compute. Qed.

End StoreClaims.

(** ** The decoder does not depend on its fuel *)

Section JsonTotal.
Import Json.

Abbreviation len := String.length.

Lemma skip_ws_length s : (len (skip_ws s) ≤ len s)%nat.
Proof.
  induction s as [|c s IH]; cbn; [done|]. destruct (is_ws c); cbn; lia.
Qed.

Lemma skip_ws_cons_length s d r :
  skip_ws s = String d r → (len r < len s)%nat.
Proof.
  intros H. pose proof (skip_ws_length s) as Hl. rewrite H in Hl. cbn in Hl. lia.
Qed.

Lemma starts_with_length p s r :
  starts_with p s = Some r → len s = (len p + len r)%nat.
Proof.
  revert s. induction p as [|c p IH]; intros s; cbn.
  - by intros [= ->].
  - destruct s as [|d s]; [done|]. destruct (Ascii.eqb c d); [|done].
    intros H. cbn. by rewrite (IH _ H).
Qed.

Lemma span_digits_length s ds r :
  span_digits s = (ds, r) → (len r ≤ len s)%nat.
Proof.
  revert ds r. induction s as [|c s IH]; intros ds r; cbn.
  - by intros [= <- <-].
  - destruct (Py.is_digit_c c).
    + destruct (span_digits s) as [ds' r'] eqn:E. intros [= <- <-].
      specialize (IH _ _ eq_refl). lia.
    + intros [= <- <-]. cbn. lia.
Qed.

Lemma match_int_part_shorter s ip r :
  match_int_part s = Some (ip, r) → (len r < len s)%nat.
Proof.
  destruct s as [|c s]; cbn; [done|].
  destruct (Ascii.eqb c "0"); [intros [= <- <-]; lia|].
  destruct (Py.is_digit_c c); [|done].
  destruct (span_digits s) as [ds r'] eqn:E. intros [= <- <-].
  apply span_digits_length in E. lia.
Qed.

Lemma match_frac_length s fd r :
  match_frac s = (fd, r) → (len r ≤ len s)%nat.
Proof.
  destruct s as [|c s]; cbn; [by intros [= <- <-]|].
  destruct (Ascii.eqb c "."); [|intros [= <- <-]; cbn; lia].
  destruct (span_digits s) as [[|d ds] r'] eqn:E; intros [= <- <-]; cbn; [lia|].
  apply span_digits_length in E. lia.
Qed.

Lemma match_exp_length s ex r :
  match_exp s = (ex, r) → (len r ≤ len s)%nat.
Proof.
  destruct s as [|c s]; cbn; [by intros [= <- <-]|].
  destruct (_ || _); [|intros [= <- <-]; cbn; lia].
  destruct s as [|sg s'].
  - cbn. intros [= <- <-]. cbn. lia.
  - destruct (Ascii.eqb sg "-"); [|destruct (Ascii.eqb sg "+")];
      destruct (span_digits _) as [[|d ds] r'] eqn:E; intros [= <- <-];
      cbn; try lia; apply span_digits_length in E; cbn in E; lia.
Qed.

Lemma match_number_shorter s v r :
  match_number s = Some (v, r) → (len r < len s)%nat.
Proof.
  unfold match_number.
  set (p := match s with
            | EmptyString => (false, s)
            | String c r0 => if Ascii.eqb c "-" then (true, r0) else (false, s)
            end).
  assert (Hp : (len p.2 ≤ len s)%nat).
  { subst p. destruct s as [|c r0]; [done|].
    destruct (Ascii.eqb c "-"); cbn; lia. }
  destruct p as [neg s1]. cbn in Hp.
  destruct (match_int_part s1) as [[ip r1]|] eqn:E1; [|done]. cbn.
  destruct (match_frac r1) as [fd r2] eqn:E2.
  destruct (match_exp r2) as [ex r3] eqn:E3.
  apply match_int_part_shorter in E1. apply match_frac_length in E2.
  apply match_exp_length in E3.
  destruct fd, ex; intros [= <- <-]; lia.
Qed.

Lemma scan_atom_shorter s v r :
  scan_atom s = Some (v, r) → (len r < len s)%nat.
Proof.
  unfold scan_atom.
  destruct (starts_with "null" s) eqn:E1;
    [intros [= <- <-]; apply starts_with_length in E1; cbn in E1; lia|].
  destruct (starts_with "true" s) eqn:E2;
    [intros [= <- <-]; apply starts_with_length in E2; cbn in E2; lia|].
  destruct (starts_with "false" s) eqn:E3;
    [intros [= <- <-]; apply starts_with_length in E3; cbn in E3; lia|].
  destruct (match_number s) as [[v0 r0]|] eqn:E4;
    [intros [= <- <-]; by eapply match_number_shorter|].
  destruct (starts_with "NaN" s) eqn:E5;
    [intros [= <- <-]; apply starts_with_length in E5; cbn in E5; lia|].
  destruct (starts_with "Infinity" s) eqn:E6;
    [intros [= <- <-]; apply starts_with_length in E6; cbn in E6; lia|].
  destruct (starts_with "-Infinity" s) eqn:E7;
    [intros [= <- <-]; apply starts_with_length in E7; cbn in E7; lia|].
  done.
Qed.

Lemma scanstring_from_shorter k s str r :
  scanstring_from k s = Some (str, r) → (len r < len s)%nat.
Proof.
  revert k str. induction s as [|c s IH]; intros k str;
    cbn [scanstring_from String.length]; [done|].
  destruct k as [|k].
  - destruct (Ascii.eqb c dquote); [intros [= <- <-]; lia|].
    destruct (Ascii.eqb c backslash).
    + destruct (decode_escape s) as [[chars n]|]; [|done]. cbn.
      destruct (scanstring_from n s) as [[str' r']|] eqn:E; [|done]. cbn.
      intros [= <- <-]. apply IH in E. lia.
    + destruct (Py.in_range 0 31 c); [done|].
      destruct (scanstring_from 0 s) as [[str' r']|] eqn:E; [|done]. cbn.
      intros [= <- <-]. apply IH in E. lia.
  - intros H. apply IH in H. lia.
Qed.

Lemma scan_once_S f c r :
  scan_once (S f) (String c r)
  = if Ascii.eqb c dquote then
      '(str, rest) ← scanstring r; Some (JStr str, rest)
    else if Ascii.eqb c "{" then
      match skip_ws r with
      | String d r1 =>
          if Ascii.eqb d "}" then Some (JObj [], r1)
          else if Ascii.eqb d dquote then scan_members f [] r1
          else None
      | EmptyString => None
      end
    else if Ascii.eqb c "[" then
      match skip_ws r with
      | String d r1 =>
          if Ascii.eqb d "]" then Some (JArr [], r1)
          else scan_items f [] (String d r1)
      | EmptyString => None
      end
    else scan_atom (String c r).
Proof. done. Qed.

(** Every scanner takes at least one character. *)
Lemma scan_shorter f :
  (∀ s v r, scan_once f s = Some (v, r) → (len r < len s)%nat)
  ∧ (∀ acc s v r, scan_items f acc s = Some (v, r) → (len r < len s)%nat)
  ∧ (∀ acc s v r, scan_members f acc s = Some (v, r) → (len r < len s)%nat).
Proof.
  induction f as [|f (IH1 & IH2 & IH3)]; [by split_and!|].
  split_and!.
  - intros [|c r0] v r; [done|]. rewrite scan_once_S. cbn [String.length].
    destruct (Ascii.eqb c dquote).
    { destruct (scanstring r0) as [[str rest]|] eqn:E; [|done]. cbn.
      intros [= <- <-]. apply scanstring_from_shorter in E. lia. }
    destruct (Ascii.eqb c "{").
    { destruct (skip_ws r0) as [|d r1] eqn:E; [done|].
      apply skip_ws_cons_length in E.
      destruct (Ascii.eqb d "}"); [intros [= <- <-]; lia|].
      destruct (Ascii.eqb d dquote); [|done].
      intros H%IH3. lia. }
    destruct (Ascii.eqb c "[").
    { destruct (skip_ws r0) as [|d r1] eqn:E; [done|].
      pose proof (skip_ws_length r0) as Hl. rewrite E in Hl.
      cbn [String.length] in Hl.
      destruct (Ascii.eqb d "]"); [intros [= <- <-]; lia|].
      intros H%IH2. cbn [String.length] in H. lia. }
    intros H%scan_atom_shorter. cbn [String.length] in H. lia.
  - intros acc s v r. rewrite scan_items_S.
    destruct (scan_once f s) as [[x r1]|] eqn:E1; [|done]. cbn.
    apply IH1 in E1.
    destruct (skip_ws r1) as [|d r2] eqn:E2; [done|].
    apply skip_ws_cons_length in E2.
    destruct (Ascii.eqb d "]"); [intros [= <- <-]; lia|].
    destruct (Ascii.eqb d ","); [|done].
    intros Hrec%IH2. pose proof (skip_ws_length r2). lia.
  - intros acc s v r. rewrite scan_members_S.
    destruct (scanstring s) as [[key r1]|] eqn:E1; [|done]. cbn.
    apply scanstring_from_shorter in E1.
    destruct (skip_ws r1) as [|d r2] eqn:E2; [done|].
    apply skip_ws_cons_length in E2.
    destruct (Ascii.eqb d ":"); [|done].
    destruct (scan_once f (skip_ws r2)) as [[x r3]|] eqn:E3; [|done]. cbn.
    apply IH1 in E3. pose proof (skip_ws_length r2) as Hl2.
    destruct (skip_ws r3) as [|d' r4] eqn:E4; [done|].
    apply skip_ws_cons_length in E4.
    destruct (Ascii.eqb d' "}"); [intros [= <- <-]; lia|].
    destruct (Ascii.eqb d' ","); [|done].
    destruct (skip_ws r4) as [|q r5] eqn:E5; [done|].
    apply skip_ws_cons_length in E5.
    destruct (Ascii.eqb q dquote); [|done].
    intros Hrec%IH3. lia.
Qed.

(** With a fuel above twice the length of the text, the result of a
    scanner is the same whatever the fuel. *)
Lemma scan_stable f1 :
  (∀ f2 s, (2 * len s < f1)%nat → (2 * len s < f2)%nat →
           scan_once f1 s = scan_once f2 s)
  ∧ (∀ f2 acc s, (2 * len s + 1 < f1)%nat → (2 * len s + 1 < f2)%nat →
                 scan_items f1 acc s = scan_items f2 acc s)
  ∧ (∀ f2 acc s, (2 * len s + 1 < f1)%nat → (2 * len s + 1 < f2)%nat →
                 scan_members f1 acc s = scan_members f2 acc s).
Proof.
  induction f1 as [|f1 (IH1 & IH2 & IH3)]; [split_and!; intros; lia|].
  split_and!.
  - intros [|f2] [|c r0] H1 H2; try lia; [done|].
    rewrite !scan_once_S. cbn [String.length] in H1, H2.
    destruct (Ascii.eqb c dquote); [done|].
    destruct (Ascii.eqb c "{").
    { destruct (skip_ws r0) as [|d r1] eqn:E; [done|].
      apply skip_ws_cons_length in E.
      destruct (Ascii.eqb d "}"); [done|].
      destruct (Ascii.eqb d dquote); [|done].
      apply IH3; lia. }
    destruct (Ascii.eqb c "[").
    { destruct (skip_ws r0) as [|d r1] eqn:E; [done|].
      pose proof (skip_ws_length r0) as Hl. rewrite E in Hl.
      destruct (Ascii.eqb d "]"); [done|].
      apply IH2; lia. }
    done.
  - intros [|f2] acc s H1 H2; [lia|]. rewrite !scan_items_S.
    rewrite (IH1 f2 s) by lia.
    destruct (scan_once f2 s) as [[x r1]|] eqn:E1; [|done]. cbn.
    apply (proj1 (scan_shorter f2)) in E1.
    destruct (skip_ws r1) as [|d r2] eqn:E2; [done|].
    apply skip_ws_cons_length in E2.
    destruct (Ascii.eqb d "]"); [done|].
    destruct (Ascii.eqb d ","); [|done].
    pose proof (skip_ws_length r2). apply IH2; lia.
  - intros [|f2] acc s H1 H2; [lia|]. rewrite !scan_members_S.
    destruct (scanstring s) as [[key r1]|] eqn:E1; [|done]. cbn.
    apply scanstring_from_shorter in E1.
    destruct (skip_ws r1) as [|d r2] eqn:E2; [done|].
    apply skip_ws_cons_length in E2.
    destruct (Ascii.eqb d ":"); [|done].
    pose proof (skip_ws_length r2).
    rewrite (IH1 f2 (skip_ws r2)) by lia.
    destruct (scan_once f2 (skip_ws r2)) as [[x r3]|] eqn:E3; [|done]. cbn.
    apply (proj1 (scan_shorter f2)) in E3.
    destruct (skip_ws r3) as [|d' r4] eqn:E4; [done|].
    apply skip_ws_cons_length in E4.
    destruct (Ascii.eqb d' "}"); [done|].
    destruct (Ascii.eqb d' ","); [|done].
    destruct (skip_ws r4) as [|q r5] eqn:E5; [done|].
    apply skip_ws_cons_length in E5.
    destruct (Ascii.eqb q dquote); [|done].
    apply IH3; lia.
Qed.

(** [json.loads] is the scanner on any fuel above twice the length of the
    text: its failures are failures of the text. *)
Lemma loads_fuel s fuel :
  (2 * len s + 2 ≤ fuel)%nat →
  loads s
  = match scan_once fuel (skip_ws s) with
    | Some (v, rest) =>
        match skip_ws rest with
        | EmptyString => Ok v
        | _ => Raise JSONDecodeError
        end
    | None => Raise JSONDecodeError
    end.
Proof.
  intros Hfuel. unfold loads. pose proof (skip_ws_length s).
  rewrite (proj1 (scan_stable _) fuel (skip_ws s)) by lia. done.
Qed.

End JsonTotal.

(** ** The scenarios of the specification, run on the embedding *)

Section Scenarios.
Import Pandas Gateway.

(** "Custom map {"halo":"Hai"} with normalization enabled and gateway
    returning "halo teman": normalized output "Hai teman"." *)
Example scenario_custom_map :
  Normalizer.normalize_indonesian "halo teman" (Some (JObj [("halo", JStr "Hai")]))
  = Ok "Hai teman".
Proof. by vm_compute. Qed.

(** Text without a mapped token is returned as it is, punctuation and
    white space included; a mapped token is replaced where it stands. *)
Example scenario_tokens_in_text :
  Normalizer.normalize_indonesian "Halo, 'udah' makan? UDAH -- udah-udah." None
  = Ok "Halo, 'sudah' makan? SUDAH -- udah-udah.".
Proof. by vm_compute. Qed.

(** One row of character A with a source text and an empty id cell, the
    persona store empty, the gateway stubbed to return "Halo": after
    filling, the row's id cell is "Halo". *)
Example scenario_fill_one_row :
  (Filler.cli_main (λ _ _ _ w, (Ok "Halo", S w)) Examples.no_repr
     (Examples.cli false true) (JObj []) None
     {| columns := ["char"; "zh"; "id"];
        rows := [[("char", Val "A"); ("zh", Val "ni hao"); ("id", Val "")]];
        refuses_text := [] |}
     Examples.start).1
  = Ok {| columns := ["char"; "zh"; "id"];
          rows := [[("char", Val "A"); ("zh", Val "ni hao"); ("id", Val "Halo")]];
          refuses_text := [] |}.
Proof. by vm_compute. Qed.

(** A response with prose around the JSON object is recovered, the known
    fields forced and the extra key dropped; a response without a JSON
    object gives the fallback profile. *)
Example scenario_response_handling :
  PersonaLearner.handle_response Examples.wrapped_reply "A" "id"
  = Ok (JObj [("character_id", JStr "A"); ("target_lang", JStr "id");
              ("tone", JStr "calm"); ("quirks", JArr []); ("pronouns", JNull);
              ("formality", JNull); ("punctuation_habits", JNull);
              ("lexical_preferences", JArr []); ("style_rules_en", JArr []);
              ("style_rules_id", JArr []); ("notes", JNull)])
  ∧ PersonaLearner.handle_response "{'tone': 'calm'} is no JSON" "A" "id"
    = Ok (PersonaLearner.model_dump (LearnerSpec.fallback_record "A" "id")).
Proof. by vm_compute. Qed.

End Scenarios.
(** * Further properties

    Properties of the code beyond the statements of the specification:
    edge and error behaviour, invariants of the loops, round trips
    through the persona file, and the requests of the gateway. *)

(** ** Lexical normalizer: what is replaced and what is kept *)

Section NormalizerMore.
Import Normalizer NormalizerSpec TextSpec.

Lemma join_list_texts items :
  Forall (λ v, is_str v = true) items → ∃ out, join_list items = Ok out.
Proof.
  induction 1 as [|v items Hv _ [out IH]]; [by eexists|].
  destruct v; try done. cbn. rewrite IH. by eexists.
Qed.

Lemma sub_from_texts f :
  (∀ w, ∃ out, f w = Ok (JStr out)) →
  ∀ s skip prev,
    ∃ items, sub_from f skip prev s = Ok items
             ∧ Forall (λ v, is_str v = true) items.
Proof.
  intros Hf. induction s as [|c r IH]; intros skip prev; cbn [sub_from].
  - by eexists.
  - destruct skip as [|k]; [|apply IH].
    destruct (match_at prev (String c r)) as [[tok rest]|].
    + destruct (Hf tok) as [out ->].
      destruct (IH (String.length tok - 1)%nat (Some c)) as (tl & -> & Htl).
      cbn. eexists. split; [done|]. by constructor.
    + destruct (IH 0%nat (Some c)) as (tl & -> & Htl). cbn.
      eexists. split; [done|]. by constructor.
Qed.

Lemma repl_total mapping w :
  texts_only mapping → ∃ out, repl mapping w = Ok (JStr out).
Proof.
  intros Hm. unfold repl.
  destruct (mapping !! Py.lower w) as [dst|] eqn:E; [|by eexists].
  apply Hm in E. destruct dst; try done.
  unfold _match_casing. destruct (Py.isupper w), (Py.istitle w); by eexists.
Qed.

Lemma texts_only_default : texts_only DEFAULT_KBBI_MAP.
Proof.
  intros k v. unfold DEFAULT_KBBI_MAP.
  rewrite lookup_singleton_Some. by intros [_ <-].
Qed.

Lemma texts_only_fold d m :
  forallb (λ kv : string * json, is_str kv.2) d = true →
  texts_only m →
  texts_only (foldl (λ m kv, <[Py.lower kv.1 := kv.2]> m) m d).
Proof.
  revert m. induction d as [|[k v] d IH]; intros m Hd Hm; cbn; [done|].
  cbn in Hd. apply andb_true_iff in Hd as [Hv Hd].
  apply IH; [done|]. intros k' v'. rewrite lookup_insert_Some.
  intros [[_ <-]|[_ H]]; [done|by eapply Hm].
Qed.

(** The effective map of a text map holds texts only. *)
Lemma effective_map_text_map cm :
  text_map cm = true →
  ∃ mapping, effective_map cm = Ok mapping ∧ texts_only mapping.
Proof.
  intros Hcm.
  assert (Hdef : ∃ mapping,
            Ok DEFAULT_KBBI_MAP = Ok mapping ∧ texts_only mapping).
  { eexists; split; [done|apply texts_only_default]. }
  destruct cm as [cm|]; [|done]. unfold effective_map.
  destruct (truthy cm) eqn:Ht; [|done].
  destruct cm as [| | | | |l|d];
    try (unfold text_map in Hcm; rewrite Ht in Hcm; discriminate Hcm).
  cbn in Hcm. eexists; split; [done|].
  apply texts_only_fold; [done|apply texts_only_default].
Qed.

(** *** The text outside the tokens *)

Lemma match_end_split c s tok rest :
  match_end c s = Some (tok, rest) → s = tok +:+ rest.
Proof.
  revert c tok rest. induction s as [|d r IH]; intros c tok rest; cbn.
  - destruct (boundary _ _); [|done]. by intros [= <- <-].
  - destruct (in_class d).
    + destruct (match_end d r) as [[tok' rest']|] eqn:E.
      * intros [= <- <-]. by rewrite (IH _ _ _ E).
      * destruct (boundary _ _); [|done]. by intros [= <- <-].
    + destruct (boundary _ _); [|done]. by intros [= <- <-].
Qed.

Lemma match_at_split prev c r tok rest :
  match_at prev (String c r) = Some (tok, rest) →
  ∃ tok', tok = String c tok' ∧ r = tok' +:+ rest.
Proof.
  cbn. destruct (boundary _ _ && in_class c); [|done].
  destruct (match_end c r) as [[tok' rest']|] eqn:E; [|done].
  intros [= <- <-]. exists tok'. split; [done|]. by apply match_end_split in E.
Qed.

Lemma sub_from_skip f a b prev :
  sub_from f (String.length a) prev (a +:+ b) = sub_from f 0 (last_of prev a) b.
Proof.
  revert prev. induction a as [|c a IH]; intros prev; [done|].
  change (String c a +:+ b) with (String c (a +:+ b)).
  cbn [String.length sub_from]. rewrite IH. by destruct a.
Qed.

Lemma tokens_from_skip a b prev :
  tokens_from (String.length a) prev (a +:+ b) = tokens_from 0 (last_of prev a) b.
Proof.
  revert prev. induction a as [|c a IH]; intros prev; [done|].
  change (String c a +:+ b) with (String c (a +:+ b)).
  cbn [String.length tokens_from]. rewrite IH. by destruct a.
Qed.

Lemma length_app_r a b : (String.length b ≤ String.length (a +:+ b))%nat.
Proof.
  induction a as [|c a IH]; [done|].
  change (String c a +:+ b) with (String c (a +:+ b)). cbn. lia.
Qed.

(** When [f] gives back every token of the text, the substitution gives
    back the text. *)
Lemma sub_from_tokens f n :
  ∀ s prev, (String.length s ≤ n)%nat →
    (∀ w, w ∈ tokens_from 0 prev s → f w = Ok (JStr w)) →
    ∃ items, sub_from f 0 prev s = Ok items ∧ join_list items = Ok s.
Proof.
  induction n as [|n IH]; intros s prev Hlen Hf.
  - destruct s; [by eexists|cbn in Hlen; lia].
  - destruct s as [|c r]; [by eexists|]. cbn [String.length] in Hlen.
    cbn [sub_from]. cbn [tokens_from] in Hf.
    destruct (match_at prev (String c r)) as [[tok rest]|] eqn:E.
    + destruct (match_at_split _ _ _ _ _ E) as (tok' & -> & ->).
      rewrite (Hf (String c tok')) by left. cbn [String.length Nat.sub] in *.
      rewrite Nat.sub_0_r in *. cbn.
      rewrite sub_from_skip.
      destruct (IH rest (last_of (Some c) tok')) as (items & -> & Hj).
      * pose proof (length_app_r tok' rest). lia.
      * intros w Hw. apply Hf. right. by rewrite tokens_from_skip.
      * cbn. eexists. split; [done|]. cbn. rewrite Hj. cbn.
        by rewrite app_cons.
    + cbn. destruct (IH r (Some c)) as (items & -> & Hj); [lia|done|].
      cbn. eexists. split; [done|]. cbn. by rewrite Hj.
Qed.

(** *** The effective map *)

Lemma effective_map_dict d :
  effective_map (Some (JObj d))
  = Ok (foldl (λ m kv, <[Py.lower kv.1 := kv.2]> m) DEFAULT_KBBI_MAP d).
Proof. by destruct d. Qed.

Lemma fold_insert_other d (m : gmap string json) k :
  k ∉ (Py.lower <$> d.*1) →
  foldl (λ m kv, <[Py.lower kv.1 := kv.2]> m) m d !! k = m !! k.
Proof.
  revert m. induction d as [|[k' v'] d IH]; intros m Hk; cbn; [done|].
  cbn in Hk. apply not_elem_of_cons in Hk as [Hne Hk].
  rewrite IH by done. by rewrite lookup_insert_ne.
Qed.

Lemma fold_insert_last d1 k v d2 (m : gmap string json) :
  Py.lower k ∉ (Py.lower <$> d2.*1) →
  foldl (λ m kv, <[Py.lower kv.1 := kv.2]> m) m (d1 ++ (k, v) :: d2)
    !! Py.lower k = Some v.
Proof.
  intros Hk. rewrite foldl_app. cbn.
  rewrite fold_insert_other by done. apply lookup_insert_eq.
Qed.

End NormalizerMore.

(** With a map of texts the normalizer returns. *)
Lemma normalize_text_map text cm :
  TextSpec.text_map cm = true →
  ∃ out, Normalizer.normalize_indonesian text cm = Ok out.
Proof.
  intros Hcm.
  destruct (effective_map_text_map cm Hcm) as (mapping & Hmap & Htexts).
  unfold Normalizer.normalize_indonesian. rewrite Hmap. cbn.
  destruct (sub_from_texts (Normalizer.repl mapping)
              (λ w, repl_total mapping w Htexts) text 0%nat None)
    as (items & Hsub & Hitems).
  unfold Normalizer.re_sub. rewrite Hsub. cbn. by apply join_list_texts.
Qed.

(** X1.  With a custom map that is absent, counts as false, or is a dict
    whose values are all texts, the normalizer returns a text for every
    input: it raises for no text. *)
Theorem normalizer_returns_on_text_maps :
  ∀ (text : string) (custom_map : option json),
    TextSpec.text_map custom_map = true →
    ∃ out, Normalizer.normalize_indonesian text custom_map = Ok out.
Proof.
  intros text cm Hcm. by apply normalize_text_map.
Qed.

Lemma normalizer_returns_on_text_maps_witness :
  ∃ out, Normalizer.normalize_indonesian "Udah, halo!"
           (Some (JObj [("halo", JStr "hai")])) = Ok out.
Proof.
  exact (normalizer_returns_on_text_maps "Udah, halo!"
           (Some (JObj [("halo", JStr "hai")])) eq_refl).
Defined.

(** X2.  The normalizer changes tokens only, and only those it finds in
    the map: an ASCII text none of whose tokens, lower-cased, is a key of
    the effective map is returned as it is, with its spaces, punctuation,
    tags and placeholders. *)
Theorem normalizer_keeps_unmapped_text :
  ∀ (text : string) (custom_map : option json) (mapping : gmap string json),
    Py.ascii_only text = true →
    NormalizerSpec.ascii_keys custom_map = true →
    Normalizer.effective_map custom_map = Ok mapping →
    (∀ w, w ∈ TextSpec.tokens text → mapping !! Py.lower w = None) →
    Normalizer.normalize_indonesian text custom_map = Ok text.
Proof.
  intros text cm mapping _ _ Hmap Hfree.
  unfold Normalizer.normalize_indonesian. rewrite Hmap. cbn.
  destruct (sub_from_tokens (Normalizer.repl mapping) (String.length text)
              text None (le_n _)) as (items & Hsub & Hjoin).
  { intros w Hw. unfold Normalizer.repl. by rewrite (Hfree w Hw). }
  unfold Normalizer.re_sub. by rewrite Hsub.
Qed.

Lemma normalizer_keeps_unmapped_text_witness :
  Normalizer.normalize_indonesian "Halo {NICKNAME}, <b>apa kabar</b>?" None
  = Ok "Halo {NICKNAME}, <b>apa kabar</b>?".
Proof.
  apply (normalizer_keeps_unmapped_text _ None Normalizer.DEFAULT_KBBI_MAP);
    [reflexivity..|].
  intros w Hw. vm_compute in Hw.
  repeat (apply elem_of_cons in Hw as [->|Hw]; [by vm_compute|]).
  by apply elem_of_nil in Hw.
Defined.

(** X3.  The effective map of a custom dict: every key is entered in lower
    case; an entry of the custom map replaces the default entry of the
    same word, and of two custom entries for the same word the later one
    counts; the default entries of the other words stay. *)
Theorem custom_map_overrides_defaults :
  ∀ (d : list (string * json)),
    NormalizerSpec.ascii_keys (Some (JObj d)) = true →
    ∃ mapping,
      Normalizer.effective_map (Some (JObj d)) = Ok mapping
      ∧ (∀ d1 k v d2,
           d = d1 ++ (k, v) :: d2 →
           Py.lower k ∉ (Py.lower <$> d2.*1) →
           mapping !! Py.lower k = Some v)
      ∧ (∀ k, k ∉ (Py.lower <$> d.*1) →
           mapping !! k = Normalizer.DEFAULT_KBBI_MAP !! k).
Proof.
  intros d _. eexists. split; [apply effective_map_dict|]. split.
  - intros d1 k v d2 -> Hk. by apply fold_insert_last.
  - intros k Hk. by apply fold_insert_other.
Qed.

Lemma custom_map_overrides_defaults_witness :
  ∃ mapping,
    Normalizer.effective_map
      (Some (JObj [("Udah", JStr "telah"); ("GA", JStr "tidak")]))
    = Ok mapping
    ∧ mapping !! "udah" = Some (JStr "telah")
    ∧ mapping !! "ga" = Some (JStr "tidak").
Proof.
  destruct (custom_map_overrides_defaults
              [("Udah", JStr "telah"); ("GA", JStr "tidak")] eq_refl)
    as (mapping & Hmap & Hin & _).
  exists mapping. split; [done|]. split.
  - apply (Hin [] "Udah" (JStr "telah") [("GA", JStr "tidak")] eq_refl).
    cbn. rewrite list_elem_of_singleton. by vm_compute.
  - apply (Hin [("Udah", JStr "telah")] "GA" (JStr "tidak") [] eq_refl).
    apply not_elem_of_nil.
Defined.
(** *** A token within a text *)

Section TokenInText.
Import Normalizer NormalizerSpec TextSpec.

Lemma in_class_word c : in_class c = false → is_word_c c = false.
Proof. unfold in_class. by intros [[-> _]%orb_false_elim _]%orb_false_elim. Qed.

Lemma sall_last c r :
  Py.sall in_class (String c r) = true → in_class (last_c c r) = true.
Proof.
  revert c. induction r as [|d r IH]; intros c; cbn.
  - by intros [-> _]%andb_true_iff.
  - intros [_ H]%andb_true_iff. by apply IH.
Qed.

Lemma ends_outside_tail c r : ends_outside (String c r) = true → ends_outside r = true.
Proof. by destruct r. Qed.

Lemma ends_outside_sall c r :
  ends_outside (String c r) = true → in_class c = true →
  Py.sall in_class r = false.
Proof.
  intros Hout Hc. destruct (Py.sall in_class r) eqn:E; [|done].
  assert (H : Py.sall in_class (String c r) = true) by (cbn; by rewrite Hc, E).
  apply sall_last in H. cbn in Hout. by rewrite H in Hout.
Qed.

Lemma match_end_app c s rest :
  Py.sall in_class s = false →
  match_end c (s +:+ rest)
  = (λ tr : string * string, (tr.1, tr.2 +:+ rest)) <$> match_end c s.
Proof.
  revert c. induction s as [|d r IH]; intros c Hs; [done|].
  rewrite app_cons. cbn [match_end]. cbn in Hs.
  destruct (in_class d) eqn:Hd.
  - rewrite IH by done.
    destruct (match_end d r) as [[tok rest']|]; cbn; [done|].
    by destruct (boundary (Some c) (Some d)).
  - by destruct (boundary (Some c) (Some d)).
Qed.

Lemma match_at_app prev pre rest :
  ends_outside pre = true → pre ≠ EmptyString →
  match_at prev (pre +:+ rest)
  = (λ tr : string * string, (tr.1, tr.2 +:+ rest)) <$> match_at prev pre.
Proof.
  destruct pre as [|c r]; [done|]. intros Hout _.
  rewrite app_cons. cbn [match_at].
  destruct (boundary prev (Some c) && in_class c) eqn:E; [|done].
  apply andb_true_iff in E as [_ Hc].
  rewrite match_end_app by (by apply (ends_outside_sall c)).
  by destruct (match_end c r) as [[tok rest']|].
Qed.

Lemma last_of_cons prev c r : last_of prev (String c r) = last_of (Some c) r.
Proof. by destruct r. Qed.

Lemma bind_ok {A} (x : result A) : (x ≫= Ok) = x.
Proof. by destruct x. Qed.

(** The substitution on a text that ends outside the class does not
    depend on what follows the text. *)
Lemma sub_from_app f rest :
  ∀ pre skip prev,
    ends_outside pre = true → (skip ≤ String.length pre)%nat →
    sub_from f skip prev (pre +:+ rest)
    = (a ← sub_from f skip prev pre;
       b ← sub_from f 0 (last_of prev pre) rest;
       Ok (a ++ b)).
Proof.
  induction pre as [|c r IH]; intros skip prev Hout Hskip.
  - cbn in Hskip. assert (skip = 0%nat) as -> by lia.
    rewrite app_nil_l'. cbn. by rewrite bind_ok.
  - pose proof (ends_outside_tail c r Hout) as Hr.
    rewrite app_cons, last_of_cons. cbn [String.length] in Hskip.
    destruct skip as [|k].
    + cbn [sub_from]. rewrite <- app_cons, match_at_app by done.
      destruct (match_at prev (String c r)) as [[tok rest1]|] eqn:E;
        cbn [fmap option_fmap option_map fst snd].
      * destruct (match_at_split _ _ _ _ _ E) as (tok' & -> & Hsplit).
        cbn [String.length Nat.sub]. rewrite Nat.sub_0_r.
        rewrite IH; [|done|].
        -- destruct (f (String c tok')) as [out|e]; [|done]. cbn.
           destruct (sub_from f (String.length tok') (Some c) r) as [a|e];
             [|done]. cbn.
           destruct (sub_from f 0 (last_of (Some c) r) rest) as [b|e];
             [|done]. cbn. by destruct out.
        -- rewrite Hsplit, length_app'. lia.
      * rewrite IH by (done || lia).
        destruct (sub_from f 0 (Some c) r) as [a|e]; [|done]. cbn.
        by destruct (sub_from f 0 (last_of (Some c) r) rest) as [b|e].
    + cbn [sub_from]. apply IH; [done|lia].
Qed.

(** Before a text that starts outside the class, the character before
    does not matter. *)
Lemma sub_from_starts_outside f prev prev' s :
  starts_outside s = true → sub_from f 0 prev s = sub_from f 0 prev' s.
Proof.
  destruct s as [|d p]; [done|]. cbn. intros Hd%negb_true_iff.
  by rewrite Hd, !andb_false_r.
Qed.

Lemma match_end_token_before c r post :
  Py.sall in_class r = true →
  is_word_c (last_c c r) = true →
  starts_outside post = true →
  match_end c (r +:+ post) = Some (r, post).
Proof.
  revert c. induction r as [|d r IH]; intros c Hall Hlast Hpost.
  - rewrite app_nil_l'. cbn in Hlast. destruct post as [|e p]; cbn.
    + unfold boundary. cbn. by rewrite Hlast.
    + cbn in Hpost. apply negb_true_iff in Hpost. rewrite Hpost.
      unfold boundary. cbn. by rewrite Hlast, (in_class_word e Hpost).
  - rewrite app_cons. cbn in Hall |- *.
    apply andb_true_iff in Hall as [Hd Hall].
    by rewrite Hd, (IH d Hall Hlast Hpost).
Qed.

(** A token between two such texts is handed to [repl] whole. *)
Lemma sub_from_token f prev w post :
  is_token w = true →
  match prev with Some c => is_word_c c | None => false end = false →
  starts_outside post = true →
  sub_from f 0 prev (w +:+ post)
  = (out ← f w;
     tl ← sub_from f 0 None post;
     Ok (match out with JNull => tl | _ => out :: tl end)).
Proof.
  intros Hw Hprev Hpost. destruct w as [|c r]; [done|].
  cbn in Hw. apply andb_true_iff in Hw as [Hw Hlast].
  apply andb_true_iff in Hw as [Hc Hall].
  rewrite app_cons. cbn [sub_from match_at].
  assert (Hb : boundary prev (Some c) = true).
  { unfold boundary, is_word_o. cbn. rewrite Hc. by destruct prev; rewrite ?Hprev. }
  rewrite Hb, (is_word_in_class c Hc). cbn [andb].
  rewrite (match_end_token_before c r post Hall Hlast Hpost).
  cbn [String.length Nat.sub]. rewrite Nat.sub_0_r, sub_from_skip.
  by rewrite (sub_from_starts_outside f _ None post Hpost).
Qed.

Lemma join_list_app a b :
  join_list (a ++ b) = (x ← join_list a; y ← join_list b; Ok (x +:+ y)).
Proof.
  induction a as [|v a IH].
  - cbn. by destruct (join_list b).
  - destruct v; try done. cbn. rewrite IH.
    destruct (join_list a) as [x|]; [|done]. cbn.
    destruct (join_list b) as [y|]; [|done]. cbn. by rewrite app_assoc'.
Qed.

Lemma last_of_outside pre :
  ends_outside pre = true →
  match last_of None pre with Some c => is_word_c c | None => false end = false.
Proof.
  destruct pre as [|c r]; [done|]. cbn. intros H%negb_true_iff.
  by apply in_class_word.
Qed.

Lemma re_sub_inv f text out :
  re_sub f text = Ok out →
  ∃ items, sub_from f 0 None text = Ok items ∧ join_list items = Ok out.
Proof.
  unfold re_sub. destruct (sub_from f 0 None text) as [items|]; [|done].
  cbn. by eexists.
Qed.

(** The substitution on a token between two texts: the substitution on
    the first, what [repl] gives for the token, the substitution on the
    second. *)
Lemma re_sub_token_in_text f pre w post out_pre out out_post :
  ends_outside pre = true → is_token w = true → starts_outside post = true →
  re_sub f pre = Ok out_pre →
  f w = Ok (JStr out) →
  re_sub f post = Ok out_post →
  re_sub f (pre +:+ w +:+ post) = Ok (out_pre +:+ out +:+ out_post).
Proof.
  intros Hpre Hw Hpost (a & Ha & Hja)%re_sub_inv Hf (b & Hb & Hjb)%re_sub_inv.
  unfold re_sub. rewrite sub_from_app by (done || lia). rewrite Ha. cbn.
  rewrite sub_from_token; [|done|by apply last_of_outside|done].
  rewrite Hf, Hb. cbn. rewrite join_list_app, Hja. cbn. by rewrite Hjb.
Qed.

End TokenInText.

(** C7 (the code against the claim).  In an ASCII text, a token that
    stands between characters outside the pattern's class and whose
    lower-cased form is in the effective map with the canonical form
    [dst] is replaced where it stands, the text around it being
    normalized on its own; the replacement is [dst.upper()] when the token
    is fully upper-case, [dst.capitalize()] when [str.istitle] holds for
    the token, and [dst] as stored otherwise.  For a token made of letters
    only this is the rule of the claim, and "UDAH", "Udah" and "udah"
    become "SUDAH", "Sudah" and "sudah".  For a token with a hyphen or an
    apostrophe it is not: "Temen-temen", first letter capitalized and the
    rest lower, is replaced by the stored form without its capital, and
    "Temen-Temen", which is not in that title case, is replaced by the
    capitalized form. *)
Theorem C7_casing_follows_token :
  (∀ (custom_map : option json) (mapping : gmap string json)
     (pre w post dst out_pre out_post : string),
     Normalizer.effective_map custom_map = Ok mapping →
     NormalizerSpec.ascii_keys custom_map = true →
     Py.ascii_only pre = true → Py.ascii_only post = true →
     Py.ascii_only dst = true →
     NormalizerSpec.ends_outside pre = true →
     NormalizerSpec.is_token w = true →
     NormalizerSpec.starts_outside post = true →
     mapping !! Py.lower w = Some (JStr dst) →
     Normalizer.normalize_indonesian pre custom_map = Ok out_pre →
     Normalizer.normalize_indonesian post custom_map = Ok out_post →
     Normalizer.normalize_indonesian (pre +:+ w +:+ post) custom_map
     = Ok (out_pre +:+ NormalizerSpec.code_casing w dst +:+ out_post))
  ∧ (∀ w dst : string,
       NormalizerSpec.letters_only w = true →
       NormalizerSpec.code_casing w dst = NormalizerSpec.spec_casing w dst)
  ∧ Normalizer.normalize_indonesian "UDAH" None = Ok "SUDAH"
  ∧ Normalizer.normalize_indonesian "Udah" None = Ok "Sudah"
  ∧ Normalizer.normalize_indonesian "udah" None = Ok "sudah"
  ∧ (Normalizer.normalize_indonesian "Temen-temen" Examples.temen_map
     = Ok "teman-teman"
     ∧ NormalizerSpec.spec_casing "Temen-temen" "teman-teman" = "Teman-teman")
  ∧ (Normalizer.normalize_indonesian "Temen-Temen" Examples.temen_map
     = Ok "Teman-teman"
     ∧ NormalizerSpec.spec_casing "Temen-Temen" "teman-teman" = "teman-teman").
Proof.
  split; [|split; [|by vm_compute]].
  - intros cm mapping pre w post dst out_pre out_post Hmap _ _ _ _ Hpre Hw
      Hpost Hlook Hnpre Hnpost.
    unfold Normalizer.normalize_indonesian in *. rewrite Hmap in *. cbn in *.
    apply re_sub_token_in_text; try done.
    unfold Normalizer.repl. rewrite Hlook.
    unfold Normalizer._match_casing, NormalizerSpec.code_casing.
    by destruct (Py.isupper w), (Py.istitle w).
  - intros w dst Hw. unfold NormalizerSpec.code_casing, NormalizerSpec.spec_casing.
    by rewrite (istitle_letters w Hw).
Qed.

Lemma C7_casing_follows_token_witness :
  Normalizer.normalize_indonesian "Wah, Udah-Udah ya!"
    (Some (JObj [("UDAH-udah", JStr "sudah-sudah")]))
  = Ok "Wah, Sudah-sudah ya!".
Proof.
  exact (proj1 C7_casing_follows_token
           (Some (JObj [("UDAH-udah", JStr "sudah-sudah")]))
           (<["udah-udah" := JStr "sudah-sudah"]> Normalizer.DEFAULT_KBBI_MAP)
           "Wah, " "Udah-Udah" " ya!" "sudah-sudah" "Wah, " " ya!"
           eq_refl eq_refl eq_refl eq_refl eq_refl eq_refl eq_refl eq_refl
           eq_refl eq_refl eq_refl).
Defined.
(** ** Persona learner: the profiles it stores *)

Section PersonaMore.
Import Pandas Gateway PersonaLearner LearnerSpec StoreSpec.

Lemma validate_Ok d p :
  validate d = Ok p →
  Dict.get "character_id" d = Some (JStr (character_id p))
  ∧ Dict.get "target_lang" d = Some (JStr (target_lang p))
  ∧ target_lang_ok (target_lang p) = true.
Proof.
  unfold validate, field_str.
  destruct (Dict.get "character_id" d) as [[| | | |cid| |]|]; cbn; try done.
  destruct (Dict.get "target_lang" d) as [[| | | |tl| |]|]; cbn; try done.
  destruct (target_lang_ok tl) eqn:Htl; cbn; [|done].
  destruct (Dict.get "tone" d) as [[| | | |tn| |]|]; cbn; try done.
  destruct (field_list_str d "quirks"); cbn; [|done].
  destruct (field_opt_str d "pronouns"); cbn; [|done].
  destruct (field_opt_str d "formality"); cbn; [|done].
  destruct (field_opt_str d "punctuation_habits"); cbn; [|done].
  destruct (field_list_str d "lexical_preferences"); cbn; [|done].
  destruct (field_list_str d "style_rules_en"); cbn; [|done].
  destruct (field_list_str d "style_rules_id"); cbn; [|done].
  destruct (field_opt_str d "notes"); cbn; [|done].
  by intros [= <-].
Qed.

Lemma all_str_fmap l : all_str (JStr <$> l) = Ok l.
Proof.
  unfold all_str. induction l as [|s l IH]; cbn; [done|].
  rewrite IH. done.
Qed.

(** The constructor accepts what [model_dump] gives, and builds the same
    profile. *)
Lemma validate_model_dump p d :
  model_dump p = JObj d →
  validate d = if target_lang_ok (target_lang p) then Ok p
               else Raise ValidationError.
Proof.
  intros [= <-]. destruct p as [cid tl tn qs pr fo pu lp se si nt].
  unfold validate, field_str, field_list_str, field_opt_str, dump_list.
  cbn -[all_str]. destruct (target_lang_ok tl); cbn -[all_str]; [|done].
  rewrite !all_str_fmap. by destruct pr, fo, pu, nt.
Qed.

(** What the response handling yields is the dump of a profile that carries
    the identifier of the group and the language of the call. *)
Lemma parse_profile_Ok raw k tl v :
  parse_profile raw k tl = Ok v →
  ∃ p, v = model_dump p ∧ character_id p = k ∧ target_lang p = tl
       ∧ target_lang_ok tl = true.
Proof.
  unfold parse_profile.
  destruct (Json.loads _) as [obj|]; cbn; [|done].
  destruct obj as [| | | | | |d0]; cbn; try done.
  destruct (validate _) as [p|] eqn:Hv; cbn; [|done].
  intros [= <-]. exists p.
  apply validate_Ok in Hv as (Hc & Ht & Hok).
  rewrite dict_get_set_eq in Ht.
  rewrite dict_get_set_ne, dict_get_set_eq in Hc by done.
  injection Hc as Hc. injection Ht as Ht.
  rewrite <- Ht in Hok. by rewrite <- Ht, <- Hc at 1.
Qed.

Lemma handle_response_Ok raw k tl v :
  handle_response raw k tl = Ok v →
  ∃ p, v = model_dump p ∧ character_id p = k ∧ target_lang p = tl
       ∧ target_lang_ok tl = true.
Proof.
  unfold handle_response, try_except.
  destruct (parse_profile raw k tl) as [v'|e] eqn:Hp.
  - intros [= <-]. by apply parse_profile_Ok in Hp.
  - rewrite fallback_profile_eq.
    destruct (target_lang_ok tl) eqn:Htl; [|done].
    intros [= <-]. by exists (fallback_record k tl).
Qed.

End PersonaMore.

(** X4.  Whatever the gateway answered, a profile the response handling
    yields carries the identifier of its group and the language code of
    the run: the two fields are forced before validation, so the answer
    cannot rename the character or change the language; and it is the
    dump of a validated profile, with the eleven fields of the schema. *)
Theorem stored_profile_keeps_identity :
  ∀ (raw character_id target_lang : string) (v : json),
    PersonaLearner.handle_response raw character_id target_lang = Ok v →
    ∃ p d,
      v = PersonaLearner.model_dump p
      ∧ v = JObj d
      ∧ Dict.get "character_id" d = Some (JStr character_id)
      ∧ Dict.get "target_lang" d = Some (JStr target_lang)
      ∧ Dict.keys d
        = [ "character_id"; "target_lang"; "tone"; "quirks"; "pronouns";
            "formality"; "punctuation_habits"; "lexical_preferences";
            "style_rules_en"; "style_rules_id"; "notes" ].
Proof.
  intros raw k tl v Hv.
  destruct (handle_response_Ok raw k tl v Hv) as (p & -> & <- & <- & _).
  exists p. eexists. by split_and!.
Qed.

Lemma stored_profile_keeps_identity_witness :
  ∃ p d,
    JObj [ ("character_id", JStr "Paimon"); ("target_lang", JStr "id");
           ("tone", JStr "calm"); ("quirks", JArr []); ("pronouns", JNull);
           ("formality", JNull); ("punctuation_habits", JNull);
           ("lexical_preferences", JArr []); ("style_rules_en", JArr []);
           ("style_rules_id", JArr []); ("notes", JNull) ]
    = PersonaLearner.model_dump p
    ∧ JObj [ ("character_id", JStr "Paimon"); ("target_lang", JStr "id");
             ("tone", JStr "calm"); ("quirks", JArr []); ("pronouns", JNull);
             ("formality", JNull); ("punctuation_habits", JNull);
             ("lexical_preferences", JArr []); ("style_rules_en", JArr []);
             ("style_rules_id", JArr []); ("notes", JNull) ]
      = JObj d
    ∧ Dict.get "character_id" d = Some (JStr "Paimon")
    ∧ Dict.get "target_lang" d = Some (JStr "id")
    ∧ Dict.keys d
      = [ "character_id"; "target_lang"; "tone"; "quirks"; "pronouns";
          "formality"; "punctuation_habits"; "lexical_preferences";
          "style_rules_en"; "style_rules_id"; "notes" ].
Proof.
  apply (stored_profile_keeps_identity MoreExamples.renaming_reply "Paimon" "id").
  by vm_compute.
Defined.

(** X5.  Validation and dump are inverse to each other on profiles: a
    dumped profile is accepted by the constructor exactly when its
    language code is "en" or "id", and is then rebuilt as it was; so every
    profile that was validated once validates again after [model_dump]. *)
Theorem dumped_profile_validates :
  (∀ (p : PersonaLearner.PersonaProfile) (d : list (string * json)),
     PersonaLearner.model_dump p = JObj d →
     PersonaLearner.validate d
     = if PersonaLearner.target_lang_ok (PersonaLearner.target_lang p)
       then Ok p else Raise ValidationError)
  ∧ (∀ (d : list (string * json)) (p : PersonaLearner.PersonaProfile),
       PersonaLearner.validate d = Ok p →
       ∃ d', PersonaLearner.model_dump p = JObj d'
             ∧ PersonaLearner.validate d' = Ok p).
Proof.
  split.
  - apply validate_model_dump.
  - intros d p Hv. apply validate_Ok in Hv as (_ & _ & Hok).
    eexists. split; [done|].
    by rewrite (validate_model_dump p _ eq_refl), Hok.
Qed.

Lemma dumped_profile_validates_witness :
  PersonaLearner.validate
    [ ("character_id", JStr "Paimon"); ("target_lang", JStr "id");
      ("tone", JStr "neutral"); ("quirks", JArr []); ("pronouns", JNull);
      ("formality", JNull); ("punctuation_habits", JNull);
      ("lexical_preferences", JArr []); ("style_rules_en", JArr []);
      ("style_rules_id", JArr []); ("notes", JNull) ]
  = Ok (LearnerSpec.fallback_record "Paimon" "id").
Proof.
  exact (proj1 dumped_profile_validates
           (LearnerSpec.fallback_record "Paimon" "id") _ eq_refl).
Defined.
(** ** Persona learner: the text that is parsed *)

Section ResponseText.
Import PersonaLearner LearnerSpec.

Lemma find_c_bounds c s :
  -1 ≤ Py.find_c c s < Z.of_nat (String.length s) ∨ (Py.find_c c s = -1).
Proof.
  induction s as [|d s IH]; cbn; [by right|].
  destruct (Ascii.eqb c d); [left; lia|].
  destruct (Py.find_c c s <? 0) eqn:E; [by right|].
  apply Z.ltb_ge in E. left. lia.
Qed.

Lemma rfind_c_bounds c s :
  -1 ≤ Py.rfind_c c s < Z.of_nat (String.length s) ∨ Py.rfind_c c s = -1.
Proof.
  induction s as [|d s IH]; cbn; [by right|].
  destruct (0 <=? Py.rfind_c c s) eqn:E.
  - apply Z.leb_le in E. left. lia.
  - destruct (Ascii.eqb c d); [left; lia|by right].
Qed.

Lemma find_c_app_absent c a b :
  Py.find_c c a = -1 →
  Py.find_c c (a +:+ String c b) = Z.of_nat (String.length a).
Proof.
  induction a as [|d a IH]; rewrite ?app_nil_l', ?app_cons; cbn.
  - by rewrite Ascii.eqb_refl.
  - destruct (Ascii.eqb c d); [done|].
    destruct (Py.find_c c a <? 0) eqn:E.
    + intros _. apply Z.ltb_lt in E.
      assert (Ha : Py.find_c c a = -1).
      { destruct (find_c_bounds c a); lia. }
      rewrite (IH Ha).
      destruct (Z.of_nat (String.length a) <? 0) eqn:E'; [|lia].
      apply Z.ltb_lt in E'. lia.
    + apply Z.ltb_ge in E. lia.
Qed.

Lemma rfind_c_app_absent c a b :
  Py.rfind_c c b = -1 → Py.rfind_c c (a +:+ b) = Py.rfind_c c a.
Proof.
  intros Hb. induction a as [|d a IH]; [done|].
  rewrite app_cons. cbn. by rewrite IH.
Qed.

Lemma rfind_c_last c a :
  Py.rfind_c c (a +:+ String c EmptyString) = Z.of_nat (String.length a).
Proof.
  induction a as [|d a IH]; rewrite ?app_nil_l', ?app_cons; cbn.
  - by rewrite Ascii.eqb_refl.
  - rewrite IH.
    destruct (0 <=? Z.of_nat (String.length a)) eqn:E; [lia|].
    apply Z.leb_gt in E. lia.
Qed.

Lemma substring_all s : String.substring 0 (String.length s) s = s.
Proof. induction s as [|c s IH]; cbn; [done|]. by rewrite IH. Qed.

Lemma substring_prefix b c :
  String.substring 0 (String.length b) (b +:+ c) = b.
Proof.
  induction b as [|d b IH]; rewrite ?app_nil_l', ?app_cons; cbn.
  - by destruct c.
  - by rewrite IH.
Qed.

Lemma substring_middle a b c :
  String.substring (String.length a) (String.length b) (a +:+ b +:+ c) = b.
Proof.
  induction a as [|d a IH]; rewrite ?app_nil_l', ?app_cons; cbn;
    [apply substring_prefix|done].
Qed.

Lemma substr_middle a b c :
  Py.substr (a +:+ b +:+ c) (Z.of_nat (String.length a))
    (Z.of_nat (String.length a) + Z.of_nat (String.length b)) = b.
Proof.
  unfold Py.substr, Py.clamp_index. rewrite !length_app'.
  set (la := String.length a). set (lb := String.length b).
  set (lc := String.length c).
  destruct (Z.of_nat la <? 0) eqn:E1; [apply Z.ltb_lt in E1; lia|].
  destruct (Z.of_nat la + Z.of_nat lb <? 0) eqn:E2; [apply Z.ltb_lt in E2; lia|].
  replace (Z.to_nat (Z.max 0 (Z.min (Z.of_nat (la + (lb + lc))) (Z.of_nat la))))
    with la by lia.
  replace (Z.to_nat (_ - _)) with lb by lia.
  apply substring_middle.
Qed.

(** The text the response handling parses when an object in braces stands
    between a text without opening brace and a text without closing
    brace: the object. *)
Lemma braces_found pre inner post :
  Py.find_c "{" pre = -1 →
  Py.rfind_c "}" post = -1 →
  let body := "{" +:+ inner +:+ "}" in
  let raw := pre +:+ body +:+ post in
  Py.substr raw (Py.find_c "{" raw) (Py.rfind_c "}" raw + 1) = body.
Proof.
  intros Hpre Hpost body raw.
  assert (Hstart : Py.find_c "{" raw = Z.of_nat (String.length pre)).
  { unfold raw, body. rewrite app_cons. by apply find_c_app_absent. }
  assert (Hstop : Py.rfind_c "}" raw + 1
                  = Z.of_nat (String.length pre) + Z.of_nat (String.length body)).
  { unfold raw, body.
    replace (pre +:+ ("{" +:+ inner +:+ "}") +:+ post)
      with (((pre +:+ "{" +:+ inner) +:+ "}") +:+ post).
    2:{ by rewrite !app_assoc'. }
    rewrite rfind_c_app_absent by done. rewrite rfind_c_last.
    rewrite !length_app'. cbn. lia. }
  rewrite Hstart, Hstop. apply substr_middle.
Qed.

(** Without an opening brace the slice starts at index -1: it is empty or
    the closing brace that ends the response. *)
Lemma substring_last c s :
  Py.rfind_c c s = Z.of_nat (String.length s) - 1 →
  (0 < String.length s)%nat →
  String.substring (String.length s - 1) 1 s = String c EmptyString.
Proof.
  induction s as [|d s IH]; [cbn; lia|].
  intros Hr _. destruct s as [|e s].
  - cbn in Hr |- *. destruct (Ascii.eqb c d) eqn:E; [|lia].
    by apply Ascii.eqb_eq in E as ->.
  - change (Py.rfind_c c (String d (String e s)))
      with (let i := Py.rfind_c c (String e s) in
            if 0 <=? i then 1 + i else if Ascii.eqb c d then 0 else -1) in Hr.
    cbn zeta in Hr. cbn [String.length] in Hr, IH |- *.
    replace (S (S (String.length s)) - 1)%nat with (S (String.length s)) by lia.
    change (String.substring (S ?n) 1 (String d ?t))
      with (String.substring n 1 t).
    replace (String.length s) with (S (String.length s) - 1)%nat at 1 by lia.
    apply IH; [|lia].
    destruct (0 <=? Py.rfind_c c (String e s)); [lia|].
    destruct (Ascii.eqb c d); lia.
Qed.

Lemma no_opening_brace_slice raw :
  Py.find_c "{" raw = -1 →
  let text := Py.substr raw (Py.find_c "{" raw) (Py.rfind_c "}" raw + 1) in
  text = "" ∨ text = "}".
Proof.
  intros Hstart text. unfold text. rewrite Hstart.
  unfold Py.substr, Py.clamp_index. cbn [Z.ltb Z.compare].
  set (len := String.length raw).
  assert (Hempty : ∀ n, String.substring n 0 raw = "").
  { clear. induction raw as [|c s IH]; intros [|n]; cbn; try done. }
  destruct (Py.rfind_c "}" raw + 1 <? 0) eqn:E.
  { apply Z.ltb_lt in E. destruct (rfind_c_bounds "}" raw); lia. }
  destruct (decide (0 ≤ Py.rfind_c "}" raw
                    ∧ Py.rfind_c "}" raw = Z.of_nat len - 1)) as [[Hpos Hlast]|Hne].
  - right.
    replace (Z.to_nat (Z.max 0 (Z.min (Z.of_nat len) (-1 + Z.of_nat len))))
      with (len - 1)%nat by lia.
    replace (Z.to_nat (_ - _)) with 1%nat by lia.
    apply substring_last; [done|lia].
  - left. replace (Z.to_nat (_ - _)) with 0%nat; [apply Hempty|].
    pose proof (rfind_c_bounds "}" raw) as Hb. fold len in Hb. lia.
Qed.

End ResponseText.

(** X6.  Text around the object is ignored: when the answer holds an
    object in braces after a text without opening brace and before a text
    without closing brace (a sentence, a Markdown fence), the response
    handling yields what it yields for the object alone. *)
Theorem response_wrapping_is_ignored :
  ∀ (pre inner post character_id target_lang : string),
    Py.find_c "{" pre = -1 →
    Py.rfind_c "}" post = -1 →
    let body := "{" +:+ inner +:+ "}" in
    PersonaLearner.handle_response (pre +:+ body +:+ post)
      character_id target_lang
    = PersonaLearner.handle_response body character_id target_lang.
Proof.
  intros pre inner post k tl Hpre Hpost body.
  pose proof (braces_found pre inner post Hpre Hpost) as Hraw.
  pose proof (braces_found "" inner "" eq_refl eq_refl) as Hbody.
  cbn zeta in Hraw, Hbody. rewrite append_empty_r, app_nil_l' in Hbody.
  fold body in Hraw, Hbody.
  unfold PersonaLearner.handle_response, PersonaLearner.parse_profile.
  by rewrite Hraw, Hbody.
Qed.

Lemma response_wrapping_is_ignored_witness :
  PersonaLearner.handle_response
    ("Here you go: " +:+ ("{" +:+ MoreExamples.tone_member +:+ "}")
     +:+ " Hope it helps.") "Paimon" "id"
  = PersonaLearner.handle_response
      ("{" +:+ MoreExamples.tone_member +:+ "}") "Paimon" "id".
Proof.
  exact (response_wrapping_is_ignored "Here you go: " MoreExamples.tone_member
           " Hope it helps." "Paimon" "id" eq_refl eq_refl).
Defined.

(** X7.  An answer without an opening brace never yields a profile of its
    own, even when it is valid JSON: [find] returns -1, the slice taken
    from index -1 is empty or a lone closing brace, and the entry is the
    fallback profile (or, outside {"en", "id"}, the validation error of
    the fallback). *)
Theorem response_without_brace_is_fallback :
  ∀ (raw character_id target_lang : string),
    Py.find_c "{" raw = -1 →
    PersonaLearner.handle_response raw character_id target_lang
    = PersonaLearner.fallback_profile character_id target_lang.
Proof.
  intros raw k tl Hstart.
  unfold PersonaLearner.handle_response, PersonaLearner.parse_profile.
  by destruct (no_opening_brace_slice raw Hstart) as [-> | ->].
Qed.

Lemma response_without_brace_is_fallback_witness :
  PersonaLearner.handle_response "[1, 2]}" "Paimon" "id"
  = PersonaLearner.fallback_profile "Paimon" "id".
Proof.
  exact (response_without_brace_is_fallback "[1, 2]}" "Paimon" "id" eq_refl).
Defined.
(** ** Persona learner: what a run stores and what it costs *)

Section LearnerMore.
Import Pandas Gateway PersonaLearner LearnerSpec StoreSpec.
Context {W : Type}.
Variable llm_call : llm W.
Variable schema_json : string.

Lemma dict_keys_set {V} (d : list (string * V)) k v :
  Dict.keys (Dict.set k v d)
  = if bool_decide (k ∈ Dict.keys d) then Dict.keys d else Dict.keys d ++ [k].
Proof.
  unfold Dict.keys. induction d as [|[k' v'] d IH]; cbn; [done|].
  destruct (String.eqb k k') eqn:E.
  - apply String.eqb_eq in E as ->. cbn.
    rewrite bool_decide_eq_true_2; [done|left].
  - apply String.eqb_neq in E. cbn. rewrite IH.
    destruct (bool_decide (k ∈ d.*1)) eqn:Hk.
    + apply bool_decide_eq_true in Hk.
      rewrite bool_decide_eq_true_2; [done|by right].
    + apply bool_decide_eq_false in Hk.
      rewrite bool_decide_eq_false_2; [done|].
      by intros [?|?]%elem_of_cons.
Qed.

Lemma dict_set_NoDup {V} (d : list (string * V)) k v :
  NoDup (Dict.keys d) → NoDup (Dict.keys (Dict.set k v d)).
Proof.
  intros Hnd. rewrite dict_keys_set.
  destruct (bool_decide (k ∈ Dict.keys d)) eqn:Hk; [done|].
  apply bool_decide_eq_false in Hk.
  apply NoDup_app. split_and!; [done| |apply NoDup_singleton].
  intros x Hx ->%list_elem_of_singleton. done.
Qed.

Lemma dict_set_forallb {V} (P : string * V → bool) (d : list (string * V)) k v :
  (∀ k' x, P (k', x) = true → P (k, x) = true) →
  forallb P d = true → P (k, v) = true → forallb P (Dict.set k v d) = true.
Proof.
  intros Hkey. induction d as [|[k' v'] d IH]; cbn; intros Hd Hv.
  - by rewrite Hv.
  - apply andb_true_iff in Hd as [H1 H2].
    destruct (String.eqb k k'); cbn.
    + by rewrite Hv, H2.
    + by rewrite H1, IH.
Qed.

Lemma dict_set_plain d k v :
  plain (JObj d) = true → plain v = true → plain (JObj (Dict.set k v d)) = true.
Proof.
  cbn. intros [Hnd Hall]%andb_true_iff Hv. apply andb_true_iff. split.
  - apply bool_decide_eq_true. apply dict_set_NoDup.
    by apply bool_decide_eq_true in Hnd.
  - by apply dict_set_forallb.
Qed.

(** The dictionary the loop builds holds dumps of profiles under distinct
    keys. *)
Lemma learn_groups_plain df cc tc tl n ks results st results' st' :
  plain (JObj results) = true →
  learn_groups llm_call schema_json df cc tc tl n ks results st
  = (Ok results', st') →
  plain (JObj results') = true.
Proof.
  revert results st. induction ks as [|k ks IH]; intros results st Hres.
  - cbn. by intros [= <- <-].
  - cbn [PersonaLearner.learn_groups].
    destruct (tgt_lines_of df cc tc n k) as [|l ls]; [by apply IH|].
    destruct (invoke _ _ _ _ _) as [[raw|e] st1]; [|done].
    destruct (handle_response raw k tl) as [v|e] eqn:Hv; [|done].
    apply IH. apply dict_set_plain; [done|].
    destruct (handle_response_Ok _ _ _ _ Hv) as (p & -> & _).
    apply model_dump_plain.
Qed.

Lemma learn_plain df cc sc tc tl n mc st results st' :
  learn_personas_from_csv llm_call schema_json df cc sc tc tl n mc st
  = (Ok results, st') →
  plain (JObj results) = true.
Proof.
  unfold learn_personas_from_csv.
  destruct (missing_columns df cc sc tc); [|done].
  by apply learn_groups_plain.
Qed.

(** One call at most for each key the loop is given. *)
Lemma learn_groups_calls df cc tc tl n ks results st res st' :
  learn_groups llm_call schema_json df cc tc tl n ks results st = (res, st') →
  (length (calls st') ≤ length (calls st) + length ks)%nat.
Proof.
  revert results st. induction ks as [|k ks IH]; intros results st.
  - cbn. intros [= <- <-]. lia.
  - cbn [PersonaLearner.learn_groups length].
    destruct (tgt_lines_of df cc tc n k) as [|l ls].
    { intros H%IH. lia. }
    destruct (invoke _ _ _ _ _) as [[raw|e] st1] eqn:Hinv.
    + apply invoke_calls in Hinv.
      destruct (handle_response raw k tl) as [v|e].
      * intros H%IH. rewrite Hinv, length_app in H. cbn in H. lia.
      * intros [= <- <-]. rewrite Hinv, length_app. cbn. lia.
    + apply invoke_calls in Hinv.
      intros [= <- <-]. rewrite Hinv, length_app. cbn. lia.
Qed.

Lemma length_remove_dups (l : list string) :
  (length (remove_dups l) ≤ length l)%nat.
Proof.
  induction l as [|x l IH]; cbn; [done|].
  destruct (decide_rel elem_of x l); cbn; lia.
Qed.

Lemma length_omap_le {A B} (f : A → option B) (l : list A) :
  (length (omap f l) ≤ length l)%nat.
Proof.
  induction l as [|x l IH]; cbn; [done|]. destruct (f x); cbn; lia.
Qed.

Lemma group_keys_length df col :
  (length (group_keys df col) ≤ length (rows df))%nat.
Proof.
  unfold group_keys. rewrite merge_sort_Permutation.
  etrans; [apply length_remove_dups|apply length_omap_le].
Qed.

Lemma slice_to_length {A} (l : list A) n :
  (length (Py.slice_to l n) ≤ length l)%nat.
Proof. unfold Py.slice_to. destruct (0 <=? n); rewrite length_take; lia. Qed.

Lemma limit_rows_length df mc :
  (length (rows (limit_rows df mc)) ≤ length (rows df))%nat.
Proof.
  destruct mc as [m|]; cbn; [|done].
  destruct (m =? 0); [done|]. apply slice_to_length.
Qed.

Lemma limit_rows_length_max df m :
  0 < m → (length (rows (limit_rows df (Some m))) ≤ Z.to_nat m)%nat.
Proof.
  intros Hm. cbn. destruct (m =? 0) eqn:E; [apply Z.eqb_eq in E; lia|].
  cbn. rewrite slice_to_nonneg by lia. rewrite length_take. lia.
Qed.

End LearnerMore.

(** X8.  What a run of the learner returns can be stored.  On a sheet
    whose character column is a column of texts, the mapping a run
    returns has distinct keys and holds no number; when none of its texts
    holds a lone surrogate, [save_personas] writes it and [load_personas]
    gives back the mapping that was returned; when one does (the gateway
    answered with an escaped lone surrogate), [save_personas] raises
    [UnicodeEncodeError].  So the file learn_personas.py writes holds the
    profiles it printed. *)
Theorem learned_profiles_reload :
  ∀ (W : Type) (llm_call : Gateway.llm W) (schema_json : string)
    (float_repr : pyfloat → string),
    (∀ df cc sc tc tl n mc st results st' path fs,
       LearnerSpec.text_keys df cc →
       PersonaLearner.learn_personas_from_csv llm_call schema_json df
         cc sc tc tl n mc st = (Ok results, st') →
       StoreSpec.plain (JObj results) = true
       ∧ (StoreSpec.encodable (JObj results) = true →
          ∃ fs',
            PersonaLearner.save_personas float_repr (JObj results) path fs
            = Ok fs'
            ∧ PersonaLearner.load_personas path fs' = Ok (JObj results))
       ∧ (StoreSpec.encodable (JObj results) = false →
          PersonaLearner.save_personas float_repr (JObj results) path fs
          = Raise UnicodeEncodeError))
    ∧ (∀ df st fs results st' fs',
         LearnerSpec.text_keys df "character_id" →
         Programs.learn_personas llm_call schema_json float_repr df st fs
         = (Ok (results, fs'), st') →
         PersonaLearner.load_personas "personas_learned_id.json" fs'
         = Ok (JObj results)).
Proof.
  intros W llm_call schema_json float_repr. split.
  - intros df cc sc tc tl n mc st results st' path fs _ Hrun.
    assert (Hplain : StoreSpec.plain (JObj results) = true)
      by by eapply learn_plain.
    split_and!; [done| |].
    + intros He. rewrite save_personas_plain, He by done.
      eexists. split; [done|].
      unfold PersonaLearner.load_personas. rewrite lookup_insert_eq.
      by apply loads_dumps.
    + intros He. by rewrite save_personas_plain, He.
  - intros df st fs results st' fs' _. unfold Programs.learn_personas.
    destruct (PersonaLearner.learn_personas_from_csv _ _ _ _ _ _ _ _ _ _)
      as [[results0|e] st0] eqn:Hrun; [|done].
    destruct (PersonaLearner.save_personas _ _ _ _) as [fs0|e] eqn:Hs; [|done].
    cbn. intros [= <- <- <-].
    eapply load_saved; [|done]. by eapply learn_plain.
Qed.

Lemma dialog_text_keys : LearnerSpec.text_keys Examples.dialog "character_id".
Proof.
  eexists _, "B". split_and!; [apply list_elem_of_here|done|done].
Qed.

Lemma learned_profiles_reload_witness :
  ∃ results st' fs',
    Programs.learn_personas Examples.chatty Examples.schema
      Examples.no_float_repr Examples.dialog Examples.start ∅
    = (Ok (results, fs'), st')
    ∧ PersonaLearner.load_personas "personas_learned_id.json" fs'
      = Ok (JObj results).
Proof.
  eexists _, _, _. split.
  - vm_compute. reflexivity.
  - eapply (proj2 (learned_profiles_reload nat Examples.chatty Examples.schema
                     Examples.no_float_repr) Examples.dialog Examples.start ∅).
    + exact dialog_text_keys.
    + vm_compute. reflexivity.
Defined.

(** X9.  A run of the learner calls the gateway at most once for each row
    of the sheet; with [max_chars] set to a positive number, at most that
    many times, since only the first [max_chars] rows are read. *)
Theorem learner_calls_are_bounded :
  ∀ (W : Type) (llm_call : Gateway.llm W) (schema_json : string)
    (df : Pandas.DataFrame) (cc sc tc tl : string) (n : Z) (mc : option Z)
    (st : Gateway.io W) (res : result (list (string * json)))
    (st' : Gateway.io W),
    PersonaLearner.learn_personas_from_csv llm_call schema_json df
      cc sc tc tl n mc st = (res, st') →
    (length (Gateway.calls st')
     ≤ length (Gateway.calls st) + length (Pandas.rows df))%nat
    ∧ ∀ m, mc = Some m → 0 < m →
        (length (Gateway.calls st')
         ≤ length (Gateway.calls st) + Z.to_nat m)%nat.
Proof.
  intros W llm_call schema_json df cc sc tc tl n mc st res st'.
  unfold PersonaLearner.learn_personas_from_csv.
  destruct (PersonaLearner.missing_columns df cc sc tc).
  - intros Hrun%learn_groups_calls.
    pose proof (group_keys_length (PersonaLearner.limit_rows df mc) cc) as Hk.
    split.
    + pose proof (limit_rows_length df mc). lia.
    + intros m -> Hm. pose proof (limit_rows_length_max df m Hm). lia.
  - intros [= <- <-]. split; [lia|]. intros; lia.
Qed.

Lemma learner_calls_are_bounded_witness :
  let run :=
    PersonaLearner.learn_personas_from_csv Examples.chatty Examples.schema
      Examples.dialog "character_id" "zh_cn" "id_id" "id" 30 (Some 1)
      Examples.start in
  (length (Gateway.calls run.2) ≤ 1)%nat.
Proof.
  exact (proj2 (learner_calls_are_bounded nat Examples.chatty Examples.schema
                  Examples.dialog "character_id" "zh_cn" "id_id" "id" 30
                  (Some 1) Examples.start _ _ (surjective_pairing _))
           1 eq_refl eq_refl).
Defined.
(** ** Translation filler: what a batch writes, calls and counts *)

Section FillerMore.
Import Pandas Gateway Filler FillerSpec SheetSpec.
Context {W : Type}.
Variable llm_call : llm W.
Variable py_str : json → string.

(** *** Cells outside the target column *)

Lemma same_outside_refl tgt d : same_outside tgt d d.
Proof. by split_and!. Qed.

Lemma same_outside_trans tgt d1 d2 d3 :
  same_outside tgt d1 d2 → same_outside tgt d2 d3 → same_outside tgt d1 d3.
Proof.
  intros (Hc1 & Hl1 & Hg1) (Hc2 & Hl2 & Hg2). split_and!; [congruence..|].
  intros i col Hcol. by rewrite Hg2, Hg1.
Qed.

Lemma at_col_set_ne (r : row) col col' v :
  col ≠ col' → at_col (Dict.set col' v r) col = at_col r col.
Proof. intros Hne. unfold at_col. by rewrite dict_get_set_ne. Qed.

Lemma same_outside_set_at tgt d i v : same_outside tgt d (set_at d i tgt v).
Proof.
  split_and!; [apply set_at_columns| |].
  - unfold set_at. cbn. destruct (rows d !! i); [apply length_insert|done].
  - intros j col Hcol. unfold get_at.
    destruct (decide (j = i)) as [->|Hne].
    + destruct (rows d !! i) as [r|] eqn:Hr.
      * rewrite (set_at_lookup_eq _ _ _ _ _ Hr). by apply at_col_set_ne.
      * destruct d as [cs rs]. unfold set_at, row in *. cbn [rows] in *. rewrite Hr. cbv iota. by rewrite Hr.
    + by rewrite set_at_lookup_ne.
Qed.

Lemma same_outside_assign tgt d v :
  length (rows (assign_column d tgt v)) = length (rows d)
  ∧ ∀ i col, col ≠ tgt → get_at (assign_column d tgt v) i col = get_at d i col.
Proof.
  split; [apply length_fmap|].
  intros i col Hcol. unfold get_at, assign_column. cbn [rows].
  rewrite list_lookup_fmap.
  destruct (_ !! i) as [r|]; cbn; [|done].
  by apply at_col_set_ne.
Qed.

Lemma loop_same_outside tgt
    (body : nat → row → state W → option exn * state W) todo st o st' :
  writes_only tgt body →
  for_each_row body todo st = (o, st') →
  same_outside tgt (df st) (df st').
Proof.
  intros Hbody. revert st. induction todo as [|[i r] todo IH]; intros st; cbn.
  - intros [= <- <-]. apply same_outside_refl.
  - destruct (body i r st) as [[e|] st1] eqn:Hrow.
    + intros [= <- <-]. destruct (Hbody _ _ _ _ _ Hrow) as [->|[v ->]];
        [apply same_outside_refl|apply same_outside_set_at].
    + intros Hloop%IH. eapply same_outside_trans; [|done].
      destruct (Hbody _ _ _ _ _ Hrow) as [->|[v ->]];
        [apply same_outside_refl|apply same_outside_set_at].
Qed.

Lemma cli_row_writes args persona cm total :
  writes_only (id_col args) (cli_row llm_call py_str args persona cm total).
Proof.
  intros i r st o st'. unfold cli_row.
  repeat (case_match; write_hyps; try (intros [= <- <-]; cbn; by eauto)).
Qed.

Lemma ui_row_writes args persona cm total :
  writes_only (test_tgt_col args) (ui_row llm_call py_str args persona cm total).
Proof.
  intros i r st o st'. unfold ui_row.
  repeat (case_match; write_hyps; try (intros [= <- <-]; cbn; by eauto)).
Qed.

(** *** Counting *)

Lemma count_errors_snoc evs ev :
  count_errors (evs ++ [ev])
  = (count_errors evs + if is_error ev then 1 else 0)%nat.
Proof.
  unfold count_errors. rewrite List.filter_app, length_app. cbn.
  by destruct (is_error ev).
Qed.

Lemma selected_b_tests src tgt ow r :
  selected_b src tgt ow r
  = negb (blank (text_of (at_col r src)))
    && negb (negb (blank (text_of (at_col r tgt))) && negb ow).
Proof. unfold selected_b. by destruct (blank _), (blank _), ow. Qed.

Lemma cli_row_account args persona cm total i r st o st' :
  cli_row llm_call py_str args persona cm total i r st = (o, st') →
  let s := one_if (selected_b (cn_col args) (id_col args) (overwrite args) r) in
  (length (calls (gw st')) ≤ length (calls (gw st)) + s)%nat
  ∧ (o = None →
     processed st' = S (processed st)
     ∧ length (calls (gw st')) = (length (calls (gw st)) + s)%nat
     ∧ (filled st' + count_errors (events st')
        = filled st + count_errors (events st) + s)%nat).
Proof.
  unfold cli_row. rewrite selected_b_tests.
  repeat (case_match; write_hyps;
    try (intros [= <- <-]; cbn -[count_errors];
         repeat match goal with
                | H : invoke _ _ _ _ _ = _ |- _ =>
                    apply invoke_split in H; cbn in H; rewrite H, length_app
                end;
         rewrite ?count_errors_snoc; cbn -[count_errors];
         solve [split; [lia|intros ?; first [done|split_and!; lia]]])).
Qed.

Lemma ui_row_account args persona cm total i r st o st' :
  ui_row llm_call py_str args persona cm total i r st = (o, st') →
  let s := one_if (selected_b (test_cn_col args) (test_tgt_col args)
                     (ui_overwrite args) r) in
  (length (calls (gw st')) ≤ length (calls (gw st)) + s)%nat
  ∧ (o = None →
     length (calls (gw st')) = (length (calls (gw st)) + s)%nat
     ∧ (filled st' + count_errors (events st')
        = filled st + count_errors (events st) + s)%nat).
Proof.
  unfold ui_row. rewrite selected_b_tests.
  repeat (case_match; write_hyps;
    try (intros [= <- <-]; cbn -[count_errors];
         repeat match goal with
                | H : invoke _ _ _ _ _ = _ |- _ =>
                    apply invoke_split in H; cbn in H; rewrite H, length_app
                end;
         rewrite ?count_errors_snoc; cbn -[count_errors];
         solve [split; [lia|intros ?; first [done|split_and!; lia]]])).
Qed.

Lemma count_selected_cons src tgt ow (ir : nat * row) todo :
  count_selected src tgt ow (ir :: todo)
  = (one_if (selected_b src tgt ow ir.2) + count_selected src tgt ow todo)%nat.
Proof. unfold count_selected. cbn. by destruct (selected_b _ _ _ _). Qed.

Lemma cli_rows_account args persona cm total todo st o st' :
  cli_rows llm_call py_str args persona cm total todo st = (o, st') →
  let n := count_selected (cn_col args) (id_col args) (overwrite args) todo in
  (length (calls (gw st')) ≤ length (calls (gw st)) + n)%nat
  ∧ (o = None →
     processed st' = (processed st + length todo)%nat
     ∧ length (calls (gw st')) = (length (calls (gw st)) + n)%nat
     ∧ (filled st' + count_errors (events st')
        = filled st + count_errors (events st) + n)%nat).
Proof.
  unfold cli_rows. revert st.
  induction todo as [|[i r] todo IH]; intros st; cbn [for_each_row].
  - intros [= <- <-]. cbn. split; [lia|]. intros _. split_and!; lia.
  - rewrite count_selected_cons. cbn [snd].
    destruct (cli_row _ _ _ _ _ _ _ _ _) as [[e|] st1] eqn:Hrow;
      apply cli_row_account in Hrow as [Hle Heq]; cbn zeta in *.
    + intros [= <- <-]. split; [lia|done].
    + destruct (Heq eq_refl) as (Hp & Hc & Hf).
      intros [Hle' Heq']%IH. cbn zeta in *. split; [lia|].
      intros ->. destruct (Heq' eq_refl) as (Hp' & Hc' & Hf').
      cbn [length]. split_and!; lia.
Qed.

Lemma ui_rows_account args persona cm total todo st o st' :
  ui_rows llm_call py_str args persona cm total todo st = (o, st') →
  let n := count_selected (test_cn_col args) (test_tgt_col args)
             (ui_overwrite args) todo in
  (length (calls (gw st')) ≤ length (calls (gw st)) + n)%nat
  ∧ (o = None →
     length (calls (gw st')) = (length (calls (gw st)) + n)%nat
     ∧ (filled st' + count_errors (events st')
        = filled st + count_errors (events st) + n)%nat).
Proof.
  unfold ui_rows. revert st.
  induction todo as [|[i r] todo IH]; intros st; cbn [for_each_row].
  - intros [= <- <-]. cbn. split; [lia|]. intros _. split_and!; lia.
  - rewrite count_selected_cons. cbn [snd].
    destruct (ui_row _ _ _ _ _ _ _ _ _) as [[e|] st1] eqn:Hrow;
      apply ui_row_account in Hrow as [Hle Heq]; cbn zeta in *.
    + intros [= <- <-]. split; [lia|done].
    + destruct (Heq eq_refl) as (Hc & Hf).
      intros [Hle' Heq']%IH. cbn zeta in *. split; [lia|].
      intros ->. destruct (Heq' eq_refl) as (Hc' & Hf').
      split_and!; lia.
Qed.

(** *** Checkpoints *)

Lemma checkpoint_counts_snoc evs ev :
  checkpoint_counts (evs ++ [ev])
  = checkpoint_counts evs
    ++ match ev with
       | CliAutosave _ filled => [filled]
       | _ => []
       end.
Proof.
  unfold checkpoint_counts. rewrite omap_app. cbn. by destruct ev.
Qed.

Lemma cli_row_checkpoint args persona cm total i r st o st' :
  cli_row llm_call py_str args persona cm total i r st = (o, st') →
  (filled st ≤ filled st')%nat
  ∧ checkpoint_counts (events st')
    = checkpoint_counts (events st)
      ++ List.filter (every (autosave_every args))
           (seq (S (filled st)) (filled st' - filled st)).
Proof.
  unfold cli_row.
  repeat (case_match; write_hyps;
    try (intros [= <- <-]; cbn -[checkpoint_counts every Nat.sub];
         rewrite ?checkpoint_counts_snoc;
         rewrite ?Nat.sub_diag;
         try replace (S (filled st) - filled st)%nat with 1%nat by lia;
         cbn -[checkpoint_counts every];
         repeat match goal with
                | H : every _ _ = _ |- _ =>
                    cbn -[every] in H; rewrite H; clear H
                end;
         rewrite ?app_nil_r; solve [split; [lia|done]])).
Qed.

Lemma cli_rows_checkpoint args persona cm total todo st o st' :
  cli_rows llm_call py_str args persona cm total todo st = (o, st') →
  (filled st ≤ filled st')%nat
  ∧ checkpoint_counts (events st')
    = checkpoint_counts (events st)
      ++ List.filter (every (autosave_every args))
           (seq (S (filled st)) (filled st' - filled st)).
Proof.
  unfold cli_rows. revert st.
  induction todo as [|[i r] todo IH]; intros st; cbn [for_each_row].
  - intros [= <- <-]. rewrite Nat.sub_diag. cbn. by rewrite app_nil_r.
  - destruct (cli_row _ _ _ _ _ _ _ _ _) as [[e|] st1] eqn:Hrow;
      apply cli_row_checkpoint in Hrow as [Hle Heq].
    + by intros [= <- <-].
    + intros [Hle' Heq']%IH. split; [lia|].
      rewrite Heq', Heq, <- app_assoc. f_equal.
      rewrite <- List.filter_app. f_equal.
      replace (filled st' - filled st)%nat
        with ((filled st1 - filled st) + (filled st' - filled st1))%nat by lia.
      rewrite seq_app. do 2 f_equal. lia.
Qed.

End FillerMore.
(** *** The claims about the filler *)

Section FillerClaims.
Import Pandas Gateway Filler FillerSpec.

Lemma cli_post_returns kbbi cm out :
  kbbi = false ∨ TextSpec.text_map cm = true →
  ∃ out', cli_post kbbi cm out = Ok out'.
Proof.
  unfold cli_post. intros [->|Hcm]; [by eexists|].
  destruct kbbi; [by apply normalize_text_map|by eexists].
Qed.











(** C8 (the code at the failing input).  The custom map file holds
    {"halo": 1} and the gateway returns "halo teman" for the first row: the
    normalizer raises [TypeError].  The handler of streamlit_app.py catches
    it and writes the text as the gateway returned it, as it does for
    every failure of the normalizer.  [main] of fill_translations.py does
    not: the exception leaves the loop, the row is not written and no
    output is saved. *)
Theorem C8_normalizer_failure_in_both_programs :
  Normalizer.normalize_indonesian "halo teman" Examples.bad_map = Raise TypeError
  ∧ (cli_main Examples.up_then_down Examples.no_repr (Examples.cli false true)
       (JObj []) Examples.bad_map Examples.sheet Examples.start).1
    = Raise TypeError
  ∧ df (cli_main Examples.up_then_down Examples.no_repr (Examples.cli false true)
          (JObj []) Examples.bad_map Examples.sheet Examples.start).2
    = Examples.sheet
  ∧ (ui_run Examples.up_then_down Examples.no_repr (Examples.ui false true)
       (JObj []) Examples.bad_map Examples.sheet Examples.start).1
    = Ok (set_at Examples.sheet 0 "id" (Val "halo teman"))
  ∧ (∀ custom_map out e,
       Normalizer.normalize_indonesian out custom_map = Raise e →
       ui_post true "id" custom_map out = out).
Proof.
  split_and!; try by vm_compute.
  intros custom_map out e He. unfold ui_post. cbn. by rewrite He.
Qed.

End FillerClaims.
(** *** The prompts of a profile *)

Section PromptFacts.
Import Pandas Gateway PersonaLearner Filler FillerSpec SheetSpec.
Variable py_str : json → string.

Lemma all_str_or_fmap e l : all_str_or e (JStr <$> l) = Ok l.
Proof. induction l as [|s l IH]; cbn; [done|]. by rewrite IH. Qed.

Lemma join_values_texts sep l :
  join_values sep (JStr <$> l) = Ok (Py.join sep l).
Proof. unfold join_values. by rewrite all_str_or_fmap. Qed.

Lemma filter_truthy_texts l :
  List.filter truthy (JStr <$> l)
  = JStr <$> List.filter (λ s, negb (String.eqb s "")) l.
Proof.
  induction l as [|s l IH]; cbn; [done|]. rewrite IH.
  by destruct (String.eqb s "").
Qed.

Lemma scalar_line_returns d k label :
  ∃ lines, scalar_line py_str (JObj d) k label = Ok lines.
Proof.
  unfold scalar_line. cbn. destruct (Dict.get k d) as [x|]; [|by eexists].
  destruct (truthy x); by eexists.
Qed.

Lemma list_line_returns d k label :
  (∀ x, Dict.get k d = Some x → ∃ l, x = dump_list l) →
  ∃ lines, list_line (JObj d) k label = Ok lines.
Proof.
  intros Hk. unfold list_line. cbn.
  destruct (Dict.get k d) as [x|]; [|by eexists].
  destruct (Hk x eq_refl) as [l ->].
  destruct (truthy (dump_list l)); [|by eexists].
  unfold dump_list. cbn. rewrite filter_truthy_texts, join_values_texts.
  by eexists.
Qed.

Lemma persona_to_lines_returns d tgt_lang :
  (∀ k x, k ∈ ["quirks"; "lexical_preferences"; "style_rules_id"; "style_rules_en"] →
          Dict.get k d = Some x → ∃ l, x = dump_list l) →
  ∃ text, persona_to_lines py_str (JObj d) tgt_lang = Ok text.
Proof.
  intros Hd. unfold persona_to_lines.
  destruct (scalar_line_returns d "tone" "Tone") as [l1 ->].
  destruct (scalar_line_returns d "formality" "Formality") as [l2 ->].
  destruct (scalar_line_returns d "pronouns" "Preferred pronouns/register")
    as [l3 ->].
  destruct (scalar_line_returns d "punctuation_habits" "Punctuation habits")
    as [l4 ->].
  destruct (list_line_returns d "quirks" "Quirks") as [l5 ->].
  { intros x. apply Hd. set_solver. }
  destruct (list_line_returns d "lexical_preferences" "Lexical preferences")
    as [l6 ->].
  { intros x. apply Hd. set_solver. }
  destruct (list_line_returns d (rules_key tgt_lang) "Style rules") as [l7 ->].
  { intros x. apply Hd. unfold rules_key.
    destruct (String.eqb tgt_lang "id"); set_solver. }
  cbn. destruct (l1 ++ _); by eexists.
Qed.

Lemma from_store_lists persona :
  from_store persona →
  ∃ d, persona = JObj d
       ∧ ∀ k x, k ∈ ["quirks"; "lexical_preferences"; "style_rules_id"; "style_rules_en"] →
                Dict.get k d = Some x → ∃ l, x = dump_list l.
Proof.
  intros [->|[p ->]]; eexists; (split; [done|]); [done|].
  intros k x Hk.
  repeat (apply elem_of_cons in Hk as [->|Hk]; [cbn; intros [= <-]; by eexists|]).
  by apply elem_of_nil in Hk.
Qed.

Lemma ui_build_user_returns persona src tgt_lang :
  from_store persona →
  ∃ user, ui_build_user py_str src persona tgt_lang = Ok user.
Proof.
  intros (d & -> & Hd)%from_store_lists. unfold ui_build_user.
  destruct (persona_to_lines_returns d tgt_lang Hd) as [text ->].
  by eexists.
Qed.

Lemma cli_build_user_returns persona src tgt_lang :
  from_store persona →
  ∃ user, cli_build_user py_str src persona tgt_lang = Ok user.
Proof.
  intros (d & -> & Hd)%from_store_lists. unfold cli_build_user. cbn.
  assert (Hlist : ∀ k,
    k ∈ ["quirks"; "lexical_preferences"; "style_rules_id"; "style_rules_en"] →
    ∃ l, default (JArr []) (Dict.get k d) = dump_list l).
  { intros k Hk. destruct (Dict.get k d) as [x|] eqn:E.
    - by apply (Hd k x Hk).
    - by exists []. }
  destruct (Hlist "quirks") as [qs ->]; [set_solver|].
  destruct (Hlist (rules_key tgt_lang)) as [rs ->].
  { unfold rules_key. destruct (String.eqb tgt_lang "id"); set_solver. }
  unfold dump_list. cbn. rewrite !join_values_texts. cbn. by eexists.
Qed.

Lemma persona_used_from_store args persona :
  from_store persona → from_store (persona_used args persona).
Proof.
  intros H. unfold persona_used. destruct (_ && _); [done|by left].
Qed.

End PromptFacts.

Section FillerClaimsMore.
Import Pandas Gateway Filler FillerSpec SheetSpec.

(** X10.  fill_translations.py writes the target column only: whatever
    the gateway does and however [main] ends, the frame it ends with has
    the rows of the sheet, the same cells in every column but the target
    column, and the columns of the sheet, with the target column added
    last when the sheet has the source column and lacks the target. *)
Theorem cli_writes_target_column_only :
  ∀ (W : Type) (llm_call : llm W) (py_str : json → string) (args : cli_args)
    (persona : json) (custom_map : option json) (sheet : DataFrame) (g : io W),
    let st := (cli_main llm_call py_str args persona custom_map sheet g).2 in
    columns (df st)
    = (if has_column sheet (cn_col args) && negb (has_column sheet (id_col args))
       then columns sheet ++ [id_col args] else columns sheet)
    ∧ length (rows (df st)) = length (rows sheet)
    ∧ ∀ i col, col ≠ id_col args → get_at (df st) i col = get_at sheet i col.
Proof.
  intros W llm_call py_str args persona cm sheet g. unfold cli_main.
  destruct (has_column sheet (cn_col args)); cbn [negb andb]; [|done].
  destruct (cli_rows _ _ _ _ _ _ _ _) as [o st] eqn:Hloop.
  apply (loop_same_outside (id_col args)) in Hloop as (Hc & Hl & Hg);
    [|apply cli_row_writes].
  assert (Hst : (match o with
                 | Some e => (Raise e, st)
                 | None => (Ok (df st), st)
                 end : result DataFrame * state W).2 = st).
  { by destruct o. }
  rewrite Hst. cbn zeta. cbn [df initial] in *.
  destruct (has_column sheet (id_col args)) eqn:Ht; cbn [negb].
  - done.
  - destruct (same_outside_assign (id_col args) sheet (Val EmptyString))
      as [Hl' Hg'].
    split_and!.
    + rewrite Hc. unfold assign_column. cbn. by rewrite Ht.
    + by rewrite Hl.
    + intros i col Hcol. by rewrite Hg, Hg'.
Qed.

(** X11.  The handler of streamlit_app.py writes the target column only,
    in the same sense. *)
Theorem ui_writes_target_column_only :
  ∀ (W : Type) (llm_call : llm W) (py_str : json → string) (args : ui_args)
    (persona : json) (custom_map : option json) (sheet : DataFrame) (g : io W),
    let st := (ui_run llm_call py_str args persona custom_map sheet g).2 in
    columns (df st)
    = (if has_column sheet (test_cn_col args)
          && negb (has_column sheet (test_tgt_col args))
       then columns sheet ++ [test_tgt_col args] else columns sheet)
    ∧ length (rows (df st)) = length (rows sheet)
    ∧ ∀ i col, col ≠ test_tgt_col args →
        get_at (df st) i col = get_at sheet i col.
Proof.
  intros W llm_call py_str args persona cm sheet g. unfold ui_run.
  destruct (has_column sheet (test_cn_col args)); cbn [negb andb]; [|done].
  destruct (ui_rows _ _ _ _ _ _ _ _) as [o st] eqn:Hloop.
  apply (loop_same_outside (test_tgt_col args)) in Hloop as (Hc & Hl & Hg);
    [|apply ui_row_writes].
  assert (Hst : (match o with
                 | Some e => (Raise e, st)
                 | None => (Ok (df st), st)
                 end : result DataFrame * state W).2 = st).
  { by destruct o. }
  rewrite Hst. cbn zeta. cbn [df initial] in *.
  destruct (has_column sheet (test_tgt_col args)) eqn:Ht; cbn [negb].
  - done.
  - destruct (same_outside_assign (test_tgt_col args) sheet (Val EmptyString))
      as [Hl' Hg'].
    split_and!.
    + rewrite Hc. unfold assign_column. cbn. by rewrite Ht.
    + by rewrite Hl.
    + intros i col Hcol. by rewrite Hg, Hg'.
Qed.

(** X12.  The loop of fill_translations.py calls the gateway at most once
    for each row that is not passed over, however it ends.  When it
    reaches its end, every row was counted as processed, the gateway was
    called exactly once for each row that was not passed over, and each
    of these rows was either filled or reported as an error. *)
Theorem cli_loop_accounts_for_every_row :
  ∀ (W : Type) (llm_call : llm W) (py_str : json → string) (args : cli_args)
    (persona : json) (custom_map : option json) (total : nat)
    (todo : list (nat * row)) (st : state W) (o : option exn) (st' : state W),
    cli_rows llm_call py_str args persona custom_map total todo st = (o, st') →
    let n := count_selected (cn_col args) (id_col args) (overwrite args) todo in
    (length (calls (gw st')) ≤ length (calls (gw st)) + n)%nat
    ∧ (o = None →
       processed st' = (processed st + length todo)%nat
       ∧ length (calls (gw st')) = (length (calls (gw st)) + n)%nat
       ∧ (filled st' + count_errors (events st')
          = filled st + count_errors (events st) + n)%nat).
Proof. intros W llm_call py_str. apply cli_rows_account. Qed.

Lemma cli_loop_accounts_for_every_row_witness :
  let st' :=
    (cli_rows Examples.up_then_down Examples.no_repr (Examples.cli true false)
       (JObj []) None 3 (iterrows Examples.sheet)
       (initial Examples.sheet Examples.start)).2 in
  processed st' = 3%nat
  ∧ length (calls (gw st')) = 2%nat
  ∧ (filled st' + count_errors (events st') = 2)%nat.
Proof.
  exact (proj2 (cli_loop_accounts_for_every_row nat Examples.up_then_down
                  Examples.no_repr (Examples.cli true false) (JObj []) None 3
                  (iterrows Examples.sheet)
                  (initial Examples.sheet Examples.start) None _ eq_refl)
           eq_refl).
Defined.

(** X13.  The loop of the handler of streamlit_app.py calls the gateway at
    most once for each row that is not passed over; when it reaches its
    end, exactly once for each such row, and each of these rows was
    either filled or reported as an error. *)
Theorem ui_loop_accounts_for_every_row :
  ∀ (W : Type) (llm_call : llm W) (py_str : json → string) (args : ui_args)
    (persona : json) (custom_map : option json) (total : nat)
    (todo : list (nat * row)) (st : state W) (o : option exn) (st' : state W),
    ui_rows llm_call py_str args persona custom_map total todo st = (o, st') →
    let n := count_selected (test_cn_col args) (test_tgt_col args)
               (ui_overwrite args) todo in
    (length (calls (gw st')) ≤ length (calls (gw st)) + n)%nat
    ∧ (o = None →
       length (calls (gw st')) = (length (calls (gw st)) + n)%nat
       ∧ (filled st' + count_errors (events st')
          = filled st + count_errors (events st) + n)%nat).
Proof. intros W llm_call py_str. apply ui_rows_account. Qed.

Lemma ui_loop_accounts_for_every_row_witness :
  let st' :=
    (ui_rows Examples.up_then_down Examples.no_repr (Examples.ui true false)
       (JObj []) None 3 (iterrows Examples.sheet)
       (initial Examples.sheet Examples.start)).2 in
  length (calls (gw st')) = 2%nat
  ∧ (filled st' + count_errors (events st') = 2)%nat.
Proof.
  exact (proj2 (ui_loop_accounts_for_every_row nat Examples.up_then_down
                  Examples.no_repr (Examples.ui true false) (JObj []) None 3
                  (iterrows Examples.sheet)
                  (initial Examples.sheet Examples.start) None _ eq_refl)
           eq_refl).
Defined.

(** X14.  Checkpoints of fill_translations.py: a checkpoint is written
    exactly when the count of filled rows reaches a number [k] with
    [autosave_every and k % autosave_every == 0], once for each such
    number, in increasing order; with [--autosave-every 0] none is
    written.  This holds however the loop ends. *)
Theorem checkpoints_follow_the_fill_count :
  ∀ (W : Type) (llm_call : llm W) (py_str : json → string) (args : cli_args)
    (persona : json) (custom_map : option json) (total : nat)
    (todo : list (nat * row)) (st : state W) (o : option exn) (st' : state W),
    cli_rows llm_call py_str args persona custom_map total todo st = (o, st') →
    (filled st ≤ filled st')%nat
    ∧ checkpoint_counts (events st')
      = checkpoint_counts (events st)
        ++ List.filter (every (autosave_every args))
             (seq (S (filled st)) (filled st' - filled st))
    ∧ (autosave_every args = 0 →
       checkpoint_counts (events st') = checkpoint_counts (events st)).
Proof.
  intros W llm_call py_str args persona cm total todo st o st' Hloop.
  apply cli_rows_checkpoint in Hloop as [Hle Heq]. split_and!; [done..|].
  intros Hn. rewrite Heq, Hn.
  assert (Hnil : ∀ k a, List.filter (every 0) (seq a k) = []).
  { clear. induction k as [|k IH]; intros a; cbn; [done|apply IH]. }
  by rewrite Hnil, app_nil_r.
Qed.

Lemma checkpoints_follow_the_fill_count_witness :
  checkpoint_counts
    (events (cli_rows Examples.chatty Examples.no_repr MoreExamples.autosaving
               (JObj []) None 3 (iterrows Examples.sheet)
               (initial Examples.sheet Examples.start)).2)
  = [2%nat].
Proof.
  exact (proj1 (proj2 (checkpoints_follow_the_fill_count nat Examples.chatty
                         Examples.no_repr MoreExamples.autosaving (JObj []) None 3
                         (iterrows Examples.sheet)
                         (initial Examples.sheet Examples.start) _ _
                         (surjective_pairing _)))).
Defined.

Lemma assign_column_takes_text d col v : takes_text (assign_column d col v) col.
Proof.
  unfold takes_text, assign_column. cbn. rewrite elem_of_lfilter.
  intros [_ H]. by rewrite String.eqb_refl in H.
Qed.

(** X15.  With the neutral persona or a persona that is the dump of a
    validated profile, both prompt builders return for every source text.
    So, in a target column that takes text, the loop of streamlit_app.py
    always reaches its end, and so does the loop of fill_translations.py
    when the normalization is off or the custom map is absent, counts as
    false, or holds texts only: no row and no behaviour of the gateway
    makes such a batch stop.  The programs then return the filled frame
    for every sheet that has the source column and whose target column is
    absent (they add it, as a column of texts) or takes text. *)
Theorem batch_with_stored_persona_reaches_its_end :
  ∀ (W : Type) (llm_call : llm W) (py_str : json → string) (persona : json),
    from_store persona →
    (∀ src tgt_lang,
       (∃ user, cli_build_user py_str src persona tgt_lang = Ok user)
       ∧ (∃ user, ui_build_user py_str src persona tgt_lang = Ok user))
    ∧ (∀ args custom_map total todo st,
         kbbi args = false ∨ TextSpec.text_map custom_map = true →
         takes_text (df st) (id_col args) →
         ∃ st', cli_rows llm_call py_str args persona custom_map total todo st
                = (None, st'))
    ∧ (∀ args custom_map total todo st,
         takes_text (df st) (test_tgt_col args) →
         ∃ st', ui_rows llm_call py_str args persona custom_map total todo st
                = (None, st'))
    ∧ (∀ args custom_map sheet g,
         kbbi args = false ∨ TextSpec.text_map custom_map = true →
         has_column sheet (cn_col args) = true →
         (has_column sheet (id_col args) = true →
          takes_text sheet (id_col args)) →
         ∃ st', cli_main llm_call py_str args persona custom_map sheet g
                = (Ok (df st'), st'))
    ∧ (∀ args custom_map sheet g,
         has_column sheet (test_cn_col args) = true →
         (has_column sheet (test_tgt_col args) = true →
          takes_text sheet (test_tgt_col args)) →
         ∃ st', ui_run llm_call py_str args persona custom_map sheet g
                = (Ok (df st'), st')).
Proof.
  intros W llm_call py_str persona Hp.
  assert (Hcli : ∀ args cm total todo st,
    kbbi args = false ∨ TextSpec.text_map cm = true →
    takes_text (df st) (id_col args) →
    ∃ st', cli_rows llm_call py_str args persona cm total todo st = (None, st')).
  { intros args cm total todo st Hcm Htakes.
    apply (for_each_row_completes _ (λ st, takes_text (df st) (id_col args)));
      [|intros i r st0 Hst0|done].
    - apply takes_text_kept, cli_row_keeps_refusals.
    - apply cli_row_completes; [|intros out; by apply cli_post_returns|done].
      intros src. by apply cli_build_user_returns. }
  assert (Hui : ∀ args cm total todo st,
    takes_text (df st) (test_tgt_col args) →
    ∃ st', ui_rows llm_call py_str args persona cm total todo st = (None, st')).
  { intros args cm total todo st Htakes.
    apply (for_each_row_completes _ (λ st, takes_text (df st) (test_tgt_col args)));
      [|intros i r st0 Hst0|done].
    - apply takes_text_kept, ui_row_keeps_refusals.
    - apply ui_row_completes; [|done].
      intros src. apply ui_build_user_returns. by apply persona_used_from_store. }
  split_and!; [|exact Hcli|exact Hui|..].
  - intros src tl. split;
      [by apply cli_build_user_returns|by apply ui_build_user_returns].
  - intros args cm sheet g Hcm Hcn Htgt. unfold cli_main. rewrite Hcn. cbn [negb].
    set (d := if has_column sheet (id_col args) then sheet else _).
    destruct (Hcli args cm (length (rows d)) (iterrows d) (initial d g) Hcm)
      as [st' ->]; [|by eexists].
    unfold d. cbn [df initial].
    destruct (has_column sheet (id_col args));
      [by apply Htgt|apply assign_column_takes_text].
  - intros args cm sheet g Hcn Htgt. unfold ui_run. rewrite Hcn. cbn [negb].
    set (d := if has_column sheet (test_tgt_col args) then sheet else _).
    destruct (Hui args cm (length (rows d)) (iterrows d) (initial d g))
      as [st' ->]; [|by eexists].
    unfold d. cbn [df initial].
    destruct (has_column sheet (test_tgt_col args));
      [by apply Htgt|apply assign_column_takes_text].
Qed.

Lemma batch_with_stored_persona_reaches_its_end_witness :
  ∃ st',
    ui_run Examples.up_then_down Examples.no_repr (Examples.ui true true)
      (PersonaLearner.model_dump (LearnerSpec.fallback_record "Paimon" "id"))
      Examples.bad_map Examples.sheet Examples.start
    = (Ok (df st'), st').
Proof.
  apply (batch_with_stored_persona_reaches_its_end nat Examples.up_then_down
           Examples.no_repr
           (PersonaLearner.model_dump (LearnerSpec.fallback_record "Paimon" "id"))).
  - right. by eexists.
  - reflexivity.
  - intros _. apply not_elem_of_nil.
Defined.

End FillerClaimsMore.
(** ** File names *)

Section PathFacts.
Import OsPath Sheets.

Lemma rfind_c_app c a b :
  Py.rfind_c c (a +:+ b)
  = if 0 <=? Py.rfind_c c b
    then Z.of_nat (String.length a) + Py.rfind_c c b
    else Py.rfind_c c a.
Proof.
  induction a as [|d a IH]; rewrite ?app_nil_l', ?app_cons.
  - cbn. destruct (0 <=? Py.rfind_c c b) eqn:E; [done|].
    apply Z.leb_gt in E. destruct (rfind_c_bounds c b); lia.
  - cbn [Py.rfind_c String.length]. rewrite IH.
    destruct (0 <=? Py.rfind_c c b) eqn:E; [|done].
    apply Z.leb_le in E.
    destruct (0 <=? Z.of_nat (String.length a) + Py.rfind_c c b) eqn:E'; [lia|].
    apply Z.leb_gt in E'. lia.
Qed.

Lemma rfind_c_cons_ne c d s :
  c ≠ d →
  Py.rfind_c c (String d s)
  = if 0 <=? Py.rfind_c c s then 1 + Py.rfind_c c s else -1.
Proof.
  intros Hne. cbn. destruct (0 <=? Py.rfind_c c s); [done|].
  destruct (Ascii.eqb c d) eqn:E; [by apply Ascii.eqb_eq in E|done].
Qed.

Lemma rfind_c_cons_absent c s :
  Py.rfind_c c s = -1 → Py.rfind_c c (String c s) = 0.
Proof. intros H. cbn. rewrite H. cbn. by rewrite Ascii.eqb_refl. Qed.

(** The text splits at the last occurrence of a character. *)
Lemma rfind_c_split c s :
  0 ≤ Py.rfind_c c s →
  ∃ a b, s = a +:+ String c b
         ∧ Z.of_nat (String.length a) = Py.rfind_c c s
         ∧ Py.rfind_c c b = -1.
Proof.
  induction s as [|d s IH]; cbn; [lia|].
  destruct (0 <=? Py.rfind_c c s) eqn:E.
  - apply Z.leb_le in E. intros _.
    destruct (IH E) as (a & b & -> & Hlen & Hb).
    exists (String d a), b. split_and!; [done|cbn; lia|done].
  - apply Z.leb_gt in E. destruct (Ascii.eqb c d) eqn:Hcd; [|lia].
    apply Ascii.eqb_eq in Hcd as <-. intros _.
    exists "", s. split_and!; [done..|].
    destruct (rfind_c_bounds c s); lia.
Qed.

Lemma substr_from_start s n :
  (n ≤ String.length s)%nat →
  Py.substr s 0 (Z.of_nat n) = String.substring 0 n s.
Proof.
  intros Hn. unfold Py.substr, Py.clamp_index. cbn [Z.ltb Z.compare].
  destruct (Z.of_nat n <? 0) eqn:E; [apply Z.ltb_lt in E; lia|].
  replace (Z.to_nat (Z.max 0 (Z.min (Z.of_nat (String.length s)) 0)))
    with 0%nat by lia.
  f_equal. lia.
Qed.

Lemma substr_to_end s n :
  (n ≤ String.length s)%nat →
  Py.substr s (Z.of_nat n) (Z.of_nat (String.length s))
  = String.substring n (String.length s - n) s.
Proof.
  intros Hn. unfold Py.substr, Py.clamp_index.
  destruct (Z.of_nat n <? 0) eqn:E; [apply Z.ltb_lt in E; lia|].
  destruct (Z.of_nat (String.length s) <? 0) eqn:E'; [apply Z.ltb_lt in E'; lia|].
  f_equal; lia.
Qed.

Lemma substring_suffix a b :
  String.substring (String.length a) (String.length b) (a +:+ b) = b.
Proof.
  pose proof (substring_middle a b "") as H. by rewrite append_empty_r in H.
Qed.

(** The two slices of a text at a position of its last dot. *)
Lemma slices_at a b :
  let p := a +:+ b in
  Py.substr p 0 (Z.of_nat (String.length a)) = a
  ∧ Py.substr p (Z.of_nat (String.length a)) (Z.of_nat (String.length p)) = b.
Proof.
  intros p. unfold p. split.
  - rewrite substr_from_start; [apply substring_prefix|].
    rewrite length_app'. lia.
  - rewrite substr_to_end by (rewrite length_app'; lia).
    rewrite length_app'.
    replace (String.length a + String.length b - String.length a)%nat
      with (String.length b) by lia.
    apply substring_suffix.
Qed.

Lemma skip_leading_dots_cases p dotIndex n filenameIndex :
  skip_leading_dots p dotIndex n filenameIndex = (p, "")
  ∨ skip_leading_dots p dotIndex n filenameIndex
    = (Py.substr p 0 dotIndex,
       Py.substr p dotIndex (Z.of_nat (String.length p))).
Proof.
  revert filenameIndex. induction n as [|n IH]; intros i; cbn; [by left|].
  destruct (negb _); [by right|apply IH].
Qed.

(** One character of a text, as a slice. *)
Lemma substr_char a c b :
  Py.substr (a +:+ String c b) (Z.of_nat (String.length a))
    (Z.of_nat (String.length a) + 1) = String c "".
Proof.
  pose proof (substr_middle a (String c "") b) as H.
  rewrite app_cons, app_nil_l' in H. exact H.
Qed.

(** The loop stops at the first character that is not a dot. *)
Lemma skip_leading_dots_found p dotIndex n filenameIndex a c b :
  p = a +:+ String c b →
  c ≠ "."%char →
  filenameIndex ≤ Z.of_nat (String.length a) < filenameIndex + Z.of_nat n →
  skip_leading_dots p dotIndex n filenameIndex
  = (Py.substr p 0 dotIndex, Py.substr p dotIndex (Z.of_nat (String.length p))).
Proof.
  intros -> Hc. revert filenameIndex.
  induction n as [|n IH]; intros i Hi; [lia|]. cbn [skip_leading_dots].
  destruct (negb _) eqn:E; [done|].
  apply negb_false_iff, String.eqb_eq in E.
  apply IH. destruct (decide (i = Z.of_nat (String.length a))) as [->|]; [|lia].
  rewrite substr_char in E. by injection E.
Qed.

(** The extension [splitext] finds: nothing, or the text from the last dot
    on, which follows the last separator. *)
Lemma splitext_cases p :
  splitext p = (p, "")
  ∨ ∃ base ext,
      splitext p = (base, String "." ext) ∧ p = base +:+ String "." ext
      ∧ Py.rfind_c "." ext = -1 ∧ Py.rfind_c "/" ext = -1.
Proof.
  unfold splitext.
  destruct (Py.rfind_c "/" p <? Py.rfind_c "." p) eqn:E; [|by left].
  apply Z.ltb_lt in E.
  destruct (skip_leading_dots_cases p (Py.rfind_c "." p)
              (Z.to_nat (Py.rfind_c "." p - (Py.rfind_c "/" p + 1)))
              (Py.rfind_c "/" p + 1)) as [->| ->]; [by left|].
  right.
  assert (Hdot : 0 ≤ Py.rfind_c "." p).
  { destruct (rfind_c_bounds "/" p); lia. }
  destruct (rfind_c_split "." p Hdot) as (base & ext & Hp & Hlen & Hext).
  exists base, ext.
  destruct (slices_at base (String "." ext)) as [H1 H2].
  cbn zeta in H1, H2. rewrite <- Hp, Hlen in H1, H2.
  rewrite H1, H2. split_and!; [done..|].
  destruct (rfind_c_bounds "/" ext) as [Hb|]; [|done].
  destruct (decide (0 ≤ Py.rfind_c "/" ext)) as [Hpos|]; [|lia].
  exfalso. revert E. rewrite <- Hlen. rewrite Hp, rfind_c_app.
  rewrite (rfind_c_cons_ne "/" "." ext) by done.
  destruct (0 <=? Py.rfind_c "/" ext) eqn:E3; [|apply Z.leb_gt in E3; lia].
  destruct (0 <=? 1 + Py.rfind_c "/" ext) eqn:E4; [|apply Z.leb_gt in E4; lia].
  lia.
Qed.

(** [root + ext == path] *)
Lemma splitext_join p : (splitext p).1 +:+ (splitext p).2 = p.
Proof.
  destruct (splitext_cases p) as [->|(base & ext & -> & Hp & _)]; cbn.
  - apply append_empty_r.
  - done.
Qed.

(** A name that ends with a word without dot, then a dot and an extension
    without dot and without separator, splits at that dot. *)
Lemma splitext_word base c w ext :
  c ≠ "."%char → c ≠ "/"%char →
  Py.rfind_c "." w = -1 → Py.rfind_c "/" w = -1 →
  Py.rfind_c "." ext = -1 → Py.rfind_c "/" ext = -1 →
  splitext (base +:+ String c w +:+ String "." ext)
  = (base +:+ String c w, String "." ext).
Proof.
  intros Hc1 Hc2 Hw1 Hw2 He1 He2. unfold splitext.
  set (root := base +:+ String c w).
  set (p := base +:+ String c w +:+ String "." ext).
  assert (Hp : p = root +:+ String "." ext).
  { unfold p, root. by rewrite app_assoc'. }
  assert (Hdot : Py.rfind_c "." p = Z.of_nat (String.length root)).
  { rewrite Hp, rfind_c_app, (rfind_c_cons_absent "." ext He1). cbn. lia. }
  assert (Hroot : Z.of_nat (String.length root)
                  = Z.of_nat (String.length base) + 1
                    + Z.of_nat (String.length w)).
  { unfold root. rewrite length_app'. cbn. lia. }
  assert (Hsep : Py.rfind_c "/" p < Z.of_nat (String.length base)).
  { rewrite Hp, rfind_c_app, (rfind_c_cons_ne "/" "." ext), He2 by done.
    cbn [Z.leb Z.compare]. unfold root.
    rewrite rfind_c_app, (rfind_c_cons_ne "/" c w), Hw2 by done.
    cbn [Z.leb Z.compare]. destruct (rfind_c_bounds "/" base); lia. }
  rewrite Hdot.
  destruct (Py.rfind_c "/" p <? Z.of_nat (String.length root)) eqn:E.
  2:{ apply Z.ltb_ge in E. lia. }
  rewrite (skip_leading_dots_found p _ _ _ base c (w +:+ String "." ext)).
  - destruct (slices_at root (String "." ext)) as [H1 H2].
    cbn zeta in H1, H2. rewrite <- Hp in H1, H2. by rewrite H1, H2.
  - unfold p. by rewrite !app_cons.
  - done.
  - pose proof (rfind_c_bounds "/" p). lia.
Qed.

Lemma lower_app a b : Py.lower (a +:+ b) = Py.lower a +:+ Py.lower b.
Proof.
  unfold Py.lower. induction a as [|c a IH]; [done|].
  rewrite app_cons. cbn. by rewrite IH.
Qed.

Lemma lower_length s : String.length (Py.lower s) = String.length s.
Proof. unfold Py.lower. induction s as [|c s IH]; cbn; [done|]. by rewrite IH. Qed.

Lemma endswith_app a b : endswith (a +:+ b) b = true.
Proof.
  unfold endswith. rewrite length_app'. apply andb_true_iff. split.
  - apply Nat.leb_le. lia.
  - replace (String.length a + String.length b - String.length b)%nat
      with (String.length a) by lia.
    rewrite substring_suffix. apply String.eqb_refl.
Qed.

End PathFacts.
Section PathClaims.
Import OsPath Sheets.

Lemma app_inv_length a b a' b' :
  a +:+ b = a' +:+ b' → String.length a = String.length a' → a = a' ∧ b = b'.
Proof.
  revert a'. induction a as [|c a IH]; intros [|c' a']; cbn; try done.
  rewrite !app_cons. intros [= -> H] [= Hl].
  destruct (IH a' H Hl) as [-> ->]. done.
Qed.

Lemma default_output_path_eq p :
  default_output_path p
  = (splitext p).1 +:+ "_out"
    +:+ (if String.eqb (splitext p).2 "" then ".xlsx" else (splitext p).2).
Proof. unfold default_output_path. by destruct (splitext p). Qed.

Lemma default_output_path_length p :
  (String.length p + 4 ≤ String.length (default_output_path p))%nat.
Proof.
  rewrite default_output_path_eq.
  rewrite <- (splitext_join p) at 1. rewrite !length_app'.
  destruct (String.eqb _ _) eqn:E; cbn; [|lia].
  apply String.eqb_eq in E. rewrite E. cbn. lia.
Qed.

Lemma splitext_default_output p :
  splitext (default_output_path p)
  = ((splitext p).1 +:+ "_out",
     if String.eqb (splitext p).2 "" then ".xlsx" else (splitext p).2).
Proof.
  rewrite default_output_path_eq.
  destruct (splitext_cases p) as [->|(base & ext & -> & _ & He1 & He2)]; cbn.
  - by apply (splitext_word p "_" "out" "xlsx").
  - by apply (splitext_word base "_" "out" ext).
Qed.

Lemma splitext_work o :
  (splitext (work_path o)).2 = "" ∨ (splitext (work_path o)).2 = ".work".
Proof.
  unfold work_path.
  destruct (splitext_cases (o +:+ ".work"))
    as [->|(base & ext & -> & Hp & He1 & He2)]; [by left|right]. cbn.
  assert (Hlen : String.length o = String.length base).
  { apply (f_equal (Py.rfind_c ".")) in Hp. revert Hp.
    rewrite !rfind_c_app, (rfind_c_cons_absent "." ext He1).
    cbn. lia. }
  by destruct (app_inv_length _ _ _ _ Hp Hlen) as [_ <-].
Qed.

End PathClaims.

(** X16.  The default output path of fill_translations.py is never the
    input path, and the work path is neither the output path nor, with the
    default output, the input path: by default a run cannot write over
    the sheet it reads.  The default output is the input with "_out"
    before its extension, or with "_out.xlsx" after it when it has no
    extension. *)
Theorem default_output_is_a_new_path :
  ∀ (input : string),
    Sheets.default_output_path input ≠ input
    ∧ Sheets.work_path (Sheets.default_output_path input) ≠ input
    ∧ (∀ output, Sheets.work_path output ≠ output)
    ∧ Sheets.default_output_path input
      = (OsPath.splitext input).1 +:+ "_out"
        +:+ (if String.eqb (OsPath.splitext input).2 ""
             then ".xlsx" else (OsPath.splitext input).2)
    ∧ (OsPath.splitext input).1 +:+ (OsPath.splitext input).2 = input.
Proof.
  intros input. pose proof (default_output_path_length input) as Hlen.
  split_and!.
  - intros H. rewrite H in Hlen. lia.
  - intros H. apply (f_equal String.length) in H. revert H.
    unfold Sheets.work_path. rewrite length_app'. cbn. lia.
  - intros output H. apply (f_equal String.length) in H. revert H.
    unfold Sheets.work_path. rewrite length_app'. cbn. lia.
  - apply default_output_path_eq.
  - apply splitext_join.
Qed.

(** X17.  The default output keeps the format of the input: its extension
    is the extension of the input, so [save_sheet] writes the kind of file
    [load_sheet] read.  The exception is an input without extension: it
    is read as CSV and its output, named "..._out.xlsx", is written as an
    Excel file. *)
Theorem default_output_keeps_the_format :
  ∀ (input : string),
    let ext := (OsPath.splitext input).2 in
    (OsPath.splitext (Sheets.default_output_path input)).2
    = (if String.eqb ext "" then ".xlsx" else ext)
    ∧ Sheets.sheet_format (Sheets.default_output_path input)
      = (if String.eqb ext "" then Sheets.Excel
         else Sheets.sheet_format input)
    ∧ (String.eqb ext "" = true → Sheets.sheet_format input = Sheets.Csv).
Proof.
  intros input ext. unfold Sheets.sheet_format.
  rewrite splitext_default_output. cbn [snd]. fold ext.
  split_and!; [done| |].
  - by destruct (String.eqb ext "").
  - intros ->%String.eqb_eq. done.
Qed.

(** X18.  A checkpoint is always written as CSV: whatever the output path
    is, the work path "<output>.work" has no Excel extension, so
    [save_sheet] calls [to_csv] for it, also when the output itself is an
    Excel file. *)
Theorem checkpoint_is_always_csv :
  ∀ (output : string),
    Sheets.sheet_format (Sheets.work_path output) = Sheets.Csv.
Proof.
  intros output. unfold Sheets.sheet_format.
  by destruct (splitext_work output) as [-> | ->].
Qed.

(** X19.  The two loaders choose the format differently: [load_sheet]
    looks at the extension [os.path.splitext] finds, [read_any_dataframe]
    at the end of the name.  A name that [load_sheet] reads as Excel is
    read as Excel by [read_any_dataframe] too; the converse fails for a
    name like ".xlsx", which has no extension. *)
Theorem loaders_agree_on_excel_extensions :
  (∀ name, Sheets.sheet_format name = Sheets.Excel →
           Sheets.upload_format name = Sheets.Excel)
  ∧ Sheets.upload_format ".xlsx" = Sheets.Excel
  ∧ Sheets.sheet_format ".xlsx" = Sheets.Csv.
Proof.
  split; [|done]. intros name. unfold Sheets.sheet_format, Sheets.upload_format.
  destruct (Sheets.excel_ext _) eqn:E; [intros _|done].
  rewrite <- (splitext_join name) at 1 2. rewrite lower_app.
  unfold Sheets.excel_ext in E.
  apply orb_true_iff in E as [E|E]; apply String.eqb_eq in E; rewrite E.
  - by rewrite endswith_app.
  - rewrite (endswith_app _ ".xls"). by rewrite orb_true_r.
Qed.

Lemma loaders_agree_on_excel_extensions_witness :
  Sheets.upload_format "data/Sheet.XLSX" = Sheets.Excel.
Proof.
  exact (proj1 loaders_agree_on_excel_extensions "data/Sheet.XLSX" eq_refl).
Defined.
(** ** The programs and their files *)

Section ProgramFacts.
Import Pandas Gateway PersonaLearner Filler StoreSpec Programs.

Lemma checkpoints_other (work : string) (ds : list DataFrame) (written : sheets) p :
  p ≠ work →
  foldl (λ out d, save_sheet d work out) written ds !! p = written !! p.
Proof.
  intros Hp. revert written.
  induction ds as [|d ds IH]; intros written; cbn [foldl]; [done|].
  rewrite IH. unfold save_sheet, sheets in *. by rewrite lookup_insert_ne.
Qed.

Lemma dict_get_elem {V} (d : list (string * V)) k v :
  NoDup d.*1 → (k, v) ∈ d → Dict.get k d = Some v.
Proof.
  induction d as [|[k' v'] d IH]; cbn; [by intros _ ?%elem_of_nil|].
  intros [Hk Hnd]%NoDup_cons Hin.
  apply elem_of_cons in Hin as [[= <- <-]|Hin].
  - by rewrite String.eqb_refl.
  - destruct (String.eqb k k') eqn:E; [|by apply IH].
    apply String.eqb_eq in E as <-. destruct Hk.
    change k with (k, v).1. by apply list_elem_of_fmap_2.
Qed.

Lemma profiles_value_get profiles k p :
  NoDup profiles.*1 → (k, p) ∈ profiles →
  ∃ d, profiles_value profiles = JObj d ∧ Dict.get k d = Some (model_dump p).
Proof.
  intros Hnd Hin. eexists. split; [done|].
  apply dict_get_elem.
  - rewrite <- list_fmap_compose.
    by replace (fst ∘ (λ kp : string * PersonaProfile, (kp.1, model_dump kp.2)))
      with (@fst string PersonaProfile).
  - apply (list_elem_of_fmap_2 (λ kp : string * PersonaProfile,
             (kp.1, model_dump kp.2)) _ _ Hin).
Qed.

Lemma profiles_value_get_None profiles k :
  k ∉ profiles.*1 →
  ∃ d, profiles_value profiles = JObj d ∧ Dict.get k d = None.
Proof.
  intros Hk. eexists. split; [done|]. apply dict_get_None.
  unfold Dict.keys. rewrite <- list_fmap_compose.
  by replace (fst ∘ (λ kp : string * PersonaProfile, (kp.1, model_dump kp.2)))
    with (@fst string PersonaProfile).
Qed.

End ProgramFacts.

Section ProgramClaims.
Import Pandas Gateway PersonaLearner Filler StoreSpec Programs.

(** X20.  The files of a run of fill_translations.py: it writes the output
    path and the work path and no other; a run that ends normally leaves
    the final frame at the output path, in the format of that path, and no
    work file; a run that raises leaves the output path as it was; and
    with the default output path the input path is not written. *)
Theorem cli_run_writes_output_and_work_only :
  ∀ (W : Type) (llm_call : llm W) (py_str : json → string) (files : cli_files)
    (args : cli_args) (sheet : DataFrame) (fs : gmap string string)
    (written : sheets) (g : io W) (res : result DataFrame) (g' : io W)
    (written' : sheets),
    cli_program llm_call py_str files args sheet fs written g
    = (res, g', written') →
    let out := Sheets.output_path (output files) (input files) in
    let work := Sheets.work_path out in
    (∀ p, p ≠ out → p ≠ work → written' !! p = written !! p)
    ∧ (∀ d, res = Ok d →
         written' !! out = Some (Sheets.sheet_format out, d)
         ∧ written' !! work = None)
    ∧ (∀ e, res = Raise e → written' !! out = written !! out)
    ∧ (output files = None →
       written' !! input files = written !! input files).
Proof.
  intros W llm_call py_str files args sheet fs written g res g' written' Hrun
    out work.
  assert (Hwork : work ≠ out).
  { intros H. apply (f_equal String.length) in H. revert H.
    unfold work, Sheets.work_path. rewrite length_app'. cbn. lia. }
  assert (Hmain : (∀ p, p ≠ out → p ≠ work → written' !! p = written !! p)
    ∧ (∀ d, res = Ok d →
         written' !! out = Some (Sheets.sheet_format out, d)
         ∧ written' !! work = None)
    ∧ (∀ e, res = Raise e → written' !! out = written !! out)).
  { revert Hrun. unfold cli_program, save_sheet, sheets in *. fold out. fold work.
    destruct (cli_persona files fs) as [persona|e].
    2:{ intros [= <- <- <-]. by split_and!. }
    destruct (cli_custom_map files fs) as [cm|e].
    2:{ intros [= <- <- <-]. by split_and!. }
    destruct (cli_main _ _ _ _ _ _ _) as [[d|e] st].
    - intros [= <- <- <-]. split_and!.
      + intros p Hp1 Hp2. rewrite lookup_delete_ne by done.
        rewrite lookup_insert_ne by done.
        by apply (checkpoints_other work).
      + intros d' [= <-]. split.
        * rewrite lookup_delete_ne by done.
          by rewrite lookup_insert_eq.
        * by rewrite lookup_delete_eq.
      + done.
    - intros [= <- <- <-]. split_and!.
      + intros p _ Hp. by apply (checkpoints_other work).
      + done.
      + intros _ _. by apply (checkpoints_other work). }
  destruct Hmain as (H1 & H2 & H3). split_and!; [done..|].
  intros Hout. apply H1.
  - unfold out. rewrite Hout. cbn.
    intros H. apply (f_equal String.length) in H.
    pose proof (default_output_path_length (input files)). lia.
  - unfold work, out. rewrite Hout. cbn.
    intros H. apply (f_equal String.length) in H. revert H.
    unfold Sheets.work_path. rewrite length_app'.
    pose proof (default_output_path_length (input files)). cbn. lia.
Qed.

Lemma cli_run_writes_output_and_work_only_witness :
  let run :=
    cli_program Examples.chatty Examples.no_repr MoreExamples.files
      MoreExamples.autosaving Examples.sheet ∅ ∅ Examples.start in
  run.2 !! input MoreExamples.files
  = (∅ : sheets) !! input MoreExamples.files.
Proof.
  intros run.
  assert (Hrun : run = (run.1.1, run.1.2, run.2)) by by destruct run as [[? ?] ?].
  exact (proj2 (proj2 (proj2
           (cli_run_writes_output_and_work_only nat Examples.chatty
              Examples.no_repr MoreExamples.files MoreExamples.autosaving
              Examples.sheet ∅ ∅ Examples.start _ _ _ Hrun))) eq_refl).
Defined.

(** X21.  A persona file that cannot be decoded: fill_translations.py
    raises the decoding error before it looks at the sheet, with no call
    of the gateway and nothing written; the "Translate" tab catches the
    error and goes on with the personas of the session, so without them
    with the neutral persona. *)
Theorem unreadable_persona_file :
  ∀ (fs : gmap string string) (path text : string) (e : exn),
    fs !! path = Some text →
    Json.loads text = Raise e →
    (∀ (W : Type) (llm_call : llm W) (py_str : json → string) files args sheet
        (written : sheets) (g : io W),
       persona_json files = path →
       cli_program llm_call py_str files args sheet fs written g
       = (Raise e, g, written))
    ∧ (∀ session trans_lang,
         persona_json_path trans_lang = path →
         personas_all session trans_lang fs = session)
    ∧ (∀ trans_lang test_char_id no_training use_learned_persona,
         persona_json_path trans_lang = path →
         ui_persona (personas_all [] trans_lang fs) trans_lang test_char_id
           no_training use_learned_persona
         = Ok (JObj [])).
Proof.
  intros fs path text e Hfile Hload.
  assert (Hall : ∀ session trans_lang,
            persona_json_path trans_lang = path →
            personas_all session trans_lang fs = session).
  { intros session lang Hpath. unfold personas_all, load_personas.
    by rewrite Hpath, Hfile, Hload. }
  split_and!.
  - intros W llm_call py_str files args sheet written g Hpath.
    unfold cli_program, cli_persona. by rewrite Hpath, Hfile, Hload.
  - exact Hall.
  - intros lang k nt ul Hpath. rewrite (Hall [] lang Hpath).
    unfold ui_persona. cbn. by destruct (negb nt && ul).
Qed.

Lemma unreadable_persona_file_witness :
  ui_persona (personas_all [] "id" {[ "data/personas_learned_id.json" := "{" ]})
    "id" "Paimon" false true
  = Ok (JObj []).
Proof.
  exact (proj2 (proj2 (unreadable_persona_file
                         {[ "data/personas_learned_id.json" := "{" ]}
                         "data/personas_learned_id.json" "{" JSONDecodeError
                         eq_refl eq_refl))
           "id" "Paimon" false true eq_refl).
Defined.

(** X22.  What the learner saved is what the translators use: a mapping
    of profiles with distinct identifiers and well-formed texts is always
    saved, and after [save_personas] wrote such a mapping of profiles with
    distinct identifiers to the persona file, the persona of
    fill_translations.py for a character of the mapping is the dump of its
    profile, and so is the persona of the "Translate" tab; for a character
    that is not in the mapping both use the empty persona. *)
Theorem saved_profile_is_the_persona_used :
  ∀ (float_repr : pyfloat → string)
    (profiles : list (string * PersonaProfile)) (path : string)
    (fs : gmap string string),
    NoDup profiles.*1 →
    (encodable (profiles_value profiles) = true →
     ∃ fs', save_personas float_repr (profiles_value profiles) path fs = Ok fs')
    ∧ ∀ fs',
        save_personas float_repr (profiles_value profiles) path fs = Ok fs' →
        (∀ files k p,
           persona_json files = path → char_id files = k → (k, p) ∈ profiles →
           cli_persona files fs' = Ok (model_dump p))
        ∧ (∀ files,
             persona_json files = path → char_id files ∉ profiles.*1 →
             cli_persona files fs' = Ok (JObj []))
        ∧ (∀ session trans_lang k p,
             persona_json_path trans_lang = path → (k, p) ∈ profiles →
             ui_persona (personas_all session trans_lang fs') trans_lang k
               false true
             = Ok (model_dump p))
        ∧ (∀ session trans_lang k,
             persona_json_path trans_lang = path → k ∉ profiles.*1 →
             ui_persona (personas_all session trans_lang fs') trans_lang k
               false true
             = Ok (JObj [])).
Proof.
  intros float_repr profiles path fs Hnd.
  pose proof (profiles_value_plain profiles Hnd) as Hplain.
  split.
  { intros Henc. rewrite save_personas_plain, Henc by done. by eexists. }
  intros fs' Hsave.
  destruct (load_saved _ _ _ _ _ Hplain Hsave) as (Hload & _ & _).
  assert (Hfile : ∃ text, fs' !! path = Some text
                          ∧ Json.loads text = Ok (profiles_value profiles)).
  { unfold load_personas in Hload.
    destruct (fs' !! path) as [text|]; [by exists text|done]. }
  destruct Hfile as (text & Hfile & Htext).
  assert (Hall : ∀ session lang,
            persona_json_path lang = path →
            personas_all session lang fs'
            = Dict.set lang (profiles_value profiles) session).
  { intros session lang Hpath. unfold personas_all.
    by rewrite Hpath, Hfile, Hload. }
  split_and!.
  - intros files k p Hpath Hk Hin. unfold cli_persona.
    rewrite Hpath, Hfile, Htext. cbn.
    destruct (profiles_value_get profiles k p Hnd Hin) as (d & [= <-] & Hget).
    by rewrite Hk, Hget.
  - intros files Hpath Hk. unfold cli_persona.
    rewrite Hpath, Hfile, Htext. cbn.
    destruct (profiles_value_get_None profiles _ Hk) as (d & [= <-] & Hget).
    by rewrite Hget.
  - intros session lang k p Hpath Hin. rewrite (Hall session lang Hpath).
    unfold ui_persona, available_ids. rewrite dict_get_set_eq.
    destruct (profiles_value_get profiles k p Hnd Hin) as (d & [= <-] & Hget).
    destruct profiles as [|kp profiles]; [by apply elem_of_nil in Hin|].
    cbn -[model_dump]. cbn -[model_dump] in Hget. by rewrite Hget.
  - intros session lang k Hpath Hk. rewrite (Hall session lang Hpath).
    unfold ui_persona, available_ids. rewrite dict_get_set_eq.
    destruct (profiles_value_get_None profiles k Hk) as (d & [= <-] & Hget).
    destruct profiles as [|kp profiles]; [done|].
    cbn -[model_dump]. cbn -[model_dump] in Hget. by rewrite Hget.
Qed.

Lemma saved_profile_is_the_persona_used_witness :
  ∃ fs',
    save_personas Examples.no_float_repr
      (profiles_value Examples.stored_profiles)
      "data/personas_learned_id.json" ∅ = Ok fs'
    ∧ cli_persona MoreExamples.files fs'
      = Ok (model_dump (LearnerSpec.fallback_record "钟离" "id")).
Proof.
  pose proof (bool_decide_unpack (NoDup (Examples.stored_profiles.*1)) I) as Hnd.
  destruct (saved_profile_is_the_persona_used Examples.no_float_repr
              Examples.stored_profiles "data/personas_learned_id.json" ∅ Hnd)
    as [Hsaved Huse].
  destruct (Hsaved ltac:(by vm_compute)) as [fs' Hsave].
  exists fs'. split; [done|].
  apply (proj1 (Huse fs' Hsave) MoreExamples.files "钟离"
           (LearnerSpec.fallback_record "钟离" "id") eq_refl eq_refl).
  right. left.
Defined.

End ProgramClaims.
(** ** The persona store of the page *)

Section TrainingFacts.
Import PersonaLearner StoreSpec Programs.

Lemma update_all_get (d ps : list (string * json)) k :
  NoDup ps.*1 →
  Dict.get k (update_all d ps)
  = match Dict.get k ps with
    | Some v => Some v
    | None => Dict.get k d
    end.
Proof.
  unfold update_all.
  revert d. induction ps as [|[k1 v1] ps IH]; intros d; cbn; [done|].
  intros [Hk Hnd]%NoDup_cons. rewrite (IH _ Hnd).
  destruct (String.eqb k k1) eqn:E.
  - apply String.eqb_eq in E as ->.
    rewrite (dict_get_None ps k1) by done. apply dict_get_set_eq.
  - apply String.eqb_neq in E.
    destruct (Dict.get k ps); [done|]. by apply dict_get_set_ne.
Qed.

Lemma update_all_plain (d ps : list (string * json)) :
  plain (JObj d) = true → plain (JObj ps) = true →
  plain (JObj (update_all d ps)) = true.
Proof.
  unfold update_all.
  revert d. induction ps as [|[k1 v1] ps IH]; intros d Hd Hps; cbn; [done|].
  cbn in Hps. apply andb_true_iff in Hps as [Hnd Hall].
  apply andb_true_iff in Hall as [Hv Hall].
  apply bool_decide_eq_true in Hnd. apply NoDup_cons in Hnd as [_ Hnd].
  apply IH.
  - by apply dict_set_plain.
  - cbn. apply andb_true_iff. split; [by apply bool_decide_eq_true|done].
Qed.

Lemma update_all_fresh (d ps : list (string * json)) :
  NoDup ps.*1 → (∀ k, k ∈ ps.*1 → k ∉ Dict.keys d) →
  update_all d ps = d ++ ps.
Proof.
  unfold update_all.
  revert d. induction ps as [|[k1 v1] ps IH]; intros d; cbn.
  - by rewrite app_nil_r.
  - intros [Hk Hnd]%NoDup_cons Hfresh.
    rewrite dict_set_fresh by (apply Hfresh; left).
    rewrite IH, <- app_assoc; [done..|].
    intros k Hin. unfold Dict.keys. rewrite fmap_app. cbn.
    intros [?| ->%list_elem_of_singleton]%elem_of_app; [|done].
    by apply (Hfresh k); [right|].
Qed.

Lemma plain_NoDup d : plain (JObj d) = true → NoDup d.*1.
Proof.
  cbn. intros [Hnd _]%andb_true_iff. by apply bool_decide_eq_true in Hnd.
Qed.

Lemma dict_set_encodable d k v :
  encodable (JObj d) = true → Py.has_surrogate k = false →
  encodable v = true → encodable (JObj (Dict.set k v d)) = true.
Proof.
  cbn [encodable]. intros Hd Hk Hv.
  induction d as [|[k' v'] d IH]; cbn.
  - by rewrite Hk, Hv.
  - cbn in Hd. apply andb_true_iff in Hd as [H1 H2].
    destruct (String.eqb k k'); cbn.
    + by rewrite Hk, Hv, H2.
    + by rewrite H1, IH.
Qed.

Lemma update_all_encodable (d ps : list (string * json)) :
  encodable (JObj d) = true → encodable (JObj ps) = true →
  encodable (JObj (update_all d ps)) = true.
Proof.
  unfold update_all.
  revert d. induction ps as [|[k1 v1] ps IH]; intros d Hd Hps; cbn [foldl];
    [done|].
  cbn in Hps. apply andb_true_iff in Hps as [Hkv Hps].
  apply andb_true_iff in Hkv as [Hk Hv]. apply negb_true_iff in Hk.
  apply IH; [|done]. by apply dict_set_encodable.
Qed.

Lemma dict_get_encodable d k v :
  encodable (JObj d) = true → Dict.get k d = Some v →
  negb (Py.has_surrogate k) && encodable v = true.
Proof.
  cbn [encodable]. induction d as [|[k' v'] d IH]; cbn; [done|].
  intros [H1 H2]%andb_true_iff.
  destruct (String.eqb k k') eqn:E; [|by apply IH].
  apply String.eqb_eq in E as ->. by intros [= <-].
Qed.

(** The merged mapping holds every new profile, so it is well-formed only
    when the new profiles are. *)
Lemma update_all_encodable_inv (d ps : list (string * json)) :
  NoDup ps.*1 →
  encodable (JObj (update_all d ps)) = true → encodable (JObj ps) = true.
Proof.
  intros Hnd Hall. cbn [encodable]. apply forallb_forall.
  intros [k v] Hin%list_elem_of_In.
  apply (dict_get_encodable _ k v Hall).
  rewrite update_all_get by done. by rewrite (dict_get_elem ps k v Hnd Hin).
Qed.

End TrainingFacts.

Section TrainingClaims.
Import PersonaLearner StoreSpec Programs.

(** X23.  "Learn Persona" merges into the store: when the persona file of
    the language holds a mapping of profiles, the handler writes the merged
    mapping, in which every newly learned character has its new profile and
    every other character of the file keeps the profile it had.  When the
    texts of the file and of the new profiles are well-formed, the file
    written afterwards loads to the merged mapping, which the session keeps
    under the language, and the merge writes no other file; when a text of
    the new profiles holds a lone surrogate, writing the file raises
    [UnicodeEncodeError]. *)
Theorem training_merges_into_the_store :
  ∀ (float_repr : pyfloat → string) (target_lang : string)
    (profiles : list (string * json)) (session : list (string * json))
    (fs : gmap string string) (text : string) (old : list (string * json)),
    fs !! persona_json_path target_lang = Some text →
    Json.loads text = Ok (JObj old) →
    plain (JObj old) = true →
    plain (JObj profiles) = true →
    ∃ merged,
      (∀ k, Dict.get k merged
            = match Dict.get k profiles with
              | Some v => Some v
              | None => Dict.get k old
              end)
      ∧ (encodable (JObj old) = true → encodable (JObj profiles) = true →
         ∃ fs' session',
           store_learned float_repr target_lang profiles session fs
           = Ok (fs', session')
           ∧ load_personas (persona_json_path target_lang) fs'
             = Ok (JObj merged)
           ∧ Dict.get target_lang session' = Some (JObj merged)
           ∧ (∀ p, p ≠ persona_json_path target_lang → fs' !! p = fs !! p))
      ∧ (encodable (JObj profiles) = false →
         store_learned float_repr target_lang profiles session fs
         = Raise UnicodeEncodeError).
Proof.
  intros float_repr lang profiles session fs text old Hfile Hload Hold Hnew.
  exists (update_all old profiles).
  pose proof (update_all_plain old profiles Hold Hnew) as Hplain.
  assert (Hrun : store_learned float_repr lang profiles session fs
    = (fs' ← save_personas float_repr (JObj (update_all old profiles))
               (persona_json_path lang) fs;
       Ok (fs', Dict.set lang (JObj (update_all old profiles)) session))).
  { unfold store_learned, existing_profiles, load_personas.
    by rewrite Hfile, Hload. }
  split_and!.
  - intros k. apply update_all_get. by apply plain_NoDup.
  - intros Heo Hep. rewrite Hrun, save_personas_plain by done.
    rewrite update_all_encodable by done. eexists _, _. split_and!.
    + done.
    + unfold load_personas. rewrite lookup_insert_eq. by apply loads_dumps.
    + apply dict_get_set_eq.
    + intros p Hp. by rewrite lookup_insert_ne.
  - intros Hep. rewrite Hrun, save_personas_plain by done.
    destruct (encodable (JObj (update_all old profiles))) eqn:E; [|done].
    apply update_all_encodable_inv in E; [congruence|by apply plain_NoDup].
Qed.

Lemma training_merges_into_the_store_witness :
  ∃ merged fs' session',
    store_learned Examples.no_float_repr "id"
      [("Paimon", JObj [("tone", JStr "ceria")])] []
      {[ "data/personas_learned_id.json" := MoreExamples.store_text ]}
    = Ok (fs', session')
    ∧ load_personas "data/personas_learned_id.json" fs' = Ok (JObj merged)
    ∧ Dict.get "Paimon" merged = Some (JObj [("tone", JStr "ceria")])
    ∧ Dict.get "Klee" merged = Some (JObj [("tone", JStr "riang")]).
Proof.
  destruct (training_merges_into_the_store Examples.no_float_repr "id"
              [("Paimon", JObj [("tone", JStr "ceria")])] []
              {[ "data/personas_learned_id.json" := MoreExamples.store_text ]}
              MoreExamples.store_text
              [("Klee", JObj [("tone", JStr "riang")]);
               ("Paimon", JObj [("tone", JStr "datar")])]
              ltac:(by vm_compute) ltac:(by vm_compute)
              ltac:(by vm_compute) ltac:(by vm_compute))
    as (merged & Hget & Hgood & _).
  destruct (Hgood ltac:(by vm_compute) ltac:(by vm_compute))
    as (fs' & session' & Hrun & Hload & _).
  exists merged, fs', session'. split_and!; [done..| |].
  - by rewrite Hget.
  - by rewrite Hget.
Defined.

(** X24.  "Learn Persona" over a store that is not a mapping: when the
    persona file is absent or cannot be decoded, the file written holds
    the newly learned profiles only, so the profiles of a damaged file
    are lost without a message (and when a text of the new profiles holds
    a lone surrogate, writing the file raises [UnicodeEncodeError]); when
    the file holds a JSON value that is not an object, the handler raises
    [AttributeError] and writes nothing. *)
Theorem training_over_a_damaged_store :
  ∀ (float_repr : pyfloat → string) (target_lang : string)
    (profiles : list (string * json)) (session : list (string * json))
    (fs : gmap string string),
    plain (JObj profiles) = true →
    let path := persona_json_path target_lang in
    ((fs !! path = None ∨ ∃ text e, fs !! path = Some text
                                     ∧ Json.loads text = Raise e) →
     (encodable (JObj profiles) = true →
      ∃ fs' session',
        store_learned float_repr target_lang profiles session fs
        = Ok (fs', session')
        ∧ load_personas path fs' = Ok (JObj profiles))
     ∧ (encodable (JObj profiles) = false →
        store_learned float_repr target_lang profiles session fs
        = Raise UnicodeEncodeError))
    ∧ (∀ text v,
         fs !! path = Some text → Json.loads text = Ok v →
         (∀ d, v ≠ JObj d) →
         store_learned float_repr target_lang profiles session fs
         = Raise AttributeError).
Proof.
  intros float_repr lang profiles session fs Hnew path. split.
  - intros Hbad.
    assert (Hex : existing_profiles path fs = JObj []).
    { unfold existing_profiles, load_personas.
      destruct Hbad as [-> | (text & e & -> & ->)]; done. }
    assert (Hrun : store_learned float_repr lang profiles session fs
      = (fs' ← save_personas float_repr (JObj profiles) path fs;
         Ok (fs', Dict.set lang (JObj profiles) session))).
    { unfold store_learned. fold path. rewrite Hex. cbn [dict_update mbind].
      rewrite (update_all_fresh [] profiles); [done|by apply plain_NoDup|].
      intros k _. apply not_elem_of_nil. }
    rewrite Hrun, save_personas_plain by done. split; intros ->; [|done].
    eexists _, _. split; [done|].
    unfold load_personas. rewrite lookup_insert_eq. by apply loads_dumps.
  - intros text v Hfile Hload Hv.
    unfold store_learned, existing_profiles, load_personas. fold path.
    rewrite Hfile, Hload. destruct v; try done. by destruct (Hv fields).
Qed.

Lemma training_over_a_damaged_store_witness :
  store_learned Examples.no_float_repr "id"
    [("Paimon", JObj [("tone", JStr "ceria")])] []
    {[ "data/personas_learned_id.json" := "[]" ]}
  = Raise AttributeError.
Proof.
  apply (proj2 (training_over_a_damaged_store Examples.no_float_repr "id"
                  [("Paimon", JObj [("tone", JStr "ceria")])] []
                  {[ "data/personas_learned_id.json" := "[]" ]}
                  ltac:(by vm_compute))
           "[]" (JArr [])); [by vm_compute..|discriminate].
Defined.

End TrainingClaims.
(** ** The gateway: agents/llm.py *)

Section LlmFacts.
Import Llm.
Context {W : Type}.
Variable http_post : http W.
Variable cfg : config.
Variable py_dumps : json → string.

Lemma post_sent req (n : net W) r n1 :
  post http_post req n = (r, n1) →
  sent n1 = sent n ++ [req] ∧ (http_post req (wire n)).1 = r.
Proof.
  unfold post. destruct (http_post req (wire n)) as [r' w].
  by intros [= <- <-].
Qed.

Lemma generated_text_stripped data out :
  generated_text data = Returned out → Py.strip out = out.
Proof.
  unfold generated_text.
  destruct (get_or data _ _); cbn; [|done].
  destruct (lift (Filler.iterate _)); cbn; [|done].
  destruct (for_each _ _); cbn; [|done].
  destruct (lift (Filler.join_values _ _)); cbn; [|done].
  intros [= <-]. apply strip_strip.
Qed.

Lemma gemini_beta_sent system user t (n : net W) res n' :
  gemini_beta http_post cfg py_dumps system user t n = (res, n') →
  sent n' = sent n ++ [gemini_request_beta cfg system user t]
  ∧ ∀ out, res = Returned out →
      out ≠ "" ∧ ∃ data, generated_text data = Returned out.
Proof.
  unfold gemini_beta.
  destruct (post _ _ _) as [[rb|e] n2] eqn:Hpost;
    apply post_sent in Hpost as [Hsent _].
  - destruct (negb (ok rb)); [by intros [= <- <-]|].
    intros [= <- <-]. split; [done|]. intros out.
    destruct (json_of rb) as [data|]; cbn; [|done].
    destruct (generated_text data) as [out'|] eqn:Htext; cbn; [|done].
    destruct (String.eqb out' "") eqn:E; [done|].
    intros [= <-]. apply String.eqb_neq in E. split; [done|by exists data].
  - by intros [= <- <-].
Qed.

Lemma gemini_requests_sent system user t (n : net W) res n' :
  _gemini_call http_post cfg py_dumps system user t n = (res, n') →
  sent n' = sent n ++ [gemini_request_v1 cfg system user t]
  ∨ sent n' = sent n ++ [gemini_request_v1 cfg system user t;
                         gemini_request_beta cfg system user t].
Proof.
  unfold _gemini_call.
  destruct (post _ _ _) as [[r|e] n1] eqn:Hpost;
    apply post_sent in Hpost as [Hsent _].
  2:{ intros [= <- <-]. by left. }
  assert (Hbeta : ∀ res n',
    gemini_beta http_post cfg py_dumps system user t n1 = (res, n') →
    sent n' = sent n ++ [gemini_request_v1 cfg system user t;
                         gemini_request_beta cfg system user t]).
  { intros res0 n0 [H _]%gemini_beta_sent.
    by rewrite H, Hsent, <- app_assoc. }
  destruct (ok r).
  - destruct (mbind _ _) as [out|e].
    + destruct (String.eqb out ""); [intros H%Hbeta; by right|].
      intros [= <- <-]. by left.
    + intros [= <- <-]. by left.
  - intros H%Hbeta. by right.
Qed.

End LlmFacts.

(** X25.  The Gemini backend never returns an empty or blank text: a
    text it returns is what the two loops found in one of the two
    responses; it is not empty, it has no white space at its ends, and so
    it is not blank for the translation filler.  An answer without text
    ends in the v1beta request or in a [RuntimeError]. *)
Theorem gemini_never_returns_empty_text :
  ∀ (W : Type) (http_post : Llm.http W) (cfg : Llm.config)
    (py_dumps : json → string) (system user : string) (t : pyfloat)
    (n : Llm.net W) (out : string) (n' : Llm.net W),
    Llm._gemini_call http_post cfg py_dumps system user t n
    = (Llm.Returned out, n') →
    out ≠ ""
    ∧ Py.strip out = out
    ∧ Filler.blank out = false
    ∧ ∃ data, Llm.generated_text data = Llm.Returned out.
Proof.
  intros W http_post cfg py_dumps system user t n out n' Hcall.
  assert (H : out ≠ "" ∧ ∃ data, Llm.generated_text data = Llm.Returned out).
  { revert Hcall. unfold Llm._gemini_call.
    destruct (Llm.post _ _ _) as [[r|e] n1]; [|done].
    destruct (Llm.ok r).
    - destruct (Llm.json_of r) as [data|]; cbn; [|done].
      destruct (Llm.generated_text data) as [out'|] eqn:Htext; cbn; [|done].
      destruct (String.eqb out' "") eqn:E.
      + intros H. by apply (gemini_beta_sent _ _ _ _ _ _ _ _ _ H).
      + intros [= <- <-]. apply String.eqb_neq in E.
        split; [done|by exists data].
    - intros H. by apply (gemini_beta_sent _ _ _ _ _ _ _ _ _ H). }
  destruct H as [Hne [data Hdata]].
  pose proof (generated_text_stripped _ _ Hdata) as Hstrip.
  split_and!; [done..| |by exists data].
  unfold Filler.blank. rewrite Hstrip. by apply String.eqb_neq.
Qed.

Lemma gemini_never_returns_empty_text_witness :
  "Halo!" ≠ ""
  ∧ Py.strip "Halo!" = "Halo!"
  ∧ Filler.blank "Halo!" = false
  ∧ ∃ data, Llm.generated_text data = Llm.Returned "Halo!".
Proof.
  eapply (gemini_never_returns_empty_text nat MoreExamples.v1_rejects
            MoreExamples.settings Examples.no_repr "system" "user" (FDec 4 (-1))
            MoreExamples.offline).
  vm_compute. reflexivity.
Defined.

(** X26.  The requests of the Gemini backend: the v1 request is sent
    first, and the call ends after it when no response arrived, when the
    response could not be decoded or walked, or when it gave a text; the
    v1beta request is sent second, and only when the v1 response had an
    error status or gave no text.  No third request is sent. *)
Theorem gemini_sends_v1_then_v1beta :
  ∀ (W : Type) (http_post : Llm.http W) (cfg : Llm.config)
    (py_dumps : json → string) (system user : string) (t : pyfloat)
    (n : Llm.net W) (res : Llm.outcome string) (n' : Llm.net W),
    Llm._gemini_call http_post cfg py_dumps system user t n = (res, n') →
    let v1 := Llm.gemini_request_v1 cfg system user t in
    let beta := Llm.gemini_request_beta cfg system user t in
    let first := (http_post v1 (Llm.wire n)).1 in
    let text_of r := data ← Llm.json_of r; Llm.generated_text data in
    (Llm.sent n' = Llm.sent n ++ [v1]
     ∧ match first with
       | Llm.Raised e => res = Llm.Raised e
       | Llm.Returned r =>
           Llm.ok r = true ∧ res = text_of r ∧ res ≠ Llm.Returned ""
       end)
    ∨ (Llm.sent n' = Llm.sent n ++ [v1; beta]
       ∧ ∃ r, first = Llm.Returned r
              ∧ (Llm.ok r = false ∨ text_of r = Llm.Returned "")).
Proof.
  intros W http_post cfg py_dumps system user t n res n'.
  unfold Llm._gemini_call. cbn zeta.
  destruct (Llm.post _ _ _) as [[r|e] n1] eqn:Hpost;
    apply post_sent in Hpost as [Hsent ->].
  2:{ intros [= <- <-]. by left. }
  destruct (Llm.ok r) eqn:Hok.
  - destruct (mbind _ _) as [out|e] eqn:Htext.
    + destruct (String.eqb out "") eqn:E.
      * apply String.eqb_eq in E as ->. intros H.
        apply gemini_beta_sent in H as [Hsent' _]. right.
        split; [by rewrite Hsent', Hsent, <- app_assoc|].
        exists r. split; [done|by right].
      * intros [= <- <-]. left. split; [done|]. split_and!; [done..|].
        apply String.eqb_neq in E. by intros [= ->].
    + intros [= <- <-]. left. by split_and!.
  - intros H. apply gemini_beta_sent in H as [Hsent' _]. right.
    split; [by rewrite Hsent', Hsent, <- app_assoc|].
    exists r. split; [done|by left].
Qed.

Lemma gemini_sends_v1_then_v1beta_witness :
  length (Llm.sent (Llm._gemini_call MoreExamples.v1_rejects
                      MoreExamples.settings Examples.no_repr "system" "user"
                      (FDec 4 (-1)) MoreExamples.offline).2) = 2%nat.
Proof.
  destruct (gemini_sends_v1_then_v1beta nat MoreExamples.v1_rejects
              MoreExamples.settings Examples.no_repr "system" "user"
              (FDec 4 (-1)) MoreExamples.offline _ _ (surjective_pairing _))
    as [[_ H]|[-> _]]; [|done].
  vm_compute in H. by destruct H as [H _].
Defined.

Section LlmText.
Import Llm LlmSpec.

Lemma join_no_sep l : Py.join "" l = foldr String.append "" l.
Proof.
  induction l as [|p [|q l] IH]; [done| |].
  - cbn. by rewrite append_empty_r.
  - change (Py.join "" (p :: q :: l)) with (p +:+ "" +:+ Py.join "" (q :: l)).
    by rewrite IH, app_nil_l'.
Qed.

Lemma foldr_append_filter l :
  foldr String.append "" (List.filter (λ s, negb (String.eqb s "")) l)
  = foldr String.append "" l.
Proof.
  induction l as [|s l IH]; [done|]. cbn.
  destruct (String.eqb s "") eqn:E; cbn; [|by rewrite IH].
  apply String.eqb_eq in E as ->. by rewrite IH.
Qed.

Lemma part_texts (texts : list string) :
  for_each part_text (part <$> texts)
  = Returned (JStr <$> List.filter (λ s, negb (String.eqb s "")) texts).
Proof.
  induction texts as [|t texts IH]; [done|].
  cbn [fmap list_fmap for_each]. rewrite IH. cbn.
  by destruct (String.eqb t "").
Qed.

Lemma candidate_texts (texts : list (list string)) :
  for_each candidate_parts (candidate <$> texts)
  = Returned (JStr <$> List.filter (λ s, negb (String.eqb s ""))
                         (List.concat texts)).
Proof.
  induction texts as [|ts texts IH]; [done|].
  cbn [fmap list_fmap for_each List.concat]. rewrite IH.
  unfold candidate_parts at 1. cbn -[for_each part_text].
  rewrite part_texts. cbn. by rewrite List.filter_app, fmap_app.
Qed.

End LlmText.

(** X27.  The text of a Gemini response: the texts of all parts of all
    candidates, in order, joined without separator and stripped; parts
    with an empty text do not count.  A response without candidates, as
    the service sends it when the answer was blocked, gives the empty
    text. *)
Theorem gemini_text_joins_all_parts :
  (∀ (texts : list (list string)),
     Llm.generated_text (LlmSpec.response_of texts)
     = Llm.Returned (Py.strip (Py.join "" (List.concat texts))))
  ∧ (∀ (d : list (string * json)),
       Dict.get "candidates" d = None →
       Llm.generated_text (JObj d) = Llm.Returned "").
Proof.
  split.
  - intros texts. unfold Llm.generated_text, LlmSpec.response_of.
    cbn -[Llm.for_each Llm.candidate_parts Filler.join_values].
    rewrite candidate_texts.
    cbn -[Filler.join_values]. rewrite join_values_texts. cbn.
    by rewrite !join_no_sep, foldr_append_filter.
  - intros d Hd. unfold Llm.generated_text, Llm.get_or. cbn. by rewrite Hd.
Qed.

Section LlmRouting.
Import Llm.

Lemma openai_call_sent {W} (http_post : http W) cfg system user t
    (n : net W) res n' :
  _openai_call http_post cfg system user t n = (res, n') →
  sent n' = sent n ++ [openai_request cfg system user t].
Proof.
  unfold _openai_call.
  destruct (post _ _ _) as [[r|e] n1] eqn:Hpost;
    apply post_sent in Hpost as [Hsent _].
  - destruct (negb (ok r)); by intros [= <- <-].
  - by intros [= <- <-].
Qed.

End LlmRouting.

(** X28.  [llm_call] chooses the backend when it is called, by the
    provider name the module read at import, in lower case: for "openai"
    one request is sent, to the chat completions endpoint; for "google"
    one or two, to the Gemini endpoints; for any other name the call
    raises [RuntimeError] and nothing is sent.  The module imports with any
    provider name, and only with a key that is not empty. *)
Theorem llm_call_routes_by_provider :
  (∀ (W : Type) (http_post : Llm.http W) (cfg : Llm.config)
     (py_dumps : json → string) (system user : string) (t : temperature)
     (n : Llm.net W) (res : Llm.outcome string) (n' : Llm.net W),
     Llm.llm_call http_post cfg py_dumps system user t n = (res, n') →
     let f := Llm.temperature_of cfg t in
     (Llm.PROVIDER cfg = "openai"
      ∧ Llm.sent n' = Llm.sent n ++ [Llm.openai_request cfg system user f])
     ∨ (Llm.PROVIDER cfg = "google"
        ∧ (Llm.sent n' = Llm.sent n ++ [Llm.gemini_request_v1 cfg system user f]
           ∨ Llm.sent n'
             = Llm.sent n ++ [Llm.gemini_request_v1 cfg system user f;
                              Llm.gemini_request_beta cfg system user f]))
     ∨ (Llm.PROVIDER cfg ≠ "openai" ∧ Llm.PROVIDER cfg ≠ "google"
        ∧ n' = n
        ∧ res = Llm.Raised (Llm.Exn (RuntimeError
                  ("Unsupported AI_PROVIDER: " +:+ Llm.PROVIDER cfg)))))
  ∧ (∀ (py_float : string → option pyfloat) (env : gmap string string)
       (cfg : Llm.config),
       Llm.import_module py_float env = Llm.Returned cfg →
       Llm.API_KEY cfg ≠ ""
       ∧ env !! "AI_API_KEY" = Some (Llm.API_KEY cfg)
       ∧ Llm.PROVIDER cfg = Py.lower (default "google" (env !! "AI_PROVIDER")))
  ∧ (∀ (py_float : string → option pyfloat) (env : gmap string string)
       (key : string) (t : pyfloat),
       env !! "AI_API_KEY" = Some key → key ≠ "" →
       py_float (default "0.4" (env !! "TEMPERATURE")) = Some t →
       ∃ cfg, Llm.import_module py_float env = Llm.Returned cfg).
Proof.
  split_and!.
  - intros W http_post cfg py_dumps system user t n res n'.
    unfold Llm.llm_call. cbn zeta.
    destruct (String.eqb (Llm.PROVIDER cfg) "openai") eqn:E1.
    { apply String.eqb_eq in E1. intros H%openai_call_sent. by left. }
    destruct (String.eqb (Llm.PROVIDER cfg) "google") eqn:E2.
    { apply String.eqb_eq in E2. intros H. right. left. split; [done|].
      by apply (gemini_requests_sent _ _ _ _ _ _ _ _ _ H). }
    apply String.eqb_neq in E1, E2. intros [= <- <-]. right. right. done.
  - intros py_float env cfg. unfold Llm.import_module.
    destruct (py_float _) as [t|]; [|done].
    destruct (env !! "AI_API_KEY") as [[|c key]|]; try done.
    by intros [= <-].
  - intros py_float env key t Hkey Hne Ht. unfold Llm.import_module, Llm.getenv.
    rewrite Ht, Hkey. destruct key; [done|by eexists].
Qed.

Lemma llm_call_routes_by_provider_witness :
  let env : gmap string string := {[ "AI_API_KEY" := "secret" ]} in
  Llm.API_KEY MoreExamples.settings ≠ ""
  ∧ env !! "AI_API_KEY" = Some (Llm.API_KEY MoreExamples.settings)
  ∧ Llm.PROVIDER MoreExamples.settings
    = Py.lower (default "google" (env !! "AI_PROVIDER")).
Proof.
  intros env.
  apply (proj1 (proj2 llm_call_routes_by_provider) (λ _, Some (FDec 4 (-1)))
           env MoreExamples.settings).
  by vm_compute.
Defined.

(** X29.  The OpenAI backend sends one request, whatever happens.  An
    error status raises [RuntimeError] with the status and the body.
    Otherwise a text is returned exactly when the decoded body is an
    object whose "choices" is a list that starts with an object whose
    "message" is an object whose "content" is a text: the text returned
    is that content, stripped; further choices are ignored, and the text
    may be empty. *)
Theorem openai_returns_the_first_choice :
  ∀ (W : Type) (http_post : Llm.http W) (cfg : Llm.config)
    (system user : string) (t : pyfloat) (n : Llm.net W)
    (res : Llm.outcome string) (n' : Llm.net W),
    Llm._openai_call http_post cfg system user t n = (res, n') →
    Llm.sent n' = Llm.sent n ++ [Llm.openai_request cfg system user t]
    ∧ (∀ r, (http_post (Llm.openai_request cfg system user t) (Llm.wire n)).1
            = Llm.Returned r →
         (Llm.ok r = false →
          res = Llm.Raised (Llm.Exn (RuntimeError
                  ("OpenAI error " +:+ pretty (Llm.status_code r) +:+ ": "
                   +:+ Llm.text r))))
         ∧ (Llm.ok r = true →
            ∀ out, res = Llm.Returned out ↔
              ∃ d rest first message content,
                Json.loads (Llm.text r) = Ok (JObj d)
                ∧ Dict.get "choices" d = Some (JArr (JObj first :: rest))
                ∧ Dict.get "message" first = Some (JObj message)
                ∧ Dict.get "content" message = Some (JStr content)
                ∧ out = Py.strip content)).
Proof.
  intros W http_post cfg system user t n res n' Hcall.
  split; [by apply openai_call_sent in Hcall|].
  intros r Hr. unfold Llm._openai_call in Hcall.
  destruct (Llm.post _ _ _) as [r' n1] eqn:Hpost.
  apply post_sent in Hpost as [_ Hfirst]. rewrite Hr in Hfirst. subst r'.
  cbv beta iota in Hcall. split.
  - intros Hok. rewrite Hok in Hcall. cbn in Hcall. by injection Hcall as <- <-.
  - intros Hok. rewrite Hok in Hcall. cbn in Hcall.
    injection Hcall as <- <-. intros out.
    unfold Llm.json_of, Llm.openai_content. split.
    + destruct (Json.loads (Llm.text r)) as [data|]; cbn; [|done].
      destruct data as [| | | | | |d]; cbn; try done.
      destruct (Dict.get "choices" d) as [choices|] eqn:Hc; cbn; [|done].
      destruct choices as [| | | |[|]|[|first rest]|]; cbn; try done.
      destruct first as [| | | | | |first]; cbn; try done.
      destruct (Dict.get "message" first) as [message|] eqn:Hm; cbn; [|done].
      destruct message as [| | | | | |message]; cbn; try done.
      destruct (Dict.get "content" message) as [content|] eqn:Hcontent;
        cbn; [|done].
      destruct content as [| | | |content| |]; cbn; try done.
      intros [= <-]. by exists d, rest, first, message, content.
    + intros (d & rest & first & message & content
              & -> & Hc & Hm & Hcontent & ->).
      cbn. rewrite Hc. cbn. rewrite Hm. cbn. by rewrite Hcontent.
Qed.

Lemma openai_returns_the_first_choice_witness :
  Llm.sent (Llm._openai_call MoreExamples.v1_rejects MoreExamples.settings
              "system" "user" (FDec 4 (-1)) MoreExamples.offline).2
  = [Llm.openai_request MoreExamples.settings "system" "user" (FDec 4 (-1))].
Proof.
  exact (proj1 (openai_returns_the_first_choice nat MoreExamples.v1_rejects
                  MoreExamples.settings "system" "user" (FDec 4 (-1))
                  MoreExamples.offline _ _ (surjective_pairing _))).
Defined.
